(** * shipping-api: the checkout-and-fulfilment relay

    A shallow embedding of the four server variants of the repository
    (src/server.js, src/unnamed/part_000 and the two servers of
    src/unnamed/part_001) together with the fragment of the JavaScript
    run time their route handlers rely on.

    - [JS]        values, numbers, coercions, property reads, JSON.stringify
    - [Runtime]   the outside world (fetch, the Stripe SDK, the Shippo SDK),
                  the effect monad of a handler run, Express responses
    - [Shippo]    the provider client [shippoFetch], in its two versions
    - [Express]   what the four servers share
    - [ServerJs], [Part000], [Part001Sdk], [Part001Zapier]: the handlers
    - [Spec]      the vocabulary of the properties
    - [Scenario]  the end-to-end scenario of the specification as a world
    - the properties of the handlers. *)

From Stdlib Require Import ZArith List String Ascii Bool Lia.
From Stdlib Require Import DecimalString SpecFloat.
Import ListNotations.
Local Open Scope string_scope.
Local Open Scope Z_scope.

(* ===================================================================== *)
(** * The JavaScript fragment *)
(* ===================================================================== *)

Module JS.

(** ** Numbers

    A Number is an IEEE 754 binary64 value, kept as the [spec_float] of the
    Standard Library at precision 53 and maximal exponent 1024: a signed
    zero, a signed infinity, NaN, or a finite [m * 2^e] with its sign.
    Every result is rounded to nearest, ties to even, as the run time
    rounds it. *)

Definition number : Type := spec_float.
Definition prec : Z := 53.
Definition emax : Z := 1024.

Definition NaN : number := S754_nan.
Definition Infinity (negative : bool) : number := S754_infinity negative.

(** An integer: exact below 2^53, rounded above, infinite beyond the
    range. *)
Definition of_Z (z : Z) : number := binary_normalize prec emax z 0 false.

(** ** Strings of digits *)

Definition digits (n : Z) : string :=
  NilZero.string_of_uint (N.to_uint (Z.to_N n)).

Definition count_digits (n : Z) : Z := Z.of_nat (String.length (digits n)).

Fixpoint zeros (n : nat) : string :=
  match n with
  | O => ""
  | S n' => String "0" (zeros n')
  end.

Definition str_take (n : nat) (s : string) : string := substring 0 n s.
Definition str_drop (n : nat) (s : string) : string :=
  substring n (String.length s - n) s.

(** ** Decimals

    [round_decimal s m e] is the Number nearest to the decimal
    [m * 10^e], negative when [s]: what a literal or a numeric string of
    these digits denotes.  A decimal of more than 400 integer digits is
    beyond the largest Number, and one below [10^-400] is below half the
    smallest. *)
Definition round_decimal (s : bool) (m : positive) (e : Z) : number :=
  let d := count_digits (Zpos m) in
  if 400 <? d + e then S754_infinity s
  else if d + e <? -400 then S754_zero s
  else if 0 <=? e then
    match Zpos m * 10 ^ e with
    | Zpos n => binary_round prec emax s n 0
    | _ => S754_zero s
    end
  else
    let '(q, e', l) := SFdiv_core_binary prec emax (Zpos m) 0 (10 ^ (- e)) 0 in
    binary_round_aux prec emax s q e' l.

Definition decimal (m e : Z) : number :=
  match m with
  | Z0 => S754_zero false
  | Zpos p => round_decimal false p e
  | Zneg p => round_decimal true p e
  end.

(** ** Arithmetic *)

(** [x * y] *)
Definition mul (x y : number) : number := SFmul prec emax x y.

(** [Math.round]: the integer nearest to [x], ties towards +Infinity; a
    result of zero keeps the sign of [x]. *)
Definition Math_round (x : number) : number :=
  match x with
  | S754_finite s m e =>
      if 0 <=? e then x
      else
        let d := 2 ^ (- e) in
        let v := if s then Zneg m else Zpos m in
        let r := (2 * v + d) / (2 * d) in
        if r =? 0 then S754_zero s else of_Z r
  | _ => x
  end.

(** [x === y] on Numbers: NaN equals nothing, the two zeros are equal. *)
Definition num_eqb (x y : number) : bool := SFeqb x y.

(** A Number that JSON writes as a number, and not below zero. *)
Definition nonneg (x : number) : bool :=
  match x with
  | S754_zero _ => true
  | S754_finite false _ _ => true
  | _ => false
  end.

Definition negate (x : number) : number := SFopp x.

(** ** Number::toString

    The digits are the shortest decimal that denotes the Number, and among
    the shortest the nearest to it. *)

Fixpoint strip_zeros (fuel : nat) (m e : Z) : Z * Z :=
  match fuel with
  | O => (m, e)
  | S fuel' =>
      if (m mod 10 =? 0) then strip_zeros fuel' (m / 10) (e + 1)
      else (m, e)
  end.

(** [10^E <= n / d] *)
Definition pow10_le (E n d : Z) : bool :=
  if 0 <=? E then 10 ^ E * d <=? n else d <=? n * 10 ^ (- E).

(** The [E] with [10^E <= n / d < 10^(E+1)]. *)
Definition floor_log10 (n d : Z) : Z :=
  let E := count_digits n - count_digits d in
  if pow10_le E n d then E else E - 1.

(** [n / (d * 10^scale)]: quotient, remainder and divisor. *)
Definition scaled (n d scale : Z) : Z * Z * Z :=
  let num := if 0 <=? scale then n else n * 10 ^ (- scale) in
  let den := if 0 <=? scale then d * 10 ^ scale else d in
  (num / den, num mod den, den).

Definition denotes (c scale : Z) (x : number) : bool :=
  match c with
  | Zpos p => SFeqb (round_decimal false p scale) x
  | _ => false
  end.

(** The digits [c] and the scale of the shortest decimal [c * 10^scale]
    for the positive Number [x = n / d], tried with [k] digits and more. *)
Fixpoint shortest (fuel : nat) (k : Z) (x : number) (n d E : Z) : Z * Z :=
  match fuel with
  | O => (0, 0)
  | S fuel' =>
      let scale := E + 1 - k in
      let '(q, r, den) := scaled n d scale in
      let below := denotes q scale x in
      let above := denotes (q + 1) scale x in
      if below && above then
        match 2 * r ?= den with
        | Lt => (q, scale)
        | Gt => (q + 1, scale)
        | Eq => if Z.even q then (q, scale) else (q + 1, scale)
        end
      else if below then (q, scale)
      else if above then (q + 1, scale)
      else shortest fuel' (k + 1) x n d E
  end.

(** The text of the decimal [m * 10^e], [m] positive with no trailing
    zero. *)
Definition positive_to_string (m e : Z) : string :=
  let ds := digits m in
  let k := Z.of_nat (String.length ds) in
  let n := k + e in
  if (k <=? n) && (n <=? 21) then ds ++ zeros (Z.to_nat (n - k))
  else if (0 <? n) && (n <=? 21) then
    str_take (Z.to_nat n) ds ++ "." ++ str_drop (Z.to_nat n) ds
  else if (-6 <? n) && (n <=? 0) then
    "0." ++ zeros (Z.to_nat (- n)) ++ ds
  else
    let x := n - 1 in
    let sign := if 0 <=? x then "+" else "-" in
    let mant := if k =? 1 then ds else str_take 1 ds ++ "." ++ str_drop 1 ds in
    mant ++ "e" ++ sign ++ digits (Z.abs x).

Definition finite_to_string (m : positive) (e : Z) : string :=
  let n := if 0 <=? e then Zpos m * 2 ^ e else Zpos m in
  let d := if 0 <=? e then 1 else 2 ^ (- e) in
  let '(c, scale) :=
    shortest 17 1 (S754_finite false m e) n d (floor_log10 n d) in
  let '(c', scale') := strip_zeros 400 c scale in
  positive_to_string c' scale'.

Definition number_to_string (x : number) : string :=
  match x with
  | S754_nan => "NaN"
  | S754_infinity false => "Infinity"
  | S754_infinity true => "-Infinity"
  | S754_zero _ => "0"
  | S754_finite false m e => finite_to_string m e
  | S754_finite true m e => "-" ++ finite_to_string m e
  end.

(** ** StringToNumber: what [Number(s)] and the arithmetic operators make
       of a string

    White space and line terminators are trimmed, the empty string is
    [0], and the rest must be a decimal literal with optional sign,
    fraction and exponent, [Infinity], or an unsigned literal in radix 16,
    8 or 2; anything else is [NaN]. *)

(** The rest of [s] after one white space or line terminator at its head:
    TAB, LF, VT, FF, CR, SP, and in UTF-8 U+00A0, U+1680, U+2000..U+200A,
    U+2028, U+2029, U+202F, U+205F, U+3000 and U+FEFF. *)
Definition code (c : ascii) : Z := Z.of_nat (nat_of_ascii c).

Definition after_space (s : string) : option string :=
  match s with
  | String c r =>
      let n := code c in
      if ((9 <=? n) && (n <=? 13)) || (n =? 32) then Some r
      else
        match r with
        | String c1 r1 =>
            let n1 := code c1 in
            if (n =? 194) && (n1 =? 160) then Some r1
            else
              match r1 with
              | String c2 r2 =>
                  let n2 := code c2 in
                  if (n =? 225) && (n1 =? 154) && (n2 =? 128) then Some r2
                  else if (n =? 226) && (n1 =? 128)
                          && (((128 <=? n2) && (n2 <=? 138))
                              || (n2 =? 168) || (n2 =? 169) || (n2 =? 175))
                  then Some r2
                  else if (n =? 226) && (n1 =? 129) && (n2 =? 159) then Some r2
                  else if (n =? 227) && (n1 =? 128) && (n2 =? 128) then Some r2
                  else if (n =? 239) && (n1 =? 187) && (n2 =? 191) then Some r2
                  else None
              | EmptyString => None
              end
        | EmptyString => None
        end
  | EmptyString => None
  end.

Fixpoint trim_start_fuel (fuel : nat) (s : string) : string :=
  match fuel with
  | O => s
  | S fuel' =>
      match after_space s with
      | Some r => trim_start_fuel fuel' r
      | None => s
      end
  end.

Definition trim_start (s : string) : string :=
  trim_start_fuel (String.length s) s.

Definition is_empty (s : string) : bool :=
  match s with EmptyString => true | _ => false end.

Definition all_space (s : string) : bool := is_empty (trim_start s).

Fixpoint trim_end (s : string) : string :=
  match s with
  | String c r => if all_space s then EmptyString else String c (trim_end r)
  | EmptyString => EmptyString
  end.

Definition trim (s : string) : string := trim_end (trim_start s).

Definition digit_val (c : ascii) : option Z :=
  let n := code c in
  if (48 <=? n) && (n <=? 57) then Some (n - 48)
  else if (97 <=? n) && (n <=? 102) then Some (n - 87)
  else if (65 <=? n) && (n <=? 70) then Some (n - 55)
  else None.

Definition digit_in (base : Z) (c : ascii) : option Z :=
  match digit_val c with
  | Some d => if d <? base then Some d else None
  | None => None
  end.

(** The longest prefix of digits in [base]: the value accumulated on top of
    [acc], the number of digits read on top of [cnt], and the rest. *)
Fixpoint read_digits (base : Z) (s : string) (acc cnt : Z) : Z * Z * string :=
  match s with
  | String c r =>
      match digit_in base c with
      | Some d => read_digits base r (acc * base + d) (cnt + 1)
      | None => (acc, cnt, s)
      end
  | EmptyString => (acc, cnt, s)
  end.

Definition read_exponent (s : string) : option Z :=
  match s with
  | EmptyString => Some 0
  | String c r =>
      if (Ascii.eqb c "e" || Ascii.eqb c "E")%char then
        let (sgn, r') :=
          match r with
          | String "+"%char r' => (1, r')
          | String "-"%char r' => (-1, r')
          | _ => (1, r)
          end in
        let '(v, n, rest) := read_digits 10 r' 0 0 in
        if (0 <? n) && is_empty rest then Some (sgn * v) else None
      else None
  end.

Definition unsigned_decimal (s : string) : option number :=
  if String.eqb s "Infinity" then Some (Infinity false)
  else
    let '(ip, ni, r1) := read_digits 10 s 0 0 in
    let '(mant, nf, r2) :=
      match r1 with
      | String "."%char r => read_digits 10 r ip 0
      | _ => (ip, 0, r1)
      end in
    if ni + nf =? 0 then None
    else match read_exponent r2 with
         | Some x => Some (decimal mant (x - nf))
         | None => None
         end.

Definition radix_prefix (s : string) : option (Z * string) :=
  match s with
  | String "0"%char (String c r) =>
      if (Ascii.eqb c "x" || Ascii.eqb c "X")%char then Some (16, r)
      else if (Ascii.eqb c "o" || Ascii.eqb c "O")%char then Some (8, r)
      else if (Ascii.eqb c "b" || Ascii.eqb c "B")%char then Some (2, r)
      else None
  | _ => None
  end.

Definition or_NaN (o : option number) : number :=
  match o with Some x => x | None => NaN end.

Definition string_to_number (s : string) : number :=
  let t := trim s in
  if is_empty t then S754_zero false
  else match radix_prefix t with
       | Some (base, r) =>
           let '(v, n, rest) := read_digits base r 0 0 in
           if (0 <? n) && is_empty rest then of_Z v else NaN
       | None =>
           match t with
           | String "+"%char r => or_NaN (unsigned_decimal r)
           | String "-"%char r => negate (or_NaN (unsigned_decimal r))
           | _ => or_NaN (unsigned_decimal t)
           end
       end.

(** ** Values

    The values that reach the handlers: what [JSON.parse] produces (request
    bodies, provider and processor responses), [undefined], and the object
    literals the handlers build.  An object is its list of own properties
    in insertion order; a read takes the first entry of a key.  A string is
    its UTF-8 bytes, so [length] and indexing are those of the run time on
    ASCII text. *)

#[local] Set Warnings "-register-all".

Inductive value :=
| VUndefined
| VNull
| VBool (b : bool)
| VNumber (n : number)
| VString (s : string)
| VArray (items : list value)
| VObject (props : list (string * value)).

Definition nullish (v : value) : bool :=
  match v with
  | VUndefined | VNull => true
  | _ => false
  end.

(** ToString, as a template literal [`${v}`] applies it.  An array is the
    join of its items with [","], [null] and [undefined] items being empty;
    a plain object is ["[object Object]"]. *)
Fixpoint ToString (v : value) : string :=
  match v with
  | VUndefined => "undefined"
  | VNull => "null"
  | VBool true => "true"
  | VBool false => "false"
  | VNumber n => number_to_string n
  | VString s => s
  | VArray items =>
      (fix join (l : list value) : string :=
         match l with
         | [] => ""
         | x :: r =>
             let sx := if nullish x then "" else ToString x in
             match r with
             | [] => sx
             | _ => sx ++ "," ++ join r
             end
         end) items
  | VObject _ => "[object Object]"
  end.

(** ToNumber, as [Number(v)] and the operator [*] apply it. *)
Definition ToNumber (v : value) : number :=
  match v with
  | VUndefined => NaN
  | VNull => of_Z 0
  | VBool true => of_Z 1
  | VBool false => of_Z 0
  | VNumber n => n
  | VString s => string_to_number s
  | VArray _ => string_to_number (ToString v)
  | VObject _ => NaN
  end.

(** ToBoolean, as [!v], [||] and [if (v)] apply it. *)
Definition truthy (v : value) : bool :=
  match v with
  | VUndefined | VNull => false
  | VBool b => b
  | VNumber S754_nan => false
  | VNumber (S754_zero _) => false
  | VNumber _ => true
  | VString s => negb (is_empty s)
  | VArray _ | VObject _ => true
  end.

(** [a === b].  Arrays and objects are compared by identity; the two sides
    of every comparison in the handlers come from different documents (a
    provider response and a request body or a literal), so two of them are
    never the same object. *)
Definition strict_eq (a b : value) : bool :=
  match a, b with
  | VUndefined, VUndefined => true
  | VNull, VNull => true
  | VBool x, VBool y => Bool.eqb x y
  | VNumber x, VNumber y => num_eqb x y
  | VString x, VString y => String.eqb x y
  | _, _ => false
  end.

(** ** Exceptions *)

Record exn := Exn { name : string; message : string }.

Definition Error (msg : string) : exn := Exn "Error" msg.
Definition TypeError (msg : string) : exn := Exn "TypeError" msg.
Definition SyntaxError (msg : string) : exn := Exn "SyntaxError" msg.

Definition result (A : Type) : Type := exn + A.

(** ** Property reads

    [get v k] is [v.k] (or [v[k]]).  Reading a property of [undefined] or
    [null] throws; the message is V8's.  The members an object inherits
    from its prototype are not modelled apart from [length]; none of the
    keys the handlers read is such a member. *)

Fixpoint lookup (k : string) (props : list (string * value)) : value :=
  match props with
  | [] => VUndefined
  | (k', v) :: r => if String.eqb k k' then v else lookup k r
  end.

(** The array index a key denotes, if it is a canonical one. *)
Definition index_of_key (k : string) : option nat :=
  let '(v, n, rest) := read_digits 10 k 0 0 in
  if (0 <? n) && is_empty rest && String.eqb (digits v) k
  then Some (Z.to_nat v) else None.

Definition get (v : value) (k : string) : result value :=
  match v with
  | VUndefined | VNull =>
      inl (TypeError ("Cannot read properties of " ++ ToString v
                        ++ " (reading '" ++ k ++ "')"))
  | VObject props => inr (lookup k props)
  | VArray items =>
      if String.eqb k "length" then inr (VNumber (of_Z (Z.of_nat (List.length items))))
      else match index_of_key k with
           | Some i => inr (nth i items VUndefined)
           | None => inr VUndefined
           end
  | VString s =>
      if String.eqb k "length" then inr (VNumber (of_Z (Z.of_nat (String.length s))))
      else match index_of_key k with
           | Some i =>
               match String.get i s with
               | Some c => inr (VString (String c EmptyString))
               | None => inr VUndefined
               end
           | None => inr VUndefined
           end
  | VBool _ | VNumber _ => inr VUndefined
  end.

(** [const { k } = v]: the read of a destructuring pattern; [src] is the
    text of the initialiser, which V8 quotes in the message. *)
Definition destructure (v : value) (src k : string) : result value :=
  if nullish v then
    inl (TypeError ("Cannot destructure property '" ++ k ++ "' of '" ++ src
                      ++ "' as it is " ++ ToString v ++ "."))
  else get v k.

(** [v?.k] *)
Definition get_opt (v : value) (k : string) : result value :=
  if nullish v then inr VUndefined else get v k.

(** ** JSON.stringify

    [stringify v] is [JSON.stringify(v)] for a [v] other than [undefined];
    the handlers pass it object literals. *)

Definition dquote : ascii := ascii_of_nat 34.

Definition hex_digit (n : Z) : ascii :=
  match String.get (Z.to_nat n) "0123456789abcdef" with
  | Some c => c
  | None => "0"%char
  end.

Definition escape_char (c : ascii) : string :=
  let n := Z.of_nat (nat_of_ascii c) in
  if n =? 34 then String "\" (String dquote "")
  else if n =? 92 then "\\"
  else if n =? 8 then "\b"
  else if n =? 12 then "\f"
  else if n =? 10 then "\n"
  else if n =? 13 then "\r"
  else if n =? 9 then "\t"
  else if n <? 32 then
    "\u00" ++ String (hex_digit (n / 16)) (String (hex_digit (n mod 16)) "")
  else String c "".

Fixpoint escape (s : string) : string :=
  match s with
  | EmptyString => ""
  | String c r => escape_char c ++ escape r
  end.

Definition quote (s : string) : string :=
  String dquote (escape s ++ String dquote "").

Definition json_number (n : number) : string :=
  match n with
  | S754_zero _ | S754_finite _ _ _ => number_to_string n
  | _ => "null"
  end.

(** The text of a value that is not [undefined].  In an array [undefined]
    is written [null]; in an object a property whose value is [undefined]
    is left out. *)
Fixpoint stringify (v : value) : string :=
  match v with
  | VUndefined | VNull => "null"
  | VBool true => "true"
  | VBool false => "false"
  | VNumber n => json_number n
  | VString s => quote s
  | VArray items =>
      "[" ++ (fix elems (l : list value) : string :=
                match l with
                | [] => ""
                | x :: r =>
                    match r with
                    | [] => stringify x
                    | _ => stringify x ++ "," ++ elems r
                    end
                end) items ++ "]"
  | VObject props =>
      "{" ++ (fix members (l : list (string * value)) (first : bool) : string :=
                match l with
                | [] => ""
                | (k, x) :: r =>
                    match x with
                    | VUndefined => members r first
                    | _ => (if first then "" else ",")
                             ++ quote k ++ ":" ++ stringify x ++ members r false
                    end
                end) props true ++ "}"
  end.

End JS.

(* ===================================================================== *)
(** * The run time of a handler *)
(* ===================================================================== *)

Module Runtime.
Import JS.

(** ** Configuration: the variables of [process.env] the servers read *)

Record Env := {
  SHIPPO_API_KEY : option string;
  STRIPE_WEBHOOK_SECRET : option string;
  BASE_URL : option string
}.

Definition env_value (o : option string) : value :=
  match o with
  | Some s => VString s
  | None => VUndefined
  end.

(** ** HTTP, as [fetch] sees it *)

Definition headers := list (string * string).

(** The second argument of [fetch]; an absent member is [None]. *)
Record RequestInit := {
  init_method : option string;
  init_body : option string;
  init_headers : option headers
}.

Definition no_options : RequestInit :=
  {| init_method := None; init_body := None; init_headers := None |}.

(** A response whose body has arrived: [res.text()] is [resp_text] and
    [res.json()] is [resp_json], the document the body parses to or the
    SyntaxError of the engine when it is not JSON. *)
Record HttpResponse := {
  resp_status : Z;
  resp_text : string;
  resp_json : result value
}.

Definition resp_ok (r : HttpResponse) : bool :=
  (200 <=? resp_status r) && (resp_status r <=? 299).

(** The body of a webhook request as the handler finds it in [req.body]:
    the bytes [express.raw] kept, or the document an earlier
    [express.json] has already parsed them into. *)
Inductive payload :=
| Raw (bytes : string)
| Parsed (doc : value).

(** ** The outside world

    Every call that leaves the process is answered by the world.  The
    answers depend on the call alone: no handler issues the same call
    twice in one run, so nothing is lost against a world with state. *)
Record World := {
  (** the network: [fetch(url, init)] *)
  net_fetch : string -> RequestInit -> result HttpResponse;
  (** [stripe.webhooks.constructEvent(body, sig, secret)] on a body that
      is the raw bytes of the request *)
  stripe_verify : string -> value -> value -> result value;
  (** what it throws on a body that is not *)
  stripe_unverifiable : value -> value -> value -> exn;
  (** [stripe.checkout.sessions.create(params)] *)
  stripe_sessions_create : value -> result value;
  (** the Shippo SDK: [shippoClient.order.retrieve],
      [shippoClient.shipment.retrieve], [shippoClient.transaction.create] *)
  shippo_order_retrieve : value -> result value;
  shippo_shipment_retrieve : value -> result value;
  shippo_transaction_create : value -> result value
}.

(** [stripe.webhooks.constructEvent(body, sig, secret)].  The signature
    is computed over the bytes Stripe has sent: a body that an earlier
    parser has turned into a document is never verified, whatever its
    signature. *)
Definition stripe_constructEvent (w : World) (body : payload)
    (sig secret : value) : result value :=
  match body with
  | Raw bytes => stripe_verify w bytes sig secret
  | Parsed doc => inl (stripe_unverifiable w doc sig secret)
  end.

(** ** What an Express handler sends *)

Inductive response_body :=
| Text (s : string)
| Json (v : value).

Record Response := { status : Z; body : response_body }.

(** ** Effects *)

Inductive effect :=
| Fetch (url : string) (init : RequestInit)
| SessionsCreate (params : value)
| OrderRetrieve (id : value)
| ShipmentRetrieve (id : value)
| TransactionCreate (params : value)
| ConsoleError (args : list string)
| Respond (r : Response).

(** A computation: the effects it performed, in order, and how it ended.
    A handler that ends in [inl e] is an [async] function whose promise
    rejects: what it has not sent by then it does not send. *)
Definition M (A : Type) : Type := list effect * result A.

Definition ret {A} (a : A) : M A := ([], inr a).
Definition throw {A} (e : exn) : M A := ([], inl e).

Definition bind {A B} (m : M A) (f : A -> M B) : M B :=
  match m with
  | (t, inl e) => (t, inl e)
  | (t, inr a) => let (t', r) := f a in ((t ++ t')%list, r)
  end.

(** [try { m } catch (err) { h err }] *)
Definition try_catch {A} (m : M A) (h : exn -> M A) : M A :=
  match m with
  | (t, inl e) => let (t', r) := h e in ((t ++ t')%list, r)
  | (t, inr a) => (t, inr a)
  end.

(** The outcome of [m] as a value, for a [catch] that returns early. *)
Definition attempt {A} (m : M A) : M (result A) :=
  (fst m, inr (snd m)).

Definition lift {A} (r : result A) : M A := ([], r).
Definition perform {A} (e : effect) (r : result A) : M A := ([e], r).

Declare Scope js_scope.
Delimit Scope js_scope with js.
Notation "x <- m ;; k" := (bind m (fun x => k))
  (at level 61, m at next level, right associativity) : js_scope.
Notation "m ;;; k" := (bind m (fun _ => k))
  (at level 61, right associativity) : js_scope.

Definition console_error (args : list string) : M unit :=
  perform (ConsoleError args) (inr tt).

(** [res.json(v)], [res.status(c).json(v)], [res.status(c).send(s)] *)
Definition res_json (v : value) : M unit :=
  perform (Respond {| status := 200; body := Json v |}) (inr tt).
Definition res_status_json (c : Z) (v : value) : M unit :=
  perform (Respond {| status := c; body := Json v |}) (inr tt).
Definition res_status_send (c : Z) (s : string) : M unit :=
  perform (Respond {| status := c; body := Text s |}) (inr tt).

(** The bytes of a response body: [res.json] writes [JSON.stringify]. *)
Definition wire (b : response_body) : string :=
  match b with
  | Text s => s
  | Json v => stringify v
  end.

(** ** Array methods with a callback that may throw *)

Fixpoint mapM {A B} (f : A -> result B) (l : list A) : result (list B) :=
  match l with
  | [] => inr []
  | x :: r =>
      match f x with
      | inl e => inl e
      | inr y => match mapM f r with
                 | inl e => inl e
                 | inr ys => inr (y :: ys)
                 end
      end
  end.

Fixpoint findM {A} (p : A -> result bool) (l : list A) : result (option A) :=
  match l with
  | [] => inr None
  | x :: r =>
      match p x with
      | inl e => inl e
      | inr true => inr (Some x)
      | inr false => findM p r
      end
  end.

Definition not_a_function (src : string) : exn :=
  TypeError (src ++ " is not a function").

(** [v.map(f)], where [src] is the text of the callee. *)
Definition array_map (v : value) (src : string) (f : value -> result value)
  : result value :=
  match v with
  | VArray items =>
      match mapM f items with
      | inl e => inl e
      | inr ys => inr (VArray ys)
      end
  | VUndefined | VNull =>
      inl (TypeError ("Cannot read properties of " ++ ToString v ++ " (reading 'map')"))
  | _ => inl (not_a_function src)
  end.

(** [v.find(p)] *)
Definition array_find (v : value) (src : string) (p : value -> result bool)
  : result value :=
  match v with
  | VArray items =>
      match findM p items with
      | inl e => inl e
      | inr (Some x) => inr x
      | inr None => inr VUndefined
      end
  | VUndefined | VNull =>
      inl (TypeError ("Cannot read properties of " ++ ToString v ++ " (reading 'find')"))
  | _ => inl (not_a_function src)
  end.

(** ** What a run of a handler amounts to *)

Fixpoint response_of (t : list effect) : option Response :=
  match t with
  | [] => None
  | Respond r :: _ => Some r
  | _ :: t' => response_of t'
  end.

Definition is_outbound (e : effect) : bool :=
  match e with
  | ConsoleError _ | Respond _ => false
  | _ => true
  end.

(** The calls that left the process, in order. *)
Definition outbound (t : list effect) : list effect := filter is_outbound t.

End Runtime.

(* ===================================================================== *)
(** * The shipping provider client *)
(* ===================================================================== *)

Module Shippo.
Import JS Runtime.
Local Open Scope js_scope.

Definition SHIPPO_BASE : string := "https://api.goshippo.com".

(** [{ ...base, ...extra }] on header objects: a key keeps the place of
    its first occurrence and takes the value of its last. *)
Fixpoint header (k : string) (h : headers) : option string :=
  match h with
  | [] => None
  | (k', v) :: r => if String.eqb k k' then Some v else header k r
  end.

Definition spread (base extra : headers) : headers :=
  (map (fun kv => match header (fst kv) extra with
                  | Some v => (fst kv, v)
                  | None => kv
                  end) base
   ++ filter (fun kv => match header (fst kv) base with
                        | Some _ => false
                        | None => true
                        end) extra)%list.

Section Client.
Variable w : World.
Variable env : Env.

(** [const SHIPPO_TOKEN = process.env.SHIPPO_API_KEY] *)
Definition SHIPPO_TOKEN : value := env_value (SHIPPO_API_KEY env).

(** The [init] that both versions of [shippoFetch] hand to [fetch]:
    [{ ...options, headers: { Authorization, "Content-Type",
    ...(options.headers || {}) } }]. *)
Definition shippo_init (options : RequestInit) : RequestInit :=
  {| init_method := init_method options;
     init_body := init_body options;
     init_headers :=
       Some (spread [("Authorization", "ShippoToken " ++ ToString SHIPPO_TOKEN);
                     ("Content-Type", "application/json")]
                    (match init_headers options with
                     | Some h => h
                     | None => []
                     end)) |}.

Definition fetch (url : string) (init : RequestInit) : M HttpResponse :=
  perform (Fetch url init) (net_fetch w url init).

(** [await res.json()] *)
Definition res_json_body (res : HttpResponse) : M value :=
  lift (resp_json res).

(** [shippoFetch] of src/server.js and src/unnamed/part_000. *)
Definition shippoFetch (path : string) (options : RequestInit) : M value :=
  res <- fetch (SHIPPO_BASE ++ path) (shippo_init options) ;;
  if negb (resp_ok res) then
    let text := resp_text res in
    throw (Error ("Shippo error " ++ ToString (VNumber (of_Z (resp_status res)))
                    ++ ": " ++ text))
  else res_json_body res.

(** [shippoFetch] of the second server of src/unnamed/part_001: the body
    is parsed first, and a failure carries the parsed body alone. *)
Definition shippoFetch_zapier (path : string) (options : RequestInit) : M value :=
  res <- fetch (SHIPPO_BASE ++ path) (shippo_init options) ;;
  data <- res_json_body res ;;
  if negb (resp_ok res) then throw (Error (stringify data))
  else ret data.

End Client.
End Shippo.

(* ===================================================================== *)
(** * What the four servers share *)
(* ===================================================================== *)

Module Express.
Import JS Runtime.

(** A request to the webhook route: [req.body] and [req.headers] (Node
    keeps header names in lower case). *)
Record WebhookRequest := {
  req_body : payload;
  req_headers : headers
}.

(** [req.headers[k]] *)
Definition req_header (req : WebhookRequest) (k : string) : value :=
  match Shippo.header k (req_headers req) with
  | Some s => VString s
  | None => VUndefined
  end.

Definition rbind {A B} (r : result A) (f : A -> result B) : result B :=
  match r with
  | inl e => inl e
  | inr a => f a
  end.

Declare Scope res_scope.
Delimit Scope res_scope with res.
Notation "x <- r ;; k" := (rbind r (fun x => k))
  (at level 61, r at next level, right associativity) : res_scope.

(** [await stripe.checkout.sessions.create(params)] *)
Definition sessions_create (w : World) (params : value) : M value :=
  perform (SessionsCreate params) (stripe_sessions_create w params).

(** The callback of [shipment.rates.map] in every rate-inquiry handler:
    [r => ({ rate_id: r.object_id, carrier: r.provider,
             service: r.servicelevel.name, amount: Number(r.amount),
             eta: r.estimated_days })] *)
Definition rate_entry (r : value) : result value :=
  (object_id <- get r "object_id" ;;
   provider <- get r "provider" ;;
   servicelevel <- get r "servicelevel" ;;
   service <- get servicelevel "name" ;;
   amount <- get r "amount" ;;
   estimated_days <- get r "estimated_days" ;;
   inr (VObject [("rate_id", object_id);
                 ("carrier", provider);
                 ("service", service);
                 ("amount", VNumber (ToNumber amount));
                 ("eta", estimated_days)]))%res.

(** The callback of [shipment.rates.find]: [r => r.object_id === rateId] *)
Definition matches (rateId : value) (r : value) : result bool :=
  (object_id <- get r "object_id" ;;
   inr (strict_eq object_id rateId))%res.

(** [Math.round(x * 100)] *)
Definition cents (x : value) : value :=
  VNumber (Math_round (mul (ToNumber x) (of_Z 100))).

(** The body of a label purchase:
    [{ rate: rateId, label_file_type: "PDF", async: false }] *)
Definition label_order (rateId : value) : value :=
  VObject [("rate", rateId);
           ("label_file_type", VString "PDF");
           ("async", VBool false)].

(** [{ method: "POST", body: JSON.stringify(v) }] *)
Definition post_json (v : value) : RequestInit :=
  {| init_method := Some "POST";
     init_body := Some (stringify v);
     init_headers := None |}.

(** The argument of [stripe.checkout.sessions.create] in the servers that
    price the session from the provider's rate. *)
Definition session_params (product_name : string) (unit_amount : value)
    (extra : list (string * value)) (metadata : list (string * value))
    (success_url cancel_url : string) : value :=
  VObject ([("mode", VString "payment")] ++ extra ++
           [("line_items",
              VArray [VObject
                [("price_data",
                   VObject [("currency", VString "usd");
                            ("product_data", VObject [("name", VString product_name)]);
                            ("unit_amount", unit_amount)]);
                 ("quantity", VNumber (of_Z 1))]]);
            ("metadata", VObject metadata);
            ("success_url", VString success_url);
            ("cancel_url", VString cancel_url)])%list.

End Express.

(* ===================================================================== *)
(** * src/server.js *)
(* ===================================================================== *)

Module ServerJs.
Import JS Runtime Express.
Local Open Scope js_scope.

Section Server.
Variable w : World.
Variable env : Env.

Definition shippoFetch := Shippo.shippoFetch w env.

(** [app.post("/webhook/stripe", express.raw(...), async (req, res) => ...)] *)
Definition post_webhook_stripe (req : WebhookRequest) : M unit :=
  let sig := req_header req "stripe-signature" in
  r <- attempt (lift (stripe_constructEvent w (req_body req) sig
                        (env_value (STRIPE_WEBHOOK_SECRET env)))) ;;
  match r with
  | inl err =>
      console_error [message err] ;;;
      res_status_send 400 "Webhook Error"
  | inr event =>
      type <- lift (get event "type") ;;
      (if strict_eq type (VString "checkout.session.completed") then
         data <- lift (get event "data") ;;
         session <- lift (get data "object") ;;
         metadata <- lift (get session "metadata") ;;
         rateId <- lift (destructure metadata "session.metadata" "rateId") ;;
         _ <- shippoFetch "/transactions" (post_json (label_order rateId)) ;;
         ret tt
       else ret tt) ;;;
      res_json (VObject [("received", VBool true)])
  end.

(** [app.get("/api/shipping/:orderToken", ...)] *)
Definition get_api_shipping (orderToken : string) : M unit :=
  try_catch
    (order <- shippoFetch ("/orders/" ++ orderToken) no_options ;;
     shipments <- lift (get order "shipments") ;;
     none <- (if negb (truthy shipments) then ret true
              else length <- lift (get shipments "length") ;;
                   ret (negb (truthy length))) ;;
     if none : bool then
       res_status_json 404 (VObject [("error", VString "No shipment found")])
     else
       first <- lift (get shipments "0") ;;
       shipment <- shippoFetch ("/shipments/" ++ ToString first) no_options ;;
       rates0 <- lift (get shipment "rates") ;;
       rates <- lift (array_map rates0 "shipment.rates.map" rate_entry) ;;
       to_address <- lift (get order "to_address") ;;
       name <- lift (get_opt to_address "name") ;;
       city <- lift (get_opt to_address "city") ;;
       state <- lift (get_opt to_address "state") ;;
       res_json (VObject [("customer", VObject [("name", name);
                                                ("city", city);
                                                ("state", state)]);
                          ("rates", rates)]))
    (fun err =>
       console_error [message err] ;;;
       res_status_json 500 (VObject [("error", VString "Failed to load shipping")])).

(** [app.post("/api/checkout", ...)]; [body] is [req.body]. *)
Definition post_api_checkout (body : value) : M unit :=
  try_catch
    (orderToken <- lift (destructure body "req.body" "orderToken") ;;
     rateId <- lift (destructure body "req.body" "rateId") ;;
     order <- shippoFetch ("/orders/" ++ ToString orderToken) no_options ;;
     shipments <- lift (get order "shipments") ;;
     first <- lift (get shipments "0") ;;
     shipment <- shippoFetch ("/shipments/" ++ ToString first) no_options ;;
     rates <- lift (get shipment "rates") ;;
     rate <- lift (array_find rates "shipment.rates.find" (matches rateId)) ;;
     if negb (truthy rate) then
       res_status_json 400 (VObject [("error", VString "Invalid rate")])
     else
       provider <- lift (get rate "provider") ;;
       servicelevel <- lift (get rate "servicelevel") ;;
       service <- lift (get servicelevel "name") ;;
       amount <- lift (get rate "amount") ;;
       session <- sessions_create w
         (session_params
            ("Shipping – " ++ ToString provider ++ " " ++ ToString service)
            (cents amount)
            []
            [("rateId", rateId)]
            (ToString (env_value (BASE_URL env)) ++ "/shipping-success.html")
            (ToString (env_value (BASE_URL env)) ++ "/shipping-cancelled.html")) ;;
       url <- lift (get session "url") ;;
       res_json (VObject [("url", url)]))
    (fun err =>
       console_error [message err] ;;;
       res_status_json 500 (VObject [("error", VString "Checkout failed")])).

End Server.
End ServerJs.

(* ===================================================================== *)
(** * src/unnamed/part_000 *)
(* ===================================================================== *)

Module Part000.
Import JS Runtime Express.
Local Open Scope js_scope.

Section Server.
Variable w : World.
Variable env : Env.

Definition shippoFetch := Shippo.shippoFetch w env.

(** [app.post("/webhook/stripe", express.raw(...), async (req, res) => ...)] *)
Definition post_webhook_stripe (req : WebhookRequest) : M unit :=
  let sig := req_header req "stripe-signature" in
  r <- attempt (lift (stripe_constructEvent w (req_body req) sig
                        (env_value (STRIPE_WEBHOOK_SECRET env)))) ;;
  match r with
  | inl err =>
      console_error ["Webhook verification failed:"; message err] ;;;
      res_status_send 400 "Webhook Error"
  | inr event =>
      type <- lift (get event "type") ;;
      (if strict_eq type (VString "checkout.session.completed") then
         data <- lift (get event "data") ;;
         session <- lift (get data "object") ;;
         metadata <- lift (get session "metadata") ;;
         rateId <- lift (destructure metadata "session.metadata" "rateId") ;;
         try_catch
           (_ <- shippoFetch "/transactions" (post_json (label_order rateId)) ;;
            ret tt)
           (fun err =>
              console_error ["Shippo label purchase failed:"; message err])
       else ret tt) ;;;
      res_json (VObject [("received", VBool true)])
  end.

(** [app.get("/api/shipping/:orderToken", ...)] *)
Definition get_api_shipping (orderToken : string) : M unit :=
  try_catch
    (order <- shippoFetch ("/orders/" ++ orderToken) no_options ;;
     shipments <- lift (get order "shipments") ;;
     none <- (if negb (truthy shipments) then ret true
              else length <- lift (get shipments "length") ;;
                   ret (strict_eq length (VNumber (of_Z 0)))) ;;
     if none : bool then
       res_status_json 400
         (VObject [("error",
                    VString "Order has no shipments. Ensure parcels were added.")])
     else
       shipmentId <- lift (get shipments "0") ;;
       shipment <- shippoFetch ("/shipments/" ++ ToString shipmentId) no_options ;;
       rates0 <- lift (get shipment "rates") ;;
       rates <- lift (array_map rates0 "shipment.rates.map" rate_entry) ;;
       to_address <- lift (get order "to_address") ;;
       name <- lift (get_opt to_address "name") ;;
       city <- lift (get_opt to_address "city") ;;
       state <- lift (get_opt to_address "state") ;;
       res_json (VObject [("customer",
                           VObject [("name", if truthy name then name
                                             else VString "Customer");
                                    ("city", city);
                                    ("state", state)]);
                          ("rates", rates)]))
    (fun err =>
       console_error ["Shipping fetch error:"; message err] ;;;
       res_status_json 500 (VObject [("error", VString "Failed to load shipping rates");
                                     ("details", VString (message err))])).

(** [app.post("/api/checkout", ...)]; [body] is [req.body]. *)
Definition post_api_checkout (body : value) : M unit :=
  try_catch
    (orderToken <- lift (destructure body "req.body" "orderToken") ;;
     rateId <- lift (destructure body "req.body" "rateId") ;;
     if negb (truthy orderToken) || negb (truthy rateId) then
       res_status_json 400 (VObject [("error", VString "Missing orderToken or rateId")])
     else
       order <- shippoFetch ("/orders/" ++ ToString orderToken) no_options ;;
       shipments <- lift (get order "shipments") ;;
       first <- lift (get shipments "0") ;;
       shipment <- shippoFetch ("/shipments/" ++ ToString first) no_options ;;
       rates <- lift (get shipment "rates") ;;
       rate <- lift (array_find rates "shipment.rates.find" (matches rateId)) ;;
       if negb (truthy rate) then
         res_status_json 400 (VObject [("error", VString "Invalid rate selected")])
       else
         provider <- lift (get rate "provider") ;;
         servicelevel <- lift (get rate "servicelevel") ;;
         service <- lift (get servicelevel "name") ;;
         amount <- lift (get rate "amount") ;;
         session <- sessions_create w
           (session_params
              ("Shipping – " ++ ToString provider ++ " " ++ ToString service)
              (cents amount)
              [("payment_method_types", VArray [VString "card"])]
              [("rateId", rateId)]
              (ToString (env_value (BASE_URL env)) ++ "/shipping-success.html")
              (ToString (env_value (BASE_URL env)) ++ "/shipping-cancelled.html")) ;;
         url <- lift (get session "url") ;;
         res_json (VObject [("url", url)]))
    (fun err =>
       console_error ["Checkout error:"; message err] ;;;
       res_status_json 500 (VObject [("error", VString "Checkout failed");
                                     ("details", VString (message err))])).

End Server.
End Part000.

(* ===================================================================== *)
(** * src/unnamed/part_001, first server: the Shippo SDK *)
(* ===================================================================== *)

Module Part001Sdk.
Import JS Runtime Express.
Local Open Scope js_scope.

Section Server.
Variable w : World.
Variable env : Env.

Definition order_retrieve (id : value) : M value :=
  perform (OrderRetrieve id) (shippo_order_retrieve w id).
Definition shipment_retrieve (id : value) : M value :=
  perform (ShipmentRetrieve id) (shippo_shipment_retrieve w id).
Definition transaction_create (params : value) : M value :=
  perform (TransactionCreate params) (shippo_transaction_create w params).

(** [app.post("/webhook/stripe", express.raw(...), async (req, res) => ...)] *)
Definition post_webhook_stripe (req : WebhookRequest) : M unit :=
  let sig := req_header req "stripe-signature" in
  r <- attempt (lift (stripe_constructEvent w (req_body req) sig
                        (env_value (STRIPE_WEBHOOK_SECRET env)))) ;;
  match r with
  | inl err => res_status_send 400 "Webhook Error"
  | inr event =>
      type <- lift (get event "type") ;;
      (if strict_eq type (VString "checkout.session.completed") then
         data <- lift (get event "data") ;;
         session <- lift (get data "object") ;;
         metadata <- lift (get session "metadata") ;;
         orderToken <- lift (destructure metadata "session.metadata" "orderToken") ;;
         rateId <- lift (destructure metadata "session.metadata" "rateId") ;;
         _ <- transaction_create (label_order rateId) ;;
         ret tt
       else ret tt) ;;;
      res_json (VObject [("received", VBool true)])
  end.

(** [app.get("/api/shipping/:orderToken", ...)] *)
Definition get_api_shipping (orderToken : string) : M unit :=
  try_catch
    (order <- order_retrieve (VString orderToken) ;;
     shipments <- lift (get order "shipments") ;;
     first <- lift (get shipments "0") ;;
     shipment <- shipment_retrieve first ;;
     rates0 <- lift (get shipment "rates") ;;
     rates <- lift (array_map rates0 "shipment.rates.map" rate_entry) ;;
     to_address <- lift (get order "to_address") ;;
     name <- lift (get to_address "name") ;;
     city <- lift (get to_address "city") ;;
     state <- lift (get to_address "state") ;;
     res_json (VObject [("customer", VObject [("name", name);
                                              ("city", city);
                                              ("state", state)]);
                        ("rates", rates)]))
    (fun _ =>
       res_status_json 500 (VObject [("error", VString "Failed to load shipping")])).

(** [app.post("/api/checkout", ...)]; [body] is [req.body]. *)
Definition post_api_checkout (body : value) : M unit :=
  try_catch
    (orderToken <- lift (destructure body "req.body" "orderToken") ;;
     rateId <- lift (destructure body "req.body" "rateId") ;;
     order <- order_retrieve orderToken ;;
     shipments <- lift (get order "shipments") ;;
     first <- lift (get shipments "0") ;;
     shipment <- shipment_retrieve first ;;
     rates <- lift (get shipment "rates") ;;
     rate <- lift (array_find rates "shipment.rates.find" (matches rateId)) ;;
     provider <- lift (get rate "provider") ;;
     servicelevel <- lift (get rate "servicelevel") ;;
     service <- lift (get servicelevel "name") ;;
     amount <- lift (get rate "amount") ;;
     session <- sessions_create w
       (session_params
          ("Shipping â€“ " ++ ToString provider ++ " " ++ ToString service)
          (cents amount)
          []
          [("orderToken", orderToken); ("rateId", rateId)]
          (ToString (env_value (BASE_URL env)) ++ "/shipping-success.html")
          (ToString (env_value (BASE_URL env)) ++ "/shipping-cancelled.html")) ;;
     url <- lift (get session "url") ;;
     res_json (VObject [("url", url)]))
    (fun _ =>
       res_status_json 500 (VObject [("error", VString "Checkout failed")])).

End Server.
End Part001Sdk.

(* ===================================================================== *)
(** * src/unnamed/part_001, second server: the Zapier flow

    This server installs [express.json()] for every route before the
    webhook route, so the webhook handler finds in [req.body] what that
    parser left there. *)
(* ===================================================================== *)

Module Part001Zapier.
Import JS Runtime Express.
Local Open Scope js_scope.

Section Server.
Variable w : World.
Variable env : Env.

Definition shippoFetch := Shippo.shippoFetch_zapier w env.

(** [app.post("/zapier/create-shipping-session", ...)]; [body] is
    [req.body]. *)
Definition post_zapier_create_shipping_session (body : value) : M unit :=
  try_catch
    (from <- lift (destructure body "req.body" "from") ;;
     to <- lift (destructure body "req.body" "to") ;;
     parcel <- lift (destructure body "req.body" "parcel") ;;
     shipment <- shippoFetch "/shipments/"
       (post_json (VObject [("address_from", from);
                            ("address_to", to);
                            ("parcels", VArray [parcel]);
                            ("async", VBool false)])) ;;
     sessionId <- lift (get shipment "object_id") ;;
     res_json (VObject [("shipping_session_id", sessionId);
                        ("checkout_url",
                         VString (ToString (env_value (BASE_URL env))
                                    ++ "/pay-shipping.html?session="
                                    ++ ToString sessionId))]))
    (fun err =>
       res_status_json 500 (VObject [("error", VString (message err))])).

(** [app.get("/api/shipping/:sessionId", ...)] *)
Definition get_api_shipping (sessionId : string) : M unit :=
  try_catch
    (shipment <- shippoFetch ("/shipments/" ++ sessionId) no_options ;;
     rates0 <- lift (get shipment "rates") ;;
     rates <- lift (array_map rates0 "shipment.rates.map" rate_entry) ;;
     res_json (VObject [("rates", rates)]))
    (fun err =>
       res_status_json 500 (VObject [("error", VString (message err))])).

(** [app.post("/api/checkout", ...)]; [body] is [req.body]. *)
Definition post_api_checkout (body : value) : M unit :=
  try_catch
    (rateId <- lift (destructure body "req.body" "rateId") ;;
     amount <- lift (get body "amount") ;;
     session <- sessions_create w
       (session_params
          "Shipping Charge"
          (cents amount)
          []
          [("rateId", rateId)]
          (ToString (env_value (BASE_URL env)) ++ "/success.html")
          (ToString (env_value (BASE_URL env)) ++ "/cancel.html")) ;;
     url <- lift (get session "url") ;;
     res_json (VObject [("url", url)]))
    (fun err =>
       res_status_json 500 (VObject [("error", VString (message err))])).

(** [app.post("/webhook/stripe", express.raw(...), async (req, res) => ...)] *)
Definition post_webhook_stripe (req : WebhookRequest) : M unit :=
  try_catch
    (let sig := req_header req "stripe-signature" in
     event <- lift (stripe_constructEvent w (req_body req) sig
                      (env_value (STRIPE_WEBHOOK_SECRET env))) ;;
     type <- lift (get event "type") ;;
     (if strict_eq type (VString "checkout.session.completed") then
        data <- lift (get event "data") ;;
        object <- lift (get data "object") ;;
        metadata <- lift (get object "metadata") ;;
        rateId <- lift (get metadata "rateId") ;;
        _ <- shippoFetch "/transactions/" (post_json (label_order rateId)) ;;
        ret tt
      else ret tt) ;;;
     res_json (VObject [("received", VBool true)]))
    (fun _ => res_status_send 400 "Webhook error").

End Server.
End Part001Zapier.

(* ===================================================================== *)
(** * Vocabulary of the properties *)
(* ===================================================================== *)

Module Spec.
Import JS Runtime Express.

(** [v.k] where the read cannot throw. *)
Definition field (v : value) (k : string) : value :=
  match get v k with
  | inr x => x
  | inl _ => VUndefined
  end.

(** [v?.k] *)
Definition field_opt (v : value) (k : string) : value :=
  if nullish v then VUndefined else field v k.

(** The provider answers the call [shippoFetch(path, options)] with a
    success status and the JSON document [v]. *)
Definition serves (w : World) (env : Env) (path : string)
    (options : RequestInit) (v : value) : Prop :=
  exists res,
    net_fetch w (Shippo.SHIPPO_BASE ++ path) (Shippo.shippo_init env options) = inr res
    /\ resp_ok res = true
    /\ resp_json res = inr v.

(** The provider answers the call with the status [st], not a success,
    and the body [text]. *)
Definition refuses (w : World) (env : Env) (path : string)
    (options : RequestInit) (st : Z) (text : string) : Prop :=
  exists res,
    net_fetch w (Shippo.SHIPPO_BASE ++ path) (Shippo.shippo_init env options) = inr res
    /\ resp_ok res = false
    /\ resp_status res = st
    /\ resp_text res = text.

(** The outbound call [shippoFetch(path, options)] makes. *)
Definition shippo_call (env : Env) (path : string) (options : RequestInit) : effect :=
  Fetch (Shippo.SHIPPO_BASE ++ path) (Shippo.shippo_init env options).

(** What the Stripe SDK makes of a webhook request. *)
Definition verification (w : World) (env : Env) (req : WebhookRequest)
  : result value :=
  stripe_constructEvent w (req_body req) (req_header req "stripe-signature")
    (env_value (STRIPE_WEBHOOK_SECRET env)).

(** The request [req] as a route finds it behind [express.json()]: the
    body is the document the parser has made of the bytes, and
    [express.raw] on the route leaves a body that is parsed alone. *)
Definition parsed (req : WebhookRequest) (doc : value) : WebhookRequest :=
  {| req_body := Parsed doc; req_headers := req_headers req |}.

(** A verified event of kind [checkout.session.completed] whose session
    carries a metadata object; [rateId] is that object's [rateId]. *)
Definition completed_checkout (event rateId : value) : Prop :=
  get event "type" = inr (VString "checkout.session.completed")
  /\ exists data session metadata,
       get event "data" = inr data
       /\ get data "object" = inr session
       /\ get session "metadata" = inr metadata
       /\ nullish metadata = false
       /\ get metadata "rateId" = inr rateId.

(** A label purchase through [fetch], in either spelling of the path. *)
Definition is_label_purchase (e : effect) : bool :=
  match e with
  | Fetch url init =>
      (String.eqb url (Shippo.SHIPPO_BASE ++ "/transactions")
       || String.eqb url (Shippo.SHIPPO_BASE ++ "/transactions/"))
      && match init_method init with
         | Some m => String.eqb m "POST"
         | None => false
         end
  | TransactionCreate _ => true
  | _ => false
  end.

Definition label_purchases (t : list effect) : list effect :=
  filter is_label_purchase t.

(** The normalized shape of a provider rate, in the words of the
    specification: rate_id = object_id, carrier = provider,
    service = servicelevel.name, amount = the number the amount denotes,
    eta = estimated_days. *)
Definition normalized (r : value) : value :=
  VObject [("rate_id", field r "object_id");
           ("carrier", field r "provider");
           ("service", field (field r "servicelevel") "name");
           ("amount", VNumber (ToNumber (field r "amount")));
           ("eta", field r "estimated_days")].

(** A rate the callback of [map] can read: it and its [servicelevel] are
    neither [null] nor [undefined]. *)
Definition readable_rate (r : value) : bool :=
  negb (nullish r) && negb (nullish (field r "servicelevel")).

(** A provider rate that the callback of [map] can read, with a non-empty
    identifier and an amount that denotes a number that is finite and not
    below zero. *)
Definition sound_rate (r : value) : bool :=
  readable_rate r
  && match field r "object_id" with
     | VString s => negb (is_empty s)
     | _ => false
     end
  && nonneg (ToNumber (field r "amount")).

(** An entry of a returned rate list with a non-empty rate_id and an
    amount that is a number, finite and not below zero: [res.json] writes
    [null] for NaN and the infinities. *)
Definition sound_entry (e : value) : bool :=
  match field e "rate_id" with
  | VString s => negb (is_empty s)
  | _ => false
  end
  && match field e "amount" with
     | VNumber n => nonneg n
     | _ => false
     end.

(** White space of three kinds: a tab, a line feed, and the no-break
    space U+00A0 in UTF-8. *)
Definition TAB : string := String (ascii_of_nat 9) EmptyString.
Definition LF : string := String (ascii_of_nat 10) EmptyString.
Definition NBSP : string :=
  String (ascii_of_nat 194) (String (ascii_of_nat 160) EmptyString).

(** The text of [n] cents as an amount with two decimals: ["12.50"] for
    1250. *)
Definition money (n : Z) : string :=
  let c := n mod 100 in
  digits (n / 100) ++ "." ++ (if c <? 10 then "0" else "") ++ digits c.

(** Numbers that are the same datum: the two zeros differ, NaN is itself. *)
Definition same_number (x y : number) : bool :=
  match x, y with
  | S754_nan, S754_nan => true
  | S754_zero a, S754_zero b => Bool.eqb a b
  | S754_infinity a, S754_infinity b => Bool.eqb a b
  | S754_finite a m e, S754_finite b m' e' =>
      Bool.eqb a b && Pos.eqb m m' && Z.eqb e e'
  | _, _ => false
  end.

(** [f] holds of 0, 1, ..., [n - 1]. *)
Definition all_below (n : Z) (f : Z -> bool) : bool :=
  N.peano_rect (fun _ => bool) true (fun k acc => f (Z.of_N k) && acc) (Z.to_N n).

(** The amount of [n] cents denotes the quotient [n / 100], and its cents
    are [n]. *)
Definition money_checked (n : Z) : bool :=
  same_number (string_to_number (money n)) (SFdiv prec emax (of_Z n) (of_Z 100))
  && same_number (Math_round (mul (string_to_number (money n)) (of_Z 100)))
       (of_Z n).

(** A rate set as the provider sends it: a list of objects. *)
Definition is_object (v : value) : bool :=
  match v with
  | VObject _ => true
  | _ => false
  end.

(** The rate of the set [rs] that [rateId] names: the first whose
    object_id is [rateId]. *)
Definition find_rate (rateId : value) (rs : list value) : option value :=
  List.find (fun r => strict_eq (field r "object_id") rateId) rs.

(** The session the servers that price from the provider ask for. *)
Definition priced_session (env : Env) (dash : string)
    (extra : list (string * value)) (rate rateId : value)
    (metadata : list (string * value)) : value :=
  session_params
    ("Shipping " ++ dash ++ " " ++ ToString (field rate "provider") ++ " "
       ++ ToString (field (field rate "servicelevel") "name"))
    (cents (field rate "amount"))
    extra
    metadata
    (ToString (env_value (BASE_URL env)) ++ "/shipping-success.html")
    (ToString (env_value (BASE_URL env)) ++ "/shipping-cancelled.html").

(** The unit amount of the one line item of session parameters. *)
Definition unit_amount (params : value) : value :=
  field (field (field (field params "line_items") "0") "price_data") "unit_amount".

(** A call of [fetch] that carries the provider token of [env]; the other
    effects have nothing to carry. *)
Definition authorized (env : Env) (e : effect) : bool :=
  match e with
  | Fetch _ init =>
      match init_headers init with
      | Some h =>
          match Shippo.header "Authorization" h with
          | Some a => String.eqb a ("ShippoToken " ++ ToString (Shippo.SHIPPO_TOKEN env))
          | None => false
          end
      | None => false
      end
  | _ => true
  end.

(** Every effect of the run [m] satisfies [P]. *)
Definition throughout {A} (P : effect -> bool) (m : M A) : Prop :=
  forallb P (fst m) = true.

(** An order without shipments: the member is absent, [null], or empty. *)
Definition no_shipments (order : value) : Prop :=
  exists shipments,
    get order "shipments" = inr shipments
    /\ (nullish shipments = true \/ shipments = VArray []).

(** The client error responses. *)
Definition client_error (o : option Response) : Prop :=
  exists r, o = Some r /\ 400 <= status r < 500.

(** [{ error: msg }] *)
Definition error_envelope (msg : string) : response_body :=
  Json (VObject [("error", VString msg)]).

(** The acknowledgement of a webhook: 200 [{ received: true }]. *)
Definition acknowledged : Response :=
  {| status := 200; body := Json (VObject [("received", VBool true)]) |}.

(** What the rate inquiry of src/server.js and src/unnamed/part_000
    answers once the provider has been read:
    200 [{ customer: { name, city, state }, rates }]. *)
Definition rates_answer (name city state : value) (rates : list value) : Response :=
  {| status := 200;
     body := Json (VObject [("customer", VObject [("name", name);
                                                  ("city", city);
                                                  ("state", state)]);
                            ("rates", VArray rates)]) |}.

(** [m] after the effects [t]. *)
Definition prepend {A} (t : list effect) (m : M A) : M A :=
  ((t ++ fst m)%list, snd m).

End Spec.

(* ===================================================================== *)
(** * Concrete worlds *)
(* ===================================================================== *)

Module Scenario.
Import JS Runtime Express.

Definition env : Env :=
  {| SHIPPO_API_KEY := Some "shippo_test_key";
     STRIPE_WEBHOOK_SECRET := Some "whsec_test";
     BASE_URL := Some "https://shop.example" |}.

Definition json_response (st : Z) (v : value) : HttpResponse :=
  {| resp_status := st; resp_text := stringify v; resp_json := inr v |}.

Definition not_found : HttpResponse :=
  json_response 404 (VObject [("detail", VString "Not found")]).

(** A provider given by the resources it has; anything else is a 404. *)
Fixpoint answer (table : list (string * HttpResponse)) (url : string) : HttpResponse :=
  match table with
  | [] => not_found
  | (u, r) :: rest => if String.eqb url u then r else answer rest url
  end.

(** The rate of the end-to-end scenario of the specification. *)
Definition RATE_A : value :=
  VObject [("object_id", VString "RATE_A");
           ("provider", VString "UPS");
           ("servicelevel", VObject [("name", VString "Ground")]);
           ("amount", VString "12.50");
           ("estimated_days", VNumber (of_Z 3))].

Definition ORDER_1 (shipments : list value) : value :=
  VObject [("object_id", VString "ORDER_1");
           ("shipments", VArray shipments)].

Definition SHIP_1 (rates : list value) : value :=
  VObject [("object_id", VString "SHIP_1");
           ("rates", VArray rates)].

Definition completed_event : value :=
  VObject [("id", VString "evt_1");
           ("type", VString "checkout.session.completed");
           ("data", VObject
              [("object", VObject
                  [("id", VString "cs_1");
                   ("metadata", VObject [("rateId", VString "RATE_A")])])])].

Definition session : value :=
  VObject [("id", VString "cs_1");
           ("url", VString "https://checkout.stripe.com/c/pay/cs_1")].

(** The processor: a request signed ["t=1,v1=good"] verifies and carries
    [completed_event]; any other is refused.  Sessions are created. *)
Definition construct (bytes : string) (sig secret : value) : result value :=
  match sig with
  | VString "t=1,v1=good" => inr completed_event
  | VUndefined => inl (Error "No stripe-signature header value was provided.")
  | _ => inl (Error "No signatures found matching the expected signature for payload.")
  end.

Definition not_raw (doc sig secret : value) : exn :=
  Error "Webhook payload must be provided as a string or a Buffer.".

Definition sdk_down (_ : value) : result value :=
  inl (Error "The Shippo SDK is not used by this server.").

(** A world whose provider has an order with the given shipments, a
    shipment with the given rates, and answers a label purchase with the
    status [label_status]. *)
Definition world (shipments rates : list value) (label_status : Z) : World :=
  {| net_fetch url init :=
       inr (answer
              [("https://api.goshippo.com/orders/ORDER_1",
                 json_response 200 (ORDER_1 shipments));
               ("https://api.goshippo.com/shipments/SHIP_1",
                 json_response 200 (SHIP_1 rates));
               ("https://api.goshippo.com/transactions",
                 json_response label_status
                   (VObject [("status", VString (if label_status <? 300
                                                 then "SUCCESS" else "ERROR"))]));
               ("https://api.goshippo.com/transactions/",
                 json_response label_status
                   (VObject [("status", VString (if label_status <? 300
                                                 then "SUCCESS" else "ERROR"))]))]
              url);
     stripe_verify := construct;
     stripe_unverifiable := not_raw;
     stripe_sessions_create _ := inr session;
     shippo_order_retrieve id :=
       match id with
       | VString "ORDER_1" => inr (ORDER_1 shipments)
       | _ => inl (Error "Not found")
       end;
     shippo_shipment_retrieve id :=
       match id with
       | VString "SHIP_1" => inr (SHIP_1 rates)
       | _ => inl (Error "Not found")
       end;
     shippo_transaction_create _ :=
       if label_status <? 300 then inr (VObject [("status", VString "SUCCESS")])
       else inl (Error "Transaction failed") |}.

(** The scenario of the specification: one shipment, one rate. *)
Definition happy : World := world [VString "SHIP_1"] [RATE_A] 201.

(** The same, with the provider failing label purchases. *)
Definition label_down : World := world [VString "SHIP_1"] [RATE_A] 500.

(** A shipment without rates. *)
Definition no_rates : World := world [VString "SHIP_1"] [] 201.

(** An order without shipments. *)
Definition no_shipment : World := world [] [RATE_A] 201.

(** A provider whose rate has an empty identifier and a negative amount. *)
Definition odd_rate : value :=
  VObject [("object_id", VString "");
           ("provider", VString "UPS");
           ("servicelevel", VObject [("name", VString "Ground")]);
           ("amount", VString "-1.00");
           ("estimated_days", VNumber (of_Z 3))].

Definition odd : World := world [VString "SHIP_1"] [odd_rate] 201.

Definition signed : WebhookRequest :=
  {| req_body := Raw "payload";
     req_headers := [("stripe-signature", "t=1,v1=good")] |}.

Definition unsigned : WebhookRequest :=
  {| req_body := Raw "payload"; req_headers := [] |}.

(** A provider that answers every call with one status and one body. *)
Definition always (st : Z) (text : string) (doc : result value) : World :=
  {| net_fetch _ _ := inr {| resp_status := st; resp_text := text; resp_json := doc |};
     stripe_verify := construct;
     stripe_unverifiable := not_raw;
     stripe_sessions_create _ := inr session;
     shippo_order_retrieve := sdk_down;
     shippo_shipment_retrieve := sdk_down;
     shippo_transaction_create := sdk_down |}.

End Scenario.

(* ===================================================================== *)
(** * Vocabulary of the conduct of a run *)
(* ===================================================================== *)

Module Conduct.
Import JS Runtime Express Spec.

(** The responses a run has sent, in order. *)
Definition responses (t : list effect) : list Response :=
  flat_map (fun e => match e with Respond r => [r] | _ => [] end) t.

(** The payment sessions a run has asked the processor for. *)
Definition session_requests (t : list effect) : list value :=
  flat_map (fun e => match e with SessionsCreate p => [p] | _ => [] end) t.

(** A call that only reads: a [fetch] without method and body (a GET), or
    a [retrieve] of the Shippo SDK. *)
Definition is_read (e : effect) : bool :=
  match e with
  | Fetch _ init =>
      match init_method init, init_body init with
      | None, None => true
      | _, _ => false
      end
  | OrderRetrieve _ | ShipmentRetrieve _ => true
  | _ => false
  end.

(** Reads, then at most one request for a payment session, then nothing. *)
Fixpoint reads_then_session (t : list effect) : bool :=
  match t with
  | [] => true
  | SessionsCreate _ :: t' =>
      match t' with
      | [] => true
      | _ => false
      end
  | e :: t' => is_read e && reads_then_session t'
  end.

(** The statuses the handlers answer with. *)
Definition known_status (r : Response) : bool :=
  (status r =? 200) || (status r =? 400) || (status r =? 404) || (status r =? 500).

(** [w], with a processor that verifies every webhook request whose body
    is the raw bytes as [event]. *)
Definition verifying (w : World) (event : value) : World :=
  {| net_fetch := net_fetch w;
     stripe_verify _ _ _ := inr event;
     stripe_unverifiable := stripe_unverifiable w;
     stripe_sessions_create := stripe_sessions_create w;
     shippo_order_retrieve := shippo_order_retrieve w;
     shippo_shipment_retrieve := shippo_shipment_retrieve w;
     shippo_transaction_create := shippo_transaction_create w |}.

(** [w], with a processor that refuses to create sessions. *)
Definition processor_down (w : World) (e : exn) : World :=
  {| net_fetch := net_fetch w;
     stripe_verify := stripe_verify w;
     stripe_unverifiable := stripe_unverifiable w;
     stripe_sessions_create _ := inl e;
     shippo_order_retrieve := shippo_order_retrieve w;
     shippo_shipment_retrieve := shippo_shipment_retrieve w;
     shippo_transaction_create := shippo_transaction_create w |}.

(** [w], with a processor that echoes the metadata of the session it is
    asked for in the completed event, as Stripe does. *)
Definition event_of (params : value) : value :=
  VObject [("type", VString "checkout.session.completed");
           ("data", VObject
              [("object", VObject [("metadata", field params "metadata")])])].

(** An event of another kind. *)
Definition payment_failed : value :=
  VObject [("id", VString "evt_2");
           ("type", VString "payment_intent.payment_failed");
           ("data", VObject [("object", VObject [("id", VString "pi_1")])])].

(** A rate without service level. *)
Definition bare_rate : value :=
  VObject [("object_id", VString "RATE_B");
           ("provider", VString "USPS");
           ("amount", VString "7.10");
           ("estimated_days", VNumber (of_Z 5))].

(** A rate of one dollar and half a cent. *)
Definition half_cent_rate : value :=
  VObject [("object_id", VString "RATE_H");
           ("provider", VString "USPS");
           ("servicelevel", VObject [("name", VString "Media Mail")]);
           ("amount", VString "1.005");
           ("estimated_days", VNumber (of_Z 7))].

Definition half_cent : World :=
  Scenario.world [VString "SHIP_1"] [half_cent_rate] 201.

(** The order of the scenario with an address. *)
Definition addressed_order : value :=
  VObject [("object_id", VString "ORDER_1");
           ("shipments", VArray [VString "SHIP_1"]);
           ("to_address", VObject [("name", VString "Ada");
                                   ("city", VString "Austin");
                                   ("state", VString "TX")])].

(** The world of the scenario for the server that uses the SDK, with the
    order as given. *)
Definition sdk_world (order : value) : World :=
  {| net_fetch := net_fetch Scenario.happy;
     stripe_verify := Scenario.construct;
     stripe_unverifiable := Scenario.not_raw;
     stripe_sessions_create _ := inr Scenario.session;
     shippo_order_retrieve _ := inr order;
     shippo_shipment_retrieve _ := inr (Scenario.SHIP_1 [Scenario.RATE_A]);
     shippo_transaction_create _ := inr (VObject [("status", VString "SUCCESS")]) |}.

(** A provider that creates the shipment SHIP_1 on a POST and serves it,
    with the rate of the scenario, on a GET. *)
Definition zapier_world : World :=
  {| net_fetch url init :=
       if String.eqb url "https://api.goshippo.com/shipments/" then
         inr (Scenario.json_response 201 (Scenario.SHIP_1 [Scenario.RATE_A]))
       else net_fetch Scenario.happy url init;
     stripe_verify := Scenario.construct;
     stripe_unverifiable := Scenario.not_raw;
     stripe_sessions_create _ := inr Scenario.session;
     shippo_order_retrieve := Scenario.sdk_down;
     shippo_shipment_retrieve := Scenario.sdk_down;
     shippo_transaction_create := Scenario.sdk_down |}.

End Conduct.

(* ===================================================================== *)
(** * Properties *)
(* ===================================================================== *)

Import JS Runtime Express Spec.

(** ** The effect monad *)

Lemma prepend_nil {A} (m : M A) : prepend [] m = m.
Proof. destruct m; reflexivity. Qed.

Lemma bind_ok {A B} (t : list effect) (a : A) (f : A -> M B) :
  bind (t, inr a) f = prepend t (f a).
Proof. unfold bind, prepend. destruct (f a); reflexivity. Qed.

Lemma bind_throw {A B} (t : list effect) (e : exn) (f : A -> M B) :
  bind (t, inl e) f = (t, inl e).
Proof. reflexivity. Qed.

Lemma bind_lift {A B} (a : A) (f : A -> M B) :
  bind (lift (inr a)) f = f a.
Proof. unfold lift. rewrite bind_ok. apply prepend_nil. Qed.

Lemma bind_lift_throw {A B} (e : exn) (f : A -> M B) :
  bind (lift (inl e)) f = throw e.
Proof. reflexivity. Qed.

Lemma bind_ret {A B} (a : A) (f : A -> M B) : bind (ret a) f = f a.
Proof. exact (bind_lift a f). Qed.

Lemma bind_perform {A B} (e : effect) (a : A) (f : A -> M B) :
  bind (perform e (inr a)) f = prepend [e] (f a).
Proof. apply bind_ok. Qed.

Lemma bind_prepend {A B} (t : list effect) (m : M A) (f : A -> M B) :
  bind (prepend t m) f = prepend t (bind m f).
Proof.
  destruct m as [t' [e|a]]; unfold prepend, bind; simpl; [reflexivity|].
  destruct (f a); simpl. rewrite app_assoc. reflexivity.
Qed.

Lemma bind_attempt_lift {A B} (r : result A) (f : result A -> M B) :
  bind (attempt (lift r)) f = f r.
Proof. unfold attempt, lift. cbn [fst snd]. rewrite bind_ok. apply prepend_nil. Qed.

Lemma try_catch_ok {A} (t : list effect) (a : A) (h : exn -> M A) :
  try_catch (t, inr a) h = (t, inr a).
Proof. reflexivity. Qed.

Lemma try_catch_perform {A} (e : effect) (a : A) (h : exn -> M A) :
  try_catch (perform e (inr a)) h = perform e (inr a).
Proof. reflexivity. Qed.

Lemma try_catch_throw {A} (t : list effect) (e : exn) (h : exn -> M A) :
  try_catch (t, inl e) h = prepend t (h e).
Proof. unfold try_catch, prepend. destruct (h e); reflexivity. Qed.

Lemma try_catch_throw_nil {A} (e : exn) (h : exn -> M A) :
  try_catch (throw e) h = h e.
Proof. unfold throw. rewrite try_catch_throw. apply prepend_nil. Qed.

Lemma try_catch_prepend {A} (t : list effect) (m : M A) (h : exn -> M A) :
  try_catch (prepend t m) h = prepend t (try_catch m h).
Proof.
  destruct m as [t' [e|a]]; unfold prepend, try_catch; simpl; [|reflexivity].
  destruct (h e); simpl. rewrite app_assoc. reflexivity.
Qed.

(** One step of a run: the continuation meets a value or an exception. *)
Ltac run :=
  repeat (progress
    (rewrite ?bind_attempt_lift, ?bind_lift, ?bind_lift_throw, ?bind_ret,
       ?bind_perform, ?bind_ok, ?bind_throw, ?bind_prepend,
       ?try_catch_prepend, ?try_catch_throw_nil, ?try_catch_throw,
       ?try_catch_perform, ?try_catch_ok;
     cbv beta)).

(** The trace and the end of a run that has been carried out. *)
Ltac done :=
  unfold prepend, perform, ret, throw, console_error, res_json,
    res_status_json, res_status_send;
  cbn [fst snd app outbound filter is_outbound response_of];
  auto.

(** ** Reads *)

Lemma get_field (v : value) (k : string) :
  nullish v = false -> get v k = inr (field v k).
Proof.
  unfold field. destruct v; simpl; try discriminate; intros _;
    repeat match goal with
           | |- context [if ?b then _ else _] => destruct b
           | |- context [match ?o with Some _ => _ | None => _ end] => destruct o
           end; reflexivity.
Qed.

Lemma get_inr_nullish (v x : value) (k : string) :
  get v k = inr x -> nullish v = false.
Proof. destruct v; simpl; intros H; try reflexivity; discriminate H. Qed.

Lemma get_opt_field (v : value) (k : string) :
  get_opt v k = inr (field_opt v k).
Proof.
  unfold get_opt, field_opt. destruct (nullish v) eqn:E; [reflexivity|].
  apply get_field, E.
Qed.

Lemma destructure_get (v : value) (src k : string) :
  nullish v = false -> destructure v src k = get v k.
Proof. unfold destructure. intros ->. reflexivity. Qed.

(** ** The client *)

Section ClientFacts.
Variable w : World.
Variable env : Env.

Lemma shippoFetch_serves path options v :
  serves w env path options v ->
  Shippo.shippoFetch w env path options = ([shippo_call env path options], inr v).
Proof.
  intros (res & Hres & Hok & Hjson).
  unfold Shippo.shippoFetch, Shippo.fetch, Shippo.res_json_body, shippo_call.
  rewrite Hres, bind_perform, Hok, Hjson. reflexivity.
Qed.

Lemma shippoFetch_refuses path options st text :
  refuses w env path options st text ->
  Shippo.shippoFetch w env path options
  = ([shippo_call env path options],
     inl (Error ("Shippo error " ++ ToString (VNumber (of_Z st)) ++ ": " ++ text))).
Proof.
  intros (res & Hres & Hok & Hst & Htext).
  unfold Shippo.shippoFetch, Shippo.fetch, shippo_call.
  rewrite Hres, bind_perform, Hok, Hst, Htext. reflexivity.
Qed.

(** Whatever the provider does, [shippoFetch] makes exactly one call. *)
Lemma shippoFetch_once path options :
  exists r, Shippo.shippoFetch w env path options
            = ([shippo_call env path options], r).
Proof.
  unfold Shippo.shippoFetch, Shippo.fetch, Shippo.res_json_body, shippo_call.
  destruct (net_fetch w _ _) as [e|res]; [eexists; reflexivity|].
  rewrite bind_perform.
  destruct (resp_ok res); cbn [negb]; [|eexists; reflexivity].
  unfold lift. eexists; reflexivity.
Qed.

Lemma shippoFetch_zapier_once path options :
  exists r, Shippo.shippoFetch_zapier w env path options
            = ([shippo_call env path options], r).
Proof.
  unfold Shippo.shippoFetch_zapier, Shippo.fetch, Shippo.res_json_body, shippo_call.
  destruct (net_fetch w _ _) as [e|res]; [eexists; reflexivity|].
  rewrite bind_perform.
  unfold lift. destruct (resp_json res) as [e|v]; [eexists; reflexivity|].
  rewrite bind_ok.
  destruct (resp_ok res); eexists; reflexivity.
Qed.

End ClientFacts.

(** ** The payment webhook *)

(** The reads of a handler on a completed checkout event. *)
Ltac webhook_reads Hver Hev :=
  let Htype := fresh "Htype" in
  let data := fresh "data" in
  let session := fresh "session" in
  let metadata := fresh "metadata" in
  let Hdata := fresh "Hdata" in
  let Hsession := fresh "Hsession" in
  let Hmeta := fresh "Hmeta" in
  let Hnn := fresh "Hnn" in
  let Hrate := fresh "Hrate" in
  destruct Hev as (Htype & data & session & metadata
                   & Hdata & Hsession & Hmeta & Hnn & Hrate);
  unfold verification in Hver;
  rewrite Hver; run;
  rewrite Htype; run;
  cbn [strict_eq String.eqb Ascii.eqb Bool.eqb];
  rewrite Hdata; run;
  rewrite Hsession; run;
  rewrite Hmeta; run;
  rewrite ?(destructure_get _ _ _ Hnn), ?Hrate; run.

Section Webhook.
Variable w : World.
Variable env : Env.
Variable req : WebhookRequest.

(** src/unnamed/part_000 keeps the acknowledgement apart from the label
    purchase: one purchase for the session's rate, and 200 whatever the
    provider answers. *)
Lemma part000_completed_checkout (event rateId : value) :
  verification w env req = inr event ->
  completed_checkout event rateId ->
  let run := Part000.post_webhook_stripe w env req in
  outbound (fst run) = [shippo_call env "/transactions" (post_json (label_order rateId))]
  /\ response_of (fst run) = Some acknowledged
  /\ snd run = inr tt.
Proof.
  intros Hver Hev. unfold Part000.post_webhook_stripe, Part000.shippoFetch.
  webhook_reads Hver Hev.
  destruct (shippoFetch_once w env "/transactions" (post_json (label_order rateId)))
    as [[e|v] ->]; run; done.
Qed.

(** src/server.js acknowledges when the purchase goes through ... *)
Lemma serverjs_completed_checkout_served (event rateId answer : value) :
  verification w env req = inr event ->
  completed_checkout event rateId ->
  serves w env "/transactions" (post_json (label_order rateId)) answer ->
  let run := ServerJs.post_webhook_stripe w env req in
  outbound (fst run) = [shippo_call env "/transactions" (post_json (label_order rateId))]
  /\ response_of (fst run) = Some acknowledged
  /\ snd run = inr tt.
Proof.
  intros Hver Hev Hs. unfold ServerJs.post_webhook_stripe, ServerJs.shippoFetch.
  webhook_reads Hver Hev.
  rewrite (shippoFetch_serves _ _ _ _ _ Hs). run. done.
Qed.

(** ... and sends nothing when the provider refuses it: the rejection of
    [shippoFetch] leaves the handler before [res.json]. *)
Lemma serverjs_completed_checkout_refused (event rateId : value) st text :
  verification w env req = inr event ->
  completed_checkout event rateId ->
  refuses w env "/transactions" (post_json (label_order rateId)) st text ->
  let run := ServerJs.post_webhook_stripe w env req in
  outbound (fst run) = [shippo_call env "/transactions" (post_json (label_order rateId))]
  /\ response_of (fst run) = None
  /\ snd run = inl (Error ("Shippo error " ++ ToString (VNumber (of_Z st))
                             ++ ": " ++ text)).
Proof.
  intros Hver Hev Hr. unfold ServerJs.post_webhook_stripe, ServerJs.shippoFetch.
  webhook_reads Hver Hev.
  rewrite (shippoFetch_refuses _ _ _ _ _ _ Hr). run. done.
Qed.

(** The second server of src/unnamed/part_001 answers 400 to a verified
    event whose label purchase fails: its one [catch] covers both. *)
Lemma zapier_completed_checkout_failed (event rateId : value) e :
  verification w env req = inr event ->
  completed_checkout event rateId ->
  snd (Shippo.shippoFetch_zapier w env "/transactions/" (post_json (label_order rateId)))
    = inl e ->
  response_of (fst (Part001Zapier.post_webhook_stripe w env req))
  = Some {| status := 400; body := Text "Webhook error" |}.
Proof.
  intros Hver Hev Hr. unfold Part001Zapier.post_webhook_stripe, Part001Zapier.shippoFetch.
  destruct (shippoFetch_zapier_once w env "/transactions/"
              (post_json (label_order rateId))) as [r Hrun].
  rewrite Hrun in Hr. cbn [snd] in Hr. subst r.
  webhook_reads Hver Hev. rewrite Hrun. run. done.
Qed.

(** The second server of src/unnamed/part_001 mounts [express.json()]
    before its routes: the body its webhook finds is a document, on which
    [constructEvent] throws, and the answer is 400 whatever the signature;
    nothing leaves the process. *)
Lemma zapier_parsed_refused (doc : value) :
  Part001Zapier.post_webhook_stripe w env (parsed req doc)
  = ([Respond {| status := 400; body := Text "Webhook error" |}], inr tt).
Proof. reflexivity. Qed.

(** C2. A webhook request whose signature the Stripe SDK does not accept
    (missing, malformed or not matching the webhook secret:
    [constructEvent] throws) is answered 400 by every server, and no call
    leaves the process for it; in particular no label is purchased. *)
Theorem invalid_signature_rejected (err : exn) :
  verification w env req = inl err ->
  forall run,
    In run [ServerJs.post_webhook_stripe w env req;
            Part000.post_webhook_stripe w env req;
            Part001Sdk.post_webhook_stripe w env req;
            Part001Zapier.post_webhook_stripe w env req] ->
    (exists r, response_of (fst run) = Some r /\ status r = 400
               /\ exists text, body r = Text text)
    /\ outbound (fst run) = []
    /\ label_purchases (fst run) = [].
Proof.
  intros Hver run Hin. unfold verification in Hver.
  simpl in Hin.
  destruct Hin as [<-|[<-|[<-|[<-|[]]]]];
    unfold ServerJs.post_webhook_stripe, Part000.post_webhook_stripe,
      Part001Sdk.post_webhook_stripe, Part001Zapier.post_webhook_stripe;
    rewrite Hver; run; done; cbn;
    (split; [eexists; split; [reflexivity|]; split; [reflexivity|eexists; reflexivity]
            | split; reflexivity]).
Qed.

End Webhook.

Lemma invalid_signature_rejected_witness :
  (exists r,
     response_of (fst (Part000.post_webhook_stripe
                         Scenario.happy Scenario.env Scenario.unsigned)) = Some r
     /\ status r = 400 /\ exists text, body r = Text text)
  /\ outbound (fst (Part000.post_webhook_stripe
                      Scenario.happy Scenario.env Scenario.unsigned)) = []
  /\ label_purchases (fst (Part000.post_webhook_stripe
                             Scenario.happy Scenario.env Scenario.unsigned)) = [].
Proof.
  apply (invalid_signature_rejected Scenario.happy Scenario.env Scenario.unsigned
           (Error "No stripe-signature header value was provided.")).
  - reflexivity.
  - right. left. reflexivity.
Defined.

(** C1. On src/server.js, a verified checkout.session.completed event whose
    label purchase the provider answers with 500 gets no response at all:
    the one label purchase is made for the session's rate, [shippoFetch]
    throws, and the handler ends before [res.json({ received: true })]. *)
Theorem server_js_label_failure_unanswered :
  verification Scenario.label_down Scenario.env Scenario.signed
  = inr Scenario.completed_event
  /\ completed_checkout Scenario.completed_event (VString "RATE_A")
  /\ label_purchases (fst (ServerJs.post_webhook_stripe
                             Scenario.label_down Scenario.env Scenario.signed))
     = [shippo_call Scenario.env "/transactions"
          (post_json (label_order (VString "RATE_A")))]
  /\ response_of (fst (ServerJs.post_webhook_stripe
                         Scenario.label_down Scenario.env Scenario.signed))
     = None
  /\ snd (ServerJs.post_webhook_stripe
            Scenario.label_down Scenario.env Scenario.signed)
     = inl (Error ("Shippo error 500: "
                     ++ stringify (VObject [("status", VString "ERROR")]))).
Proof.
  split; [reflexivity|]. split.
  - split; [reflexivity|].
    do 3 eexists. repeat split; reflexivity.
  - repeat split; vm_compute; reflexivity.
Qed.

(** ** Numbers of the guards

    Rounding a positive integer gives a finite number or overflows: the
    length of a list that is not empty is truthy and is not [0]. *)

Lemma shr_1_m (mrs : shr_record) :
  0 <= shr_m mrs -> shr_m (shr_1 mrs) = shr_m mrs / 2.
Proof.
  destruct mrs as [m r s]. cbn [shr_m]. intros Hm.
  destruct m as [|p|p]; [reflexivity| |lia].
  destruct p as [p|p|]; cbn [shr_1 shr_m].
  - rewrite Pos2Z.inj_xI. apply (Z.div_unique _ 2 _ 1); lia.
  - rewrite Pos2Z.inj_xO. apply (Z.div_unique _ 2 _ 0); lia.
  - reflexivity.
Qed.

Lemma iter_shr_m (n : positive) (mrs : shr_record) :
  0 <= shr_m mrs ->
  shr_m (iter_pos shr_1 n mrs) = shr_m mrs / 2 ^ Zpos n.
Proof.
  revert mrs. induction n as [n IH|n IH|]; intros mrs Hm; cbn [iter_pos].
  - assert (H1 : 0 <= shr_m (shr_1 mrs))
      by (rewrite shr_1_m by exact Hm; apply Z.div_pos; lia).
    assert (H2 : 0 <= shr_m (iter_pos shr_1 n (shr_1 mrs)))
      by (rewrite IH by exact H1; apply Z.div_pos; lia).
    rewrite (IH _ H2), (IH _ H1), (shr_1_m _ Hm).
    rewrite !Z.div_div by lia.
    f_equal. replace (Zpos n~1) with (1 + (Zpos n + Zpos n)) by lia.
    rewrite (Z.pow_add_r 2 1) by lia. rewrite Z.pow_add_r by lia.
    change (2 ^ 1) with 2. ring.
  - assert (H1 : 0 <= shr_m (iter_pos shr_1 n mrs))
      by (rewrite IH by exact Hm; apply Z.div_pos; lia).
    rewrite (IH _ H1), (IH _ Hm).
    rewrite !Z.div_div by lia.
    f_equal. replace (Zpos n~0) with (Zpos n + Zpos n) by lia.
    rewrite Z.pow_add_r by lia. reflexivity.
  - rewrite (shr_1_m _ Hm). reflexivity.
Qed.

Lemma digits2_pos_bound (p : positive) : 2 ^ (Zpos (digits2_pos p) - 1) <= Zpos p.
Proof.
  induction p as [p IH|p IH|]; cbn [digits2_pos].
  - rewrite Pos2Z.inj_succ. replace (Z.succ (Zpos (digits2_pos p)) - 1)
      with (Z.succ (Zpos (digits2_pos p) - 1)) by lia.
    rewrite Z.pow_succ_r by lia. lia.
  - rewrite Pos2Z.inj_succ. replace (Z.succ (Zpos (digits2_pos p)) - 1)
      with (Z.succ (Zpos (digits2_pos p) - 1)) by lia.
    rewrite Z.pow_succ_r by lia. lia.
  - reflexivity.
Qed.

Lemma shr_record_of_loc_m (m : Z) (l : location) : shr_m (shr_record_of_loc m l) = m.
Proof. destruct l as [|[]]; reflexivity. Qed.

(** The mantissa a shift for the format leaves of a positive one above
    the smallest exponent is positive, and the exponent does not fall. *)
Lemma shr_fexp_pos (pr em : Z) (m : positive) (e : Z) (l : location) :
  0 < pr -> 3 - em - pr <= e ->
  0 < shr_m (fst (shr_fexp pr em (Zpos m) e l))
  /\ e <= snd (shr_fexp pr em (Zpos m) e l).
Proof.
  intros Hprec He. unfold shr_fexp, shr, fexp, emin. cbn [Zdigits2].
  pose proof (digits2_pos_bound m) as Hd.
  destruct (Z.max (Zpos (digits2_pos m) + e - pr) (3 - em - pr) - e)
    as [|n|n] eqn:Hn; cbn [fst snd]; rewrite ?shr_record_of_loc_m; try lia.
  split; [|lia].
  rewrite iter_shr_m by (rewrite shr_record_of_loc_m; lia).
  rewrite shr_record_of_loc_m.
  apply Z.div_str_pos. split; [apply Z.pow_pos_nonneg; lia|].
  apply Z.le_trans with (2 := Hd). apply Z.pow_le_mono_r; lia.
Qed.

Lemma round_nearest_even_pos (m : Z) (l : location) :
  0 < m -> 0 < round_nearest_even m l.
Proof.
  intros Hm. destruct l as [|[]]; cbn [round_nearest_even]; try lia.
  destruct (Z.even m); lia.
Qed.

Lemma binary_round_aux_pos (pr em : Z) (s : bool) (m : positive) (e : Z)
    (l : location) :
  0 < pr -> 3 - em - pr <= e ->
  (exists m' e', binary_round_aux pr em s (Zpos m) e l = S754_finite s m' e')
  \/ binary_round_aux pr em s (Zpos m) e l = S754_infinity s.
Proof.
  intros Hprec He. unfold binary_round_aux.
  pose proof (shr_fexp_pos pr em m e l Hprec He) as [H1 H1e].
  destruct (shr_fexp pr em (Zpos m) e l) as [mrs' e']. cbn [fst snd] in H1, H1e.
  pose proof (round_nearest_even_pos _ (loc_of_shr_record mrs') H1) as H2.
  destruct (round_nearest_even (shr_m mrs') (loc_of_shr_record mrs')) as [|m2|m2];
    try lia.
  pose proof (shr_fexp_pos pr em m2 e' loc_Exact Hprec ltac:(lia)) as [H3 _].
  destruct (shr_fexp pr em (Zpos m2) e' loc_Exact) as [mrs'' e''].
  cbn [fst] in H3.
  destruct (shr_m mrs'') as [|m3|m3]; try lia.
  destruct (e'' <=? em - pr); eauto.
Qed.

Lemma binary_round_pos (pr em : Z) (s : bool) (m : positive) (e : Z) :
  0 < pr -> 3 - em - pr <= e ->
  (exists m' e', binary_round pr em s m e = S754_finite s m' e')
  \/ binary_round pr em s m e = S754_infinity s.
Proof.
  intros Hprec He. unfold binary_round, shl_align, fexp, emin.
  destruct (Z.max (Zpos (digits2_pos m) + e - pr) (3 - em - pr) - e)
    as [|n|n] eqn:Hn; apply binary_round_aux_pos; lia.
Qed.

Lemma of_Z_pos (p : positive) :
  (exists s m e, of_Z (Zpos p) = S754_finite s m e)
  \/ of_Z (Zpos p) = S754_infinity false.
Proof.
  destruct (binary_round_pos prec emax false p 0) as [(m & e & H) | H];
    unfold prec, emax; try lia; unfold of_Z, binary_normalize; eauto.
Qed.

Lemma truthy_length (x : value) (l : list value) :
  truthy (VNumber (of_Z (Z.of_nat (List.length (x :: l))))) = true.
Proof.
  change (Z.of_nat (List.length (x :: l)))
    with (Zpos (Pos.of_succ_nat (List.length l))).
  destruct (of_Z_pos (Pos.of_succ_nat (List.length l))) as [(s & m & e & ->) | ->];
    reflexivity.
Qed.

Lemma length_not_zero (x : value) (l : list value) :
  strict_eq (VNumber (of_Z (Z.of_nat (List.length (x :: l))))) (VNumber (of_Z 0)) = false.
Proof.
  change (Z.of_nat (List.length (x :: l)))
    with (Zpos (Pos.of_succ_nat (List.length l))).
  destruct (of_Z_pos (Pos.of_succ_nat (List.length l))) as [(s & m & e & ->) | ->];
    [destruct s|]; reflexivity.
Qed.

Lemma get_length (l : list value) :
  get (VArray l) "length" = inr (VNumber (of_Z (Z.of_nat (List.length l)))).
Proof. reflexivity. Qed.

Lemma get_first (x : value) (l : list value) :
  get (VArray (x :: l)) "0" = inr x.
Proof. reflexivity. Qed.

(** ** The rate list *)

Lemma rate_entry_normalized (r : value) :
  readable_rate r = true -> rate_entry r = inr (normalized r).
Proof.
  unfold readable_rate. intros H. apply andb_prop in H as [Hr Hs].
  apply negb_true_iff in Hr, Hs.
  unfold rate_entry, normalized, rbind.
  rewrite !(get_field r _ Hr), (get_field _ "name" Hs). reflexivity.
Qed.

Lemma mapM_rate_entry (rs : list value) :
  forallb readable_rate rs = true ->
  mapM rate_entry rs = inr (map normalized rs).
Proof.
  induction rs as [|r rs IH]; simpl; [reflexivity|].
  intros H. apply andb_prop in H as [Hr Hrs].
  rewrite (rate_entry_normalized r Hr), (IH Hrs). reflexivity.
Qed.

Lemma sound_rate_readable (r : value) :
  sound_rate r = true -> readable_rate r = true.
Proof.
  unfold sound_rate. intros H.
  apply andb_prop in H as [H _]. apply andb_prop in H as [H _]. exact H.
Qed.

Lemma sound_rate_entry (r : value) :
  sound_rate r = true -> sound_entry (normalized r) = true.
Proof.
  unfold sound_rate, sound_entry. intros H.
  apply andb_prop in H as [H Ha]. apply andb_prop in H as [_ Hi].
  change (field (normalized r) "rate_id") with (field r "object_id").
  change (field (normalized r) "amount")
    with (VNumber (ToNumber (field r "amount"))).
  rewrite Hi. exact Ha.
Qed.

Lemma sound_rates_entries (rs : list value) :
  forallb sound_rate rs = true ->
  forallb readable_rate rs = true
  /\ forallb sound_entry (map normalized rs) = true.
Proof.
  induction rs as [|r rs IH]; simpl; [auto|].
  intros H. apply andb_prop in H as [Hr Hrs].
  destruct (IH Hrs) as [IH1 IH2].
  rewrite (sound_rate_readable r Hr), (sound_rate_entry r Hr), IH1, IH2. auto.
Qed.

(** ** The rate inquiry of src/server.js and src/unnamed/part_000 *)

Section RateInquiry.
Variable w : World.
Variable env : Env.
Variable orderToken : string.
Variable order : value.
Hypothesis Horder : serves w env ("/orders/" ++ orderToken) no_options order.

Section NoShipment.
Hypothesis Hnone : no_shipments order.

Lemma serverjs_no_shipments :
  ServerJs.get_api_shipping w env orderToken
  = ([shippo_call env ("/orders/" ++ orderToken) no_options;
      Respond {| status := 404; body := error_envelope "No shipment found" |}],
     inr tt).
Proof.
  unfold ServerJs.get_api_shipping, ServerJs.shippoFetch.
  rewrite (shippoFetch_serves _ _ _ _ _ Horder). run.
  destruct Hnone as (shipments & Hget & Hcase). rewrite Hget. run.
  destruct Hcase as [Hnull | ->].
  - assert (truthy shipments = false) as -> by (destruct shipments; try discriminate; reflexivity).
    cbn [negb]. run. reflexivity.
  - cbn [truthy negb]. rewrite get_length. run. reflexivity.
Qed.

Lemma part000_no_shipments :
  Part000.get_api_shipping w env orderToken
  = ([shippo_call env ("/orders/" ++ orderToken) no_options;
      Respond {| status := 400;
                 body := error_envelope
                           "Order has no shipments. Ensure parcels were added." |}],
     inr tt).
Proof.
  unfold Part000.get_api_shipping, Part000.shippoFetch.
  rewrite (shippoFetch_serves _ _ _ _ _ Horder). run.
  destruct Hnone as (shipments & Hget & Hcase). rewrite Hget. run.
  destruct Hcase as [Hnull | ->].
  - assert (truthy shipments = false) as -> by (destruct shipments; try discriminate; reflexivity).
    cbn [negb]. run. reflexivity.
  - cbn [truthy negb]. rewrite get_length. run. reflexivity.
Qed.

End NoShipment.

Variable first : value.
Variable others : list value.
Variable shipment : value.
Variable rs : list value.
Hypothesis Hshipments : get order "shipments" = inr (VArray (first :: others)).
Hypothesis Hshipment :
  serves w env ("/shipments/" ++ ToString first) no_options shipment.
Hypothesis Hrates : get shipment "rates" = inr (VArray rs).
Hypothesis Hreadable : forallb readable_rate rs = true.

Local Abbreviation to_address := (field order "to_address").

Lemma order_to_address : get order "to_address" = inr to_address.
Proof. apply get_field. exact (get_inr_nullish _ _ _ Hshipments). Qed.

Lemma serverjs_rates_served :
  ServerJs.get_api_shipping w env orderToken
  = ([shippo_call env ("/orders/" ++ orderToken) no_options;
      shippo_call env ("/shipments/" ++ ToString first) no_options;
      Respond (rates_answer (field_opt to_address "name")
                            (field_opt to_address "city")
                            (field_opt to_address "state")
                            (map normalized rs))],
     inr tt).
Proof.
  unfold ServerJs.get_api_shipping, ServerJs.shippoFetch.
  rewrite (shippoFetch_serves _ _ _ _ _ Horder). run.
  rewrite Hshipments. run.
  cbn [truthy negb]. rewrite get_length. run.
  rewrite truthy_length. cbn [negb]. rewrite get_first. run.
  rewrite (shippoFetch_serves _ _ _ _ _ Hshipment). run.
  rewrite Hrates. run.
  unfold array_map. rewrite (mapM_rate_entry rs Hreadable). run.
  rewrite order_to_address. run.
  rewrite !get_opt_field. run.
  reflexivity.
Qed.

Lemma part000_rates_served :
  Part000.get_api_shipping w env orderToken
  = ([shippo_call env ("/orders/" ++ orderToken) no_options;
      shippo_call env ("/shipments/" ++ ToString first) no_options;
      Respond (rates_answer (if truthy (field_opt to_address "name")
                             then field_opt to_address "name"
                             else VString "Customer")
                            (field_opt to_address "city")
                            (field_opt to_address "state")
                            (map normalized rs))],
     inr tt).
Proof.
  unfold Part000.get_api_shipping, Part000.shippoFetch.
  rewrite (shippoFetch_serves _ _ _ _ _ Horder). run.
  rewrite Hshipments. run.
  cbn [truthy negb]. rewrite get_length. run.
  rewrite length_not_zero. rewrite get_first. run.
  rewrite (shippoFetch_serves _ _ _ _ _ Hshipment). run.
  rewrite Hrates. run.
  unfold array_map. rewrite (mapM_rate_entry rs Hreadable). run.
  rewrite order_to_address. run.
  rewrite !get_opt_field. run.
  reflexivity.
Qed.

End RateInquiry.

(** ** What an amount denotes *)

Lemma same_number_eq (x y : number) : same_number x y = true -> x = y.
Proof.
  destruct x as [a|a| |a m e], y as [b|b| |b m' e']; simpl; try discriminate;
    try reflexivity.
  - intros H. apply Bool.eqb_prop in H. congruence.
  - intros H. apply Bool.eqb_prop in H. congruence.
  - intros H. apply andb_prop in H as [H He]. apply andb_prop in H as [Ha Hm].
    apply Bool.eqb_prop in Ha. apply Pos.eqb_eq in Hm. apply Z.eqb_eq in He.
    congruence.
Qed.

Lemma all_below_spec (n : Z) (f : Z -> bool) :
  all_below n f = true -> forall k, 0 <= k < n -> f k = true.
Proof.
  unfold all_below. intros H k Hk.
  assert (Hgen : forall m : N,
             N.peano_rect (fun _ => bool) true
               (fun k acc => f (Z.of_N k) && acc) m = true ->
             forall j : N, (j < m)%N -> f (Z.of_N j) = true).
  { induction m as [|m IH] using N.peano_ind; intros Hm j Hj; [lia|].
    rewrite N.peano_rect_succ in Hm. apply andb_prop in Hm as [Hf Hrest].
    destruct (N.eq_dec j m) as [->|Hne]; [exact Hf|].
    apply (IH Hrest). lia. }
  rewrite <- (Z2N.id k) by lia. apply (Hgen _ H). lia.
Qed.

(** Every amount of two decimals below 100.00 denotes the quotient of its
    cents by 100, rounded once, and [Math.round] of a hundred times it
    gives the cents back. *)
Lemma money_amounts_checked : all_below 10000 money_checked = true.
Proof. vm_compute. reflexivity. Qed.

Lemma money_amount (n : Z) :
  0 <= n < 10000 ->
  ToNumber (VString (money n)) = SFdiv prec emax (of_Z n) (of_Z 100).
Proof.
  intros Hn. pose proof (all_below_spec _ _ money_amounts_checked n Hn) as H.
  apply andb_prop in H as [H _]. exact (same_number_eq _ _ H).
Qed.

Lemma money_cents (n : Z) :
  0 <= n < 10000 -> cents (VString (money n)) = VNumber (of_Z n).
Proof.
  intros Hn. pose proof (all_below_spec _ _ money_amounts_checked n Hn) as H.
  apply andb_prop in H as [_ H]. unfold cents. cbn [ToNumber].
  rewrite (same_number_eq _ _ H). reflexivity.
Qed.

(** Half a cent is lost where the product falls short of the half:
    [1.005 * 100] is 100.49999999999999 and [0.285 * 100] is
    28.499999999999996. *)
Lemma half_cents_lost :
  cents (VString "1.005") = VNumber (S754_finite false 7036874417766400 (-46))
  /\ cents (VString "0.285") = VNumber (S754_finite false 7881299347898368 (-48))
  /\ ToString (VNumber (mul (ToNumber (VString "1.005")) (of_Z 100)))
     = "100.49999999999999"
  /\ ToString (cents (VString "1.005")) = "100"
  /\ ToString (cents (VString "0.285")) = "28".
Proof. repeat split; vm_compute; reflexivity. Qed.

(** ** Claims on the rate inquiry *)

Section RateInquiryClaims.
Variable w : World.
Variable env : Env.
Variable orderToken : string.
Variable order : value.
Hypothesis Horder : serves w env ("/orders/" ++ orderToken) no_options order.

(** C5, as amended.  When the order of a shipment reference has zero
    shipments (the member is absent, [null] or an empty list), the rate
    inquiry is answered with a client error and never with 200: 404 by
    src/server.js, 400 by src/unnamed/part_000, after the one read of the
    order. *)
Theorem no_shipments_client_error :
  no_shipments order ->
  response_of (fst (ServerJs.get_api_shipping w env orderToken))
  = Some {| status := 404; body := error_envelope "No shipment found" |}
  /\ response_of (fst (Part000.get_api_shipping w env orderToken))
     = Some {| status := 400;
               body := error_envelope
                         "Order has no shipments. Ensure parcels were added." |}
  /\ client_error (response_of (fst (ServerJs.get_api_shipping w env orderToken)))
  /\ client_error (response_of (fst (Part000.get_api_shipping w env orderToken))).
Proof.
  intros Hnone.
  rewrite (serverjs_no_shipments w env orderToken order Horder Hnone).
  rewrite (part000_no_shipments w env orderToken order Horder Hnone).
  cbn [fst response_of]. unfold client_error.
  repeat split; eexists; (split; [reflexivity | cbn; lia]).
Qed.

Variable first : value.
Variable others : list value.
Variable shipment : value.
Variable rs : list value.
Hypothesis Hshipments : get order "shipments" = inr (VArray (first :: others)).
Hypothesis Hshipment :
  serves w env ("/shipments/" ++ ToString first) no_options shipment.
Hypothesis Hrates : get shipment "rates" = inr (VArray rs).

Local Abbreviation to_address := (field order "to_address").

(** C7. Every provider rate object is mapped to the normalized shape by
    rate_id = object_id, carrier = provider, service = servicelevel.name,
    amount = the number its amount denotes, eta = estimated_days: that is
    what the callback of [map] returns, and the rate list of the answer of
    src/server.js and of src/unnamed/part_000 is the list of these entries
    in the provider's order.  The number is what [Number] makes of the
    amount: an amount of two decimals denotes the quotient of its cents by
    100, rounded once to binary64; white space around it is dropped;
    fraction, sign and exponent are read; text that is no numeric literal
    is NaN and a literal beyond the range is Infinity, both of which the
    answer writes as [null].  The rate RATE_A of the specification is
    mapped to {rate_id: "RATE_A", carrier: "UPS", service: "Ground",
    amount: 12.5, eta: 3}. *)
Theorem rates_normalized :
  forallb readable_rate rs = true ->
  (forall r, In r rs ->
     rate_entry r
     = inr (VObject [("rate_id", field r "object_id");
                     ("carrier", field r "provider");
                     ("service", field (field r "servicelevel") "name");
                     ("amount", VNumber (ToNumber (field r "amount")));
                     ("eta", field r "estimated_days")]))
  /\ (exists name city state,
        response_of (fst (ServerJs.get_api_shipping w env orderToken))
        = Some (rates_answer name city state (map normalized rs)))
  /\ (exists name city state,
        response_of (fst (Part000.get_api_shipping w env orderToken))
        = Some (rates_answer name city state (map normalized rs)))
  (* 12.5 is 7036874417766400 * 2^-49 *)
  /\ rate_entry Scenario.RATE_A
     = inr (VObject [("rate_id", VString "RATE_A");
                     ("carrier", VString "UPS");
                     ("service", VString "Ground");
                     ("amount", VNumber (S754_finite false 7036874417766400 (-49)));
                     ("eta", VNumber (of_Z 3))])
  /\ stringify (VNumber (ToNumber (VString "12.50"))) = "12.5"
  /\ (forall n, 0 <= n < 10000 ->
      ToNumber (VString (money n)) = SFdiv prec emax (of_Z n) (of_Z 100))
  /\ (forall x, ToNumber (VNumber x) = x)
  /\ ToNumber (VString (" " ++ TAB ++ "12.5" ++ LF ++ " "))
     = S754_finite false 7036874417766400 (-49)
  /\ ToNumber (VString (NBSP ++ "12.5")) = S754_finite false 7036874417766400 (-49)
  /\ ToNumber (VString "1.25e1") = S754_finite false 7036874417766400 (-49)
  /\ ToNumber (VString "125E-1") = S754_finite false 7036874417766400 (-49)
  /\ ToNumber (VString "+12.5") = S754_finite false 7036874417766400 (-49)
  /\ ToNumber (VString "12.") = S754_finite false 6755399441055744 (-49)
  /\ ToNumber (VString ".5") = S754_finite false 4503599627370496 (-53)
  /\ ToNumber (VString "0.1") = S754_finite false 7205759403792794 (-56)
  /\ ToNumber (VString "-1.00") = S754_finite true 4503599627370496 (-52)
  /\ ToNumber (VString "0x1A") = S754_finite false 7318349394477056 (-48)
  /\ ToNumber (VString "9007199254740993") = S754_finite false 4503599627370496 1
  /\ ToNumber (VString "") = S754_zero false
  /\ ToNumber (VString "  ") = S754_zero false
  /\ ToNumber (VString "-0") = S754_zero true
  /\ ToNumber (VString "1e-400") = S754_zero false
  /\ ToNumber VNull = S754_zero false
  /\ ToNumber (VString "1e400") = S754_infinity false
  /\ ToNumber (VString "-Infinity") = S754_infinity true
  /\ ToNumber (VString "12.50 USD") = S754_nan
  /\ ToNumber (VString "$12.50") = S754_nan
  /\ ToNumber (VString "12,50") = S754_nan
  /\ ToNumber (VString "1e") = S754_nan
  /\ ToNumber (VString "1 2") = S754_nan
  /\ ToNumber VUndefined = S754_nan
  /\ stringify (VNumber (ToNumber (VString "1e400"))) = "null"
  /\ stringify (VNumber (ToNumber (VString "12.50 USD"))) = "null".
Proof.
  intros Hreadable. split; [|split; [|split]].
  - intros r Hin. apply rate_entry_normalized.
    rewrite forallb_forall in Hreadable. apply Hreadable, Hin.
  - rewrite (serverjs_rates_served w env orderToken order Horder first others
               shipment rs Hshipments Hshipment Hrates Hreadable).
    do 3 eexists. reflexivity.
  - rewrite (part000_rates_served w env orderToken order Horder first others
               shipment rs Hshipments Hshipment Hrates Hreadable).
    do 3 eexists. reflexivity.
  - split; [vm_compute; reflexivity|]. split; [vm_compute; reflexivity|].
    split; [exact money_amount|]. split; [reflexivity|].
    repeat split; vm_compute; reflexivity.
Qed.

(** C8, as amended.  For a valid shipment reference whose shipment has at
    least one rate, and whose provider rates are each an object with a
    servicelevel, a non-empty object_id and an amount that denotes a
    number that is finite and not below zero, every entry of the returned
    rate list has a non-negative numeric amount and a non-empty rate_id,
    and the list has an entry for every rate. *)
Theorem sound_rates_sound_entries :
  rs <> [] ->
  forallb sound_rate rs = true ->
  forall run,
    In run [ServerJs.get_api_shipping w env orderToken;
            Part000.get_api_shipping w env orderToken] ->
    exists name city state entries,
      response_of (fst run) = Some (rates_answer name city state entries)
      /\ List.length entries = List.length rs
      /\ entries <> []
      /\ forallb sound_entry entries = true.
Proof.
  intros Hne Hsound run Hin.
  destruct (sound_rates_entries rs Hsound) as [Hreadable Hentries].
  assert (map normalized rs <> []) as Hne'
    by (destruct rs; [contradiction | discriminate]).
  simpl in Hin. destruct Hin as [<-|[<-|[]]].
  - rewrite (serverjs_rates_served w env orderToken order Horder first others
               shipment rs Hshipments Hshipment Hrates Hreadable).
    do 4 eexists. split; [reflexivity|]. rewrite length_map. auto.
  - rewrite (part000_rates_served w env orderToken order Horder first others
               shipment rs Hshipments Hshipment Hrates Hreadable).
    do 4 eexists. split; [reflexivity|]. rewrite length_map. auto.
Qed.

(** C10. Whatever the order says about its address, the rate inquiry of
    src/server.js and of src/unnamed/part_000 answers 200 with the complete
    rate list: the customer members are read through [?.], so an order
    without to_address gets a customer without name, city and state
    (with the name "Customer" in src/unnamed/part_000), and an address
    without one of the members gets [undefined] for it. *)
Theorem missing_address_tolerated :
  forallb readable_rate rs = true ->
  response_of (fst (ServerJs.get_api_shipping w env orderToken))
  = Some (rates_answer (field_opt to_address "name")
                       (field_opt to_address "city")
                       (field_opt to_address "state")
                       (map normalized rs))
  /\ response_of (fst (Part000.get_api_shipping w env orderToken))
     = Some (rates_answer (if truthy (field_opt to_address "name")
                           then field_opt to_address "name"
                           else VString "Customer")
                          (field_opt to_address "city")
                          (field_opt to_address "state")
                          (map normalized rs))
  /\ snd (ServerJs.get_api_shipping w env orderToken) = inr tt
  /\ snd (Part000.get_api_shipping w env orderToken) = inr tt
  /\ (nullish to_address = true ->
      response_of (fst (ServerJs.get_api_shipping w env orderToken))
      = Some (rates_answer VUndefined VUndefined VUndefined (map normalized rs))
      /\ response_of (fst (Part000.get_api_shipping w env orderToken))
         = Some (rates_answer (VString "Customer") VUndefined VUndefined
                              (map normalized rs))).
Proof.
  intros Hreadable.
  rewrite (serverjs_rates_served w env orderToken order Horder first others
             shipment rs Hshipments Hshipment Hrates Hreadable).
  rewrite (part000_rates_served w env orderToken order Horder first others
             shipment rs Hshipments Hshipment Hrates Hreadable).
  cbn [fst snd response_of].
  repeat split.
  - unfold field_opt. rewrite H. reflexivity.
  - unfold field_opt. rewrite H. reflexivity.
Qed.

End RateInquiryClaims.

(** ** The checkout *)

Lemma findM_matches (rateId : value) (rs : list value) :
  forallb is_object rs = true ->
  findM (matches rateId) rs = inr (find_rate rateId rs).
Proof.
  unfold find_rate. induction rs as [|r rs IH]; simpl; [reflexivity|].
  intros H. apply andb_prop in H as [Hr Hrs].
  unfold matches at 1, rbind.
  rewrite (get_field r "object_id") by (destruct r; try discriminate; reflexivity).
  destruct (strict_eq (field r "object_id") rateId); [reflexivity|].
  apply IH, Hrs.
Qed.

Lemma find_rate_object (rateId rate : value) (rs : list value) :
  forallb is_object rs = true ->
  find_rate rateId rs = Some rate ->
  is_object rate = true.
Proof.
  intros Hobj Hfind. apply find_some in Hfind as [Hin _].
  rewrite forallb_forall in Hobj. apply Hobj, Hin.
Qed.

Lemma array_find_rate (rateId : value) (rs : list value) (src : string) :
  forallb is_object rs = true ->
  array_find (VArray rs) src (matches rateId)
  = inr (match find_rate rateId rs with
         | Some rate => rate
         | None => VUndefined
         end).
Proof.
  intros Hobj. unfold array_find. rewrite (findM_matches rateId rs Hobj).
  destruct (find_rate rateId rs); reflexivity.
Qed.

Section Checkout.
Variable w : World.
Variable env : Env.
Variable doc : value.
Hypothesis Hbody : nullish doc = false.

Local Abbreviation orderToken := (field doc "orderToken").
Local Abbreviation rateId := (field doc "rateId").

(** X18.  src/unnamed/part_000 turns a body without orderToken or rateId away
    before anything leaves the process. *)
Lemma part000_missing_field :
  truthy orderToken = false \/ truthy rateId = false ->
  Part000.post_api_checkout w env doc
  = ([Respond {| status := 400;
                 body := error_envelope "Missing orderToken or rateId" |}],
     inr tt).
Proof.
  intros Hmissing. unfold Part000.post_api_checkout.
  rewrite !(destructure_get _ _ _ Hbody), !(get_field _ _ Hbody). run.
  assert (negb (truthy orderToken) || negb (truthy rateId) = true) as ->
    by (destruct Hmissing as [-> | ->]; [reflexivity | apply orb_true_r]).
  run. reflexivity.
Qed.

Variable order : value.
Variable first : value.
Variable others : list value.
Variable shipment : value.
Variable rs : list value.
Hypothesis Horder :
  serves w env ("/orders/" ++ ToString orderToken) no_options order.
Hypothesis Hshipments : get order "shipments" = inr (VArray (first :: others)).
Hypothesis Hshipment :
  serves w env ("/shipments/" ++ ToString first) no_options shipment.
Hypothesis Hrates : get shipment "rates" = inr (VArray rs).
Hypothesis Hobjects : forallb is_object rs = true.

(** The reads both servers make before they look at the rate. *)
Ltac refetch :=
  rewrite (shippoFetch_serves _ _ _ _ _ Horder); run;
  rewrite Hshipments; run;
  rewrite get_first; run;
  rewrite (shippoFetch_serves _ _ _ _ _ Hshipment); run;
  rewrite Hrates; run;
  rewrite (array_find_rate _ _ _ Hobjects); run.

Section UnknownRate.
Hypothesis Hunknown : find_rate rateId rs = None.

Lemma serverjs_unknown_rate :
  ServerJs.post_api_checkout w env doc
  = ([shippo_call env ("/orders/" ++ ToString orderToken) no_options;
      shippo_call env ("/shipments/" ++ ToString first) no_options;
      Respond {| status := 400; body := error_envelope "Invalid rate" |}],
     inr tt).
Proof.
  unfold ServerJs.post_api_checkout, ServerJs.shippoFetch.
  rewrite !(destructure_get _ _ _ Hbody), !(get_field _ _ Hbody). run.
  refetch. rewrite Hunknown. cbn [truthy negb]. run. reflexivity.
Qed.

Lemma part000_unknown_rate :
  truthy orderToken = true ->
  truthy rateId = true ->
  Part000.post_api_checkout w env doc
  = ([shippo_call env ("/orders/" ++ ToString orderToken) no_options;
      shippo_call env ("/shipments/" ++ ToString first) no_options;
      Respond {| status := 400; body := error_envelope "Invalid rate selected" |}],
     inr tt).
Proof.
  intros Ho Hr. unfold Part000.post_api_checkout, Part000.shippoFetch.
  rewrite !(destructure_get _ _ _ Hbody), !(get_field _ _ Hbody). run.
  rewrite Ho, Hr. cbn [negb orb].
  refetch. rewrite Hunknown. cbn [truthy negb]. run. reflexivity.
Qed.

End UnknownRate.

Section KnownRate.
Variable rate : value.
Variable session : value.
Hypothesis Hknown : find_rate rateId rs = Some rate.
Hypothesis Hreadable : readable_rate rate = true.

Lemma known_rate_reads :
  truthy rate = true
  /\ get rate "provider" = inr (field rate "provider")
  /\ get rate "servicelevel" = inr (field rate "servicelevel")
  /\ get (field rate "servicelevel") "name"
     = inr (field (field rate "servicelevel") "name")
  /\ get rate "amount" = inr (field rate "amount").
Proof.
  pose proof (find_rate_object _ _ _ Hobjects Hknown) as Hobj.
  unfold readable_rate in Hreadable.
  apply andb_prop in Hreadable as [Hr Hs]. apply negb_true_iff in Hr, Hs.
  repeat split; try (apply get_field; assumption).
  destruct rate; try discriminate Hobj. reflexivity.
Qed.

Ltac price :=
  destruct known_rate_reads as (Htruthy & Hp & Hsl & Hname & Hamount);
  rewrite Hknown, Htruthy; cbn [negb];
  rewrite Hp; run; rewrite Hsl; run; rewrite Hname; run; rewrite Hamount; run.

(** src/server.js prices the session from the rate it has fetched again. *)
Lemma serverjs_known_rate :
  stripe_sessions_create w (priced_session env "–" [] rate rateId [("rateId", rateId)])
  = inr session ->
  nullish session = false ->
  ServerJs.post_api_checkout w env doc
  = ([shippo_call env ("/orders/" ++ ToString orderToken) no_options;
      shippo_call env ("/shipments/" ++ ToString first) no_options;
      SessionsCreate (priced_session env "–" [] rate rateId [("rateId", rateId)]);
      Respond {| status := 200;
                 body := Json (VObject [("url", field session "url")]) |}],
     inr tt).
Proof.
  intros Hcreate Hsession.
  unfold ServerJs.post_api_checkout, ServerJs.shippoFetch.
  rewrite !(destructure_get _ _ _ Hbody), !(get_field _ _ Hbody). run.
  refetch. price.
  unfold sessions_create.
  change (session_params _ _ _ _ _ _)
    with (priced_session env "–" [] rate rateId [("rateId", rateId)]).
  rewrite Hcreate. run. rewrite (get_field _ _ Hsession). run. reflexivity.
Qed.

(** So does src/unnamed/part_000. *)
Lemma part000_known_rate :
  truthy orderToken = true ->
  truthy rateId = true ->
  stripe_sessions_create w
    (priced_session env "–" [("payment_method_types", VArray [VString "card"])]
       rate rateId [("rateId", rateId)])
  = inr session ->
  nullish session = false ->
  Part000.post_api_checkout w env doc
  = ([shippo_call env ("/orders/" ++ ToString orderToken) no_options;
      shippo_call env ("/shipments/" ++ ToString first) no_options;
      SessionsCreate
        (priced_session env "–" [("payment_method_types", VArray [VString "card"])]
           rate rateId [("rateId", rateId)]);
      Respond {| status := 200;
                 body := Json (VObject [("url", field session "url")]) |}],
     inr tt).
Proof.
  intros Ho Hr Hcreate Hsession.
  unfold Part000.post_api_checkout, Part000.shippoFetch.
  rewrite !(destructure_get _ _ _ Hbody), !(get_field _ _ Hbody). run.
  rewrite Ho, Hr. cbn [negb orb].
  refetch. price.
  unfold sessions_create.
  change (session_params _ _ _ _ _ _)
    with (priced_session env "–" [("payment_method_types", VArray [VString "card"])]
            rate rateId [("rateId", rateId)]).
  rewrite Hcreate. run. rewrite (get_field _ _ Hsession). run. reflexivity.
Qed.

End KnownRate.
End Checkout.

(** X19.  The checkout of src/server.js and of src/unnamed/part_000 reads two
    members of the body and nothing else: a price the client adds to the
    body changes nothing. *)
Lemma checkout_reads_token_and_rate (w : World) (env : Env) (doc doc' : value) :
  nullish doc = false ->
  nullish doc' = false ->
  field doc "orderToken" = field doc' "orderToken" ->
  field doc "rateId" = field doc' "rateId" ->
  ServerJs.post_api_checkout w env doc = ServerJs.post_api_checkout w env doc'
  /\ Part000.post_api_checkout w env doc = Part000.post_api_checkout w env doc'.
Proof.
  intros Hdoc Hdoc' Htoken Hrate.
  unfold ServerJs.post_api_checkout, Part000.post_api_checkout.
  rewrite !(destructure_get _ _ _ Hdoc), !(destructure_get _ _ _ Hdoc').
  rewrite !(get_field _ _ Hdoc), !(get_field _ _ Hdoc'), Htoken, Hrate.
  split; reflexivity.
Qed.

(** The unit amount of a priced session is [Math.round(rate.amount * 100)]. *)
Lemma priced_session_unit_amount env dash rate rateId metadata :
  unit_amount (priced_session env dash [] rate rateId metadata)
  = cents (field rate "amount")
  /\ unit_amount (priced_session env dash
                    [("payment_method_types", VArray [VString "card"])]
                    rate rateId metadata)
     = cents (field rate "amount").
Proof. split; reflexivity. Qed.

(** ** Claims on the checkout *)

(** The first server of src/unnamed/part_001 looks the rate up and does
    not test what it has found: a rateId outside the rate set ends in the
    [catch], with 500, before any session is asked for. *)
Lemma sdk_unknown_rate (w : World) (env : Env) (doc order first shipment : value)
    (others rs : list value) :
  nullish doc = false ->
  shippo_order_retrieve w (field doc "orderToken") = inr order ->
  get order "shipments" = inr (VArray (first :: others)) ->
  shippo_shipment_retrieve w first = inr shipment ->
  get shipment "rates" = inr (VArray rs) ->
  forallb is_object rs = true ->
  find_rate (field doc "rateId") rs = None ->
  Part001Sdk.post_api_checkout w env doc
  = ([OrderRetrieve (field doc "orderToken");
      ShipmentRetrieve first;
      Respond {| status := 500; body := error_envelope "Checkout failed" |}],
     inr tt).
Proof.
  intros Hdoc Horder Hshipments Hshipment Hrates Hobjects Hunknown.
  unfold Part001Sdk.post_api_checkout, Part001Sdk.order_retrieve,
    Part001Sdk.shipment_retrieve.
  rewrite !(destructure_get _ _ _ Hdoc), !(get_field _ _ Hdoc). run.
  rewrite Horder. run. rewrite Hshipments. run. rewrite get_first. run.
  rewrite Hshipment. run. rewrite Hrates. run.
  rewrite (array_find_rate _ _ _ Hobjects), Hunknown. run.
  reflexivity.
Qed.

(** src/server.js asks the provider for the order [undefined] when the
    body has no orderToken, and answers 500 when the provider refuses. *)
Lemma serverjs_missing_orderToken (w : World) (env : Env) (doc : value) st text :
  nullish doc = false ->
  field doc "orderToken" = VUndefined ->
  refuses w env "/orders/undefined" no_options st text ->
  response_of (fst (ServerJs.post_api_checkout w env doc))
  = Some {| status := 500; body := error_envelope "Checkout failed" |}.
Proof.
  intros Hdoc Htoken Hrefuses.
  unfold ServerJs.post_api_checkout, ServerJs.shippoFetch.
  rewrite !(destructure_get _ _ _ Hdoc), !(get_field _ _ Hdoc). run.
  rewrite Htoken. cbn [ToString].
  change ("/orders/" ++ "undefined") with "/orders/undefined".
  rewrite (shippoFetch_refuses _ _ _ _ _ _ Hrefuses). run. done.
Qed.

(** C3. The second server of src/unnamed/part_001 prices the session from
    the request: whatever the world, the one call that leaves the process
    for a checkout of [{ rateId, amount }] is the creation of a session
    whose unit amount is [Math.round(amount * 100)] of the client's amount;
    the provider is not asked.  A request for RATE_A (12.50 at the
    provider) with amount 0.01 gets a session of 1 cent and its url. *)
Theorem zapier_checkout_prices_from_request :
  (forall (w : World) (env : Env) (rateId amount : value),
     let params :=
       session_params "Shipping Charge" (cents amount) [] [("rateId", rateId)]
         (ToString (env_value (BASE_URL env)) ++ "/success.html")
         (ToString (env_value (BASE_URL env)) ++ "/cancel.html") in
     outbound (fst (Part001Zapier.post_api_checkout w env
                      (VObject [("rateId", rateId); ("amount", amount)])))
     = [SessionsCreate params]
     /\ unit_amount params = cents amount)
  /\ (let run := Part001Zapier.post_api_checkout Scenario.happy Scenario.env
                   (VObject [("rateId", VString "RATE_A");
                             ("amount", VNumber (decimal 1 (-2)))]) in
      find_rate (VString "RATE_A") [Scenario.RATE_A] = Some Scenario.RATE_A
      /\ cents (field Scenario.RATE_A "amount") = VNumber (of_Z 1250)
      /\ (exists params, outbound (fst run) = [SessionsCreate params]
                         /\ unit_amount params = VNumber (of_Z 1))
      /\ response_of (fst run)
         = Some {| status := 200;
                   body := Json (VObject [("url", field Scenario.session "url")]) |}).
Proof.
  split.
  - intros w env rateId amount params. split; [|reflexivity].
    unfold Part001Zapier.post_api_checkout.
    change (destructure (VObject [("rateId", rateId); ("amount", amount)])
              "req.body" "rateId") with (@inr exn value rateId).
    change (get (VObject [("rateId", rateId); ("amount", amount)]) "amount")
      with (@inr exn value amount).
    run. fold params. unfold sessions_create.
    destruct (stripe_sessions_create w params) as [e|session]; run; [done|].
    destruct (get session "url") as [e|url]; run; done.
  - cbv zeta. split; [reflexivity|]. split; [reflexivity|]. split.
    + eexists. split; reflexivity.
    + reflexivity.
Qed.

(** C4. On the first server of src/unnamed/part_001, a checkout for the
    rateId RATE_X, which the shipment's rate set (RATE_A alone) does not
    contain, is answered 500 "Checkout failed", not 400; no payment
    session is created.  src/server.js and src/unnamed/part_000 answer the
    same request 400. *)
Theorem sdk_unknown_rate_is_server_error :
  let doc := VObject [("orderToken", VString "ORDER_1");
                      ("rateId", VString "RATE_X")] in
  find_rate (VString "RATE_X") [Scenario.RATE_A] = None
  /\ Part001Sdk.post_api_checkout Scenario.happy Scenario.env doc
     = ([OrderRetrieve (VString "ORDER_1");
         ShipmentRetrieve (VString "SHIP_1");
         Respond {| status := 500; body := error_envelope "Checkout failed" |}],
        inr tt)
  /\ response_of (fst (ServerJs.post_api_checkout Scenario.happy Scenario.env doc))
     = Some {| status := 400; body := error_envelope "Invalid rate" |}
  /\ response_of (fst (Part000.post_api_checkout Scenario.happy Scenario.env doc))
     = Some {| status := 400; body := error_envelope "Invalid rate selected" |}.
Proof. cbv zeta. repeat split; vm_compute; reflexivity. Qed.

(** C6. On src/server.js, a checkout whose body has a rateId and no
    orderToken is answered 500 "Checkout failed": the handler asks the
    provider for the order [undefined], the provider answers 404, and the
    [catch] turns the failure into a server error.  src/unnamed/part_000
    answers the same request 400 without calling anyone. *)
Theorem server_js_missing_orderToken_is_server_error :
  let doc := VObject [("rateId", VString "RATE_A")] in
  ServerJs.post_api_checkout Scenario.happy Scenario.env doc
  = ([shippo_call Scenario.env "/orders/undefined" no_options;
      ConsoleError ["Shippo error 404: " ++ resp_text Scenario.not_found];
      Respond {| status := 500; body := error_envelope "Checkout failed" |}],
     inr tt)
  /\ Part000.post_api_checkout Scenario.happy Scenario.env doc
     = ([Respond {| status := 400;
                    body := error_envelope "Missing orderToken or rateId" |}],
        inr tt).
Proof. cbv zeta. split; vm_compute; reflexivity. Qed.

(** ** Claims on the provider client *)

(** Both versions of the client put the token on the call, unless the
    caller's own headers name an Authorization; no handler passes headers
    ([no_options] and [post_json] have none). *)
Lemma shippo_init_token (env : Env) (options : RequestInit) :
  Shippo.header "Authorization"
    (match init_headers options with Some h => h | None => [] end) = None ->
  exists h,
    init_headers (Shippo.shippo_init env options) = Some h
    /\ Shippo.header "Authorization" h
       = Some ("ShippoToken " ++ ToString (Shippo.SHIPPO_TOKEN env)).
Proof.
  intros Hnone. eexists. split; [reflexivity|].
  unfold Shippo.spread. cbn [map fst]. rewrite Hnone. reflexivity.
Qed.

(** X23.  The client of src/server.js and src/unnamed/part_000 turns every
    status outside 200..299 into an Error that spells the status and
    quotes the body. *)
Lemma shippoFetch_failure (w : World) (env : Env) path options res :
  net_fetch w (Shippo.SHIPPO_BASE ++ path) (Shippo.shippo_init env options) = inr res ->
  resp_ok res = false ->
  snd (Shippo.shippoFetch w env path options)
  = inl (Error ("Shippo error " ++ number_to_string (of_Z (resp_status res))
                  ++ ": " ++ resp_text res)).
Proof.
  intros Hres Hok.
  rewrite (shippoFetch_refuses w env path options (resp_status res) (resp_text res)).
  - reflexivity.
  - exists res. auto.
Qed.

(** C9. The client of the second server of src/unnamed/part_001 puts the
    token on the call like the others, but its failure does not carry the
    upstream status: a 404 and a 500 with the same JSON body end in the
    same Error, whose message is that body alone, and a refusal whose body
    is not JSON ends in the SyntaxError of [res.json()], which carries
    neither the status nor the body. *)
Theorem zapier_failure_drops_status :
  forall (env : Env) (path : string) (options : RequestInit)
         (text : string) (data : value) (unparsed : exn),
    init_headers (Shippo.shippo_init env no_options)
    = Some [("Authorization", "ShippoToken " ++ ToString (Shippo.SHIPPO_TOKEN env));
            ("Content-Type", "application/json")]
    /\ fst (Shippo.shippoFetch_zapier (Scenario.always 404 text (inr data))
              env path options)
       = [shippo_call env path options]
    /\ snd (Shippo.shippoFetch_zapier (Scenario.always 404 text (inr data))
              env path options)
       = inl (Error (stringify data))
    /\ snd (Shippo.shippoFetch_zapier (Scenario.always 500 text (inr data))
              env path options)
       = inl (Error (stringify data))
    /\ snd (Shippo.shippoFetch_zapier (Scenario.always 502 text (inl unparsed))
              env path options)
       = inl unparsed
    /\ snd (Shippo.shippoFetch (Scenario.always 404 text (inr data))
              env path options)
       = inl (Error ("Shippo error 404: " ++ text)).
Proof. intros. repeat split. Qed.

(** ** The token on every call *)

Section Throughout.
Variable P : effect -> bool.

Lemma throughout_bind {A B} (m : M A) (f : A -> M B) :
  throughout P m -> (forall a, throughout P (f a)) -> throughout P (bind m f).
Proof.
  unfold throughout. destruct m as [t [e|a]]; simpl; intros Hm Hf; [exact Hm|].
  specialize (Hf a). destruct (f a) as [t' r]. simpl in *.
  rewrite forallb_app, Hm, Hf. reflexivity.
Qed.

Lemma throughout_try_catch {A} (m : M A) (h : exn -> M A) :
  throughout P m -> (forall e, throughout P (h e)) -> throughout P (try_catch m h).
Proof.
  unfold throughout. destruct m as [t [e|a]]; simpl; intros Hm Hh; [|exact Hm].
  specialize (Hh e). destruct (h e) as [t' r]. simpl in *.
  rewrite forallb_app, Hm, Hh. reflexivity.
Qed.

Lemma throughout_attempt {A} (m : M A) :
  throughout P m -> throughout P (attempt m).
Proof. intros H. exact H. Qed.

Lemma throughout_lift {A} (r : result A) : throughout P (lift r).
Proof. reflexivity. Qed.

Lemma throughout_ret {A} (a : A) : throughout P (ret a).
Proof. reflexivity. Qed.

Lemma throughout_perform {A} (e : effect) (r : result A) :
  P e = true -> throughout P (perform e r).
Proof. unfold throughout. simpl. intros ->. reflexivity. Qed.

End Throughout.

Lemma shippo_call_authorized (env : Env) (path : string) (options : RequestInit) :
  init_headers options = None ->
  authorized env (shippo_call env path options) = true.
Proof.
  intros H. unfold authorized, shippo_call, Shippo.shippo_init. rewrite H.
  cbn [init_headers Shippo.spread map fst Shippo.header filter app].
  change (String.eqb "Authorization" "Authorization") with true. cbv iota.
  apply String.eqb_refl.
Qed.

Lemma throughout_shippoFetch (w : World) (env : Env) path options :
  init_headers options = None ->
  throughout (authorized env) (Shippo.shippoFetch w env path options).
Proof.
  intros H. destruct (shippoFetch_once w env path options) as [r ->].
  unfold throughout. cbn [fst forallb].
  rewrite (shippo_call_authorized env path options H). reflexivity.
Qed.

Lemma throughout_shippoFetch_zapier (w : World) (env : Env) path options :
  init_headers options = None ->
  throughout (authorized env) (Shippo.shippoFetch_zapier w env path options).
Proof.
  intros H. destruct (shippoFetch_zapier_once w env path options) as [r ->].
  unfold throughout. cbn [fst forallb].
  rewrite (shippo_call_authorized env path options H). reflexivity.
Qed.

(** A run is taken apart along its binds, handlers and tests. *)
Ltac throughout :=
  repeat match goal with
    | |- throughout _ (Shippo.shippoFetch _ _ _ _) =>
        apply throughout_shippoFetch; reflexivity
    | |- throughout _ (Shippo.shippoFetch_zapier _ _ _ _) =>
        apply throughout_shippoFetch_zapier; reflexivity
    | |- throughout _ (bind _ _) => apply throughout_bind; [|intros ?]
    | |- throughout _ (try_catch _ _) => apply throughout_try_catch; [|intros ?]
    | |- throughout _ (attempt _) => apply throughout_attempt
    | |- throughout _ (lift _) => apply throughout_lift
    | |- throughout _ (ret _) => apply throughout_ret
    | |- throughout _ (perform _ _) => apply throughout_perform; reflexivity
    | |- throughout _ (if ?b then _ else _) => destruct b
    | |- throughout _ (match ?x with inl _ => _ | inr _ => _ end) => destruct x
    end.

(** X21.  Whatever the world and the request, every call a handler makes through
    [shippoFetch] carries the token: in src/server.js, in
    src/unnamed/part_000 and in the second server of src/unnamed/part_001. *)
Lemma every_call_carries_token (w : World) (env : Env)
    (req : WebhookRequest) (ref : string) (doc : value) :
  Forall (throughout (authorized env))
    [ServerJs.post_webhook_stripe w env req;
     ServerJs.get_api_shipping w env ref;
     ServerJs.post_api_checkout w env doc;
     Part000.post_webhook_stripe w env req;
     Part000.get_api_shipping w env ref;
     Part000.post_api_checkout w env doc;
     Part001Zapier.post_zapier_create_shipping_session w env doc;
     Part001Zapier.get_api_shipping w env ref;
     Part001Zapier.post_api_checkout w env doc;
     Part001Zapier.post_webhook_stripe w env req].
Proof.
  repeat constructor;
    unfold ServerJs.post_webhook_stripe, ServerJs.get_api_shipping,
      ServerJs.post_api_checkout, ServerJs.shippoFetch,
      Part000.post_webhook_stripe, Part000.get_api_shipping,
      Part000.post_api_checkout, Part000.shippoFetch,
      Part001Zapier.post_zapier_create_shipping_session,
      Part001Zapier.get_api_shipping, Part001Zapier.post_api_checkout,
      Part001Zapier.post_webhook_stripe, Part001Zapier.shippoFetch,
      console_error, res_json, res_status_json, res_status_send, sessions_create;
    throughout. all: try apply throughout_lift.
Qed.

(** ** The scenario of the specification, and its neighbours *)

Lemma no_shipments_client_error_witness :
  response_of (fst (ServerJs.get_api_shipping
                      Scenario.no_shipment Scenario.env "ORDER_1"))
  = Some {| status := 404; body := error_envelope "No shipment found" |}
  /\ response_of (fst (Part000.get_api_shipping
                         Scenario.no_shipment Scenario.env "ORDER_1"))
     = Some {| status := 400;
               body := error_envelope
                         "Order has no shipments. Ensure parcels were added." |}
  /\ client_error (response_of (fst (ServerJs.get_api_shipping
                                       Scenario.no_shipment Scenario.env "ORDER_1")))
  /\ client_error (response_of (fst (Part000.get_api_shipping
                                       Scenario.no_shipment Scenario.env "ORDER_1"))).
Proof.
  apply (no_shipments_client_error Scenario.no_shipment Scenario.env "ORDER_1"
           (Scenario.ORDER_1 [])).
  - eexists. split; [reflexivity | split; reflexivity].
  - exists (VArray []). split; [reflexivity | right; reflexivity].
Defined.

(** The counterexample to C5 as stated: a shipment with zero rates is
    answered 200 with an empty rate list by every server that has the
    route, not with a client error. *)
Lemma zero_rates_answered_200 :
  get (Scenario.SHIP_1 []) "rates" = inr (VArray [])
  /\ ServerJs.get_api_shipping Scenario.no_rates Scenario.env "ORDER_1"
     = ([shippo_call Scenario.env "/orders/ORDER_1" no_options;
         shippo_call Scenario.env "/shipments/SHIP_1" no_options;
         Respond (rates_answer VUndefined VUndefined VUndefined [])],
        inr tt)
  /\ Part000.get_api_shipping Scenario.no_rates Scenario.env "ORDER_1"
     = ([shippo_call Scenario.env "/orders/ORDER_1" no_options;
         shippo_call Scenario.env "/shipments/SHIP_1" no_options;
         Respond (rates_answer (VString "Customer") VUndefined VUndefined [])],
        inr tt)
  /\ Part001Zapier.get_api_shipping Scenario.no_rates Scenario.env "SHIP_1"
     = ([shippo_call Scenario.env "/shipments/SHIP_1" no_options;
         Respond {| status := 200; body := Json (VObject [("rates", VArray [])]) |}],
        inr tt)
  /\ ~ client_error (response_of (fst (ServerJs.get_api_shipping
                                         Scenario.no_rates Scenario.env "ORDER_1"))).
Proof.
  repeat split; try (vm_compute; reflexivity).
  intros (r & Hr & Hst). vm_compute in Hr. injection Hr as <-.
  cbn in Hst. lia.
Qed.

Lemma rates_normalized_witness :
  (forall r, In r [Scenario.RATE_A] ->
     rate_entry r
     = inr (VObject [("rate_id", field r "object_id");
                     ("carrier", field r "provider");
                     ("service", field (field r "servicelevel") "name");
                     ("amount", VNumber (ToNumber (field r "amount")));
                     ("eta", field r "estimated_days")]))
  /\ (exists name city state,
        response_of (fst (ServerJs.get_api_shipping
                            Scenario.happy Scenario.env "ORDER_1"))
        = Some (rates_answer name city state (map normalized [Scenario.RATE_A])))
  /\ (exists name city state,
        response_of (fst (Part000.get_api_shipping
                            Scenario.happy Scenario.env "ORDER_1"))
        = Some (rates_answer name city state (map normalized [Scenario.RATE_A])))
  (* 12.5 is 7036874417766400 * 2^-49 *)
  /\ rate_entry Scenario.RATE_A
     = inr (VObject [("rate_id", VString "RATE_A");
                     ("carrier", VString "UPS");
                     ("service", VString "Ground");
                     ("amount", VNumber (S754_finite false 7036874417766400 (-49)));
                     ("eta", VNumber (of_Z 3))])
  /\ stringify (VNumber (ToNumber (VString "12.50"))) = "12.5"
  /\ (forall n, 0 <= n < 10000 ->
      ToNumber (VString (money n)) = SFdiv prec emax (of_Z n) (of_Z 100))
  /\ (forall x, ToNumber (VNumber x) = x)
  /\ ToNumber (VString (" " ++ TAB ++ "12.5" ++ LF ++ " "))
     = S754_finite false 7036874417766400 (-49)
  /\ ToNumber (VString (NBSP ++ "12.5")) = S754_finite false 7036874417766400 (-49)
  /\ ToNumber (VString "1.25e1") = S754_finite false 7036874417766400 (-49)
  /\ ToNumber (VString "125E-1") = S754_finite false 7036874417766400 (-49)
  /\ ToNumber (VString "+12.5") = S754_finite false 7036874417766400 (-49)
  /\ ToNumber (VString "12.") = S754_finite false 6755399441055744 (-49)
  /\ ToNumber (VString ".5") = S754_finite false 4503599627370496 (-53)
  /\ ToNumber (VString "0.1") = S754_finite false 7205759403792794 (-56)
  /\ ToNumber (VString "-1.00") = S754_finite true 4503599627370496 (-52)
  /\ ToNumber (VString "0x1A") = S754_finite false 7318349394477056 (-48)
  /\ ToNumber (VString "9007199254740993") = S754_finite false 4503599627370496 1
  /\ ToNumber (VString "") = S754_zero false
  /\ ToNumber (VString "  ") = S754_zero false
  /\ ToNumber (VString "-0") = S754_zero true
  /\ ToNumber (VString "1e-400") = S754_zero false
  /\ ToNumber VNull = S754_zero false
  /\ ToNumber (VString "1e400") = S754_infinity false
  /\ ToNumber (VString "-Infinity") = S754_infinity true
  /\ ToNumber (VString "12.50 USD") = S754_nan
  /\ ToNumber (VString "$12.50") = S754_nan
  /\ ToNumber (VString "12,50") = S754_nan
  /\ ToNumber (VString "1e") = S754_nan
  /\ ToNumber (VString "1 2") = S754_nan
  /\ ToNumber VUndefined = S754_nan
  /\ stringify (VNumber (ToNumber (VString "1e400"))) = "null"
  /\ stringify (VNumber (ToNumber (VString "12.50 USD"))) = "null".
Proof.
  apply (rates_normalized Scenario.happy Scenario.env "ORDER_1"
           (Scenario.ORDER_1 [VString "SHIP_1"])
           (ex_intro _ _ (conj eq_refl (conj eq_refl eq_refl)))
           (VString "SHIP_1") [] (Scenario.SHIP_1 [Scenario.RATE_A])
           [Scenario.RATE_A]
           eq_refl
           (ex_intro _ _ (conj eq_refl (conj eq_refl eq_refl)))
           eq_refl).
  reflexivity.
Defined.

Lemma sound_rates_sound_entries_witness :
  exists name city state entries,
    response_of (fst (ServerJs.get_api_shipping Scenario.happy Scenario.env "ORDER_1"))
    = Some (rates_answer name city state entries)
    /\ List.length entries = List.length [Scenario.RATE_A]
    /\ entries <> []
    /\ forallb sound_entry entries = true.
Proof.
  apply (sound_rates_sound_entries Scenario.happy Scenario.env "ORDER_1"
           (Scenario.ORDER_1 [VString "SHIP_1"])
           (ex_intro _ _ (conj eq_refl (conj eq_refl eq_refl)))
           (VString "SHIP_1") [] (Scenario.SHIP_1 [Scenario.RATE_A])
           [Scenario.RATE_A]
           eq_refl
           (ex_intro _ _ (conj eq_refl (conj eq_refl eq_refl)))
           eq_refl).
  - discriminate.
  - reflexivity.
  - left. reflexivity.
Defined.

(** The counterexample to C8 as stated: the provider's rate with an empty
    object_id and the amount "-1.00" is passed on, in a 200, as an entry
    with an empty rate_id and the amount -1. *)
Lemma unsound_rate_passed_on :
  get (Scenario.SHIP_1 [Scenario.odd_rate]) "rates" = inr (VArray [Scenario.odd_rate])
  /\ (forall run,
        In run [ServerJs.get_api_shipping Scenario.odd Scenario.env "ORDER_1";
                Part000.get_api_shipping Scenario.odd Scenario.env "ORDER_1"] ->
        exists name,
          response_of (fst run)
          = Some (rates_answer name VUndefined VUndefined
                    [VObject [("rate_id", VString "");
                              ("carrier", VString "UPS");
                              ("service", VString "Ground");
                              ("amount", VNumber (of_Z (-1)));
                              ("eta", VNumber (of_Z 3))]]))
  /\ sound_entry (VObject [("rate_id", VString "");
                           ("carrier", VString "UPS");
                           ("service", VString "Ground");
                           ("amount", VNumber (of_Z (-1)));
                           ("eta", VNumber (of_Z 3))]) = false
  /\ nonneg (of_Z (-1)) = false.
Proof.
  split; [reflexivity|]. split; [|split; reflexivity].
  intros run [<-|[<-|[]]]; eexists; vm_compute; reflexivity.
Qed.

(** An amount beyond the range of the numbers is passed on as Infinity,
    for which the answer has [null]: the entry has no numeric amount. *)
Example unbounded_amount_written_null :
  let r := VObject [("object_id", VString "RATE_B");
                    ("provider", VString "USPS");
                    ("servicelevel", VObject [("name", VString "Priority")]);
                    ("amount", VString "1e400");
                    ("estimated_days", VNumber (of_Z 2))] in
  readable_rate r = true
  /\ sound_rate r = false
  /\ rate_entry r = inr (normalized r)
  /\ field (normalized r) "amount" = VNumber (S754_infinity false)
  /\ sound_entry (normalized r) = false
  /\ stringify (field (normalized r) "amount") = "null".
Proof. cbv zeta. repeat split; vm_compute; reflexivity. Qed.

Lemma missing_address_tolerated_witness :
  get (Scenario.ORDER_1 [VString "SHIP_1"]) "to_address" = inr VUndefined
  /\ response_of (fst (ServerJs.get_api_shipping Scenario.happy Scenario.env "ORDER_1"))
     = Some (rates_answer VUndefined VUndefined VUndefined
               (map normalized [Scenario.RATE_A]))
  /\ response_of (fst (Part000.get_api_shipping Scenario.happy Scenario.env "ORDER_1"))
     = Some (rates_answer (VString "Customer") VUndefined VUndefined
               (map normalized [Scenario.RATE_A])).
Proof.
  split; [reflexivity|].
  apply (missing_address_tolerated Scenario.happy Scenario.env "ORDER_1"
           (Scenario.ORDER_1 [VString "SHIP_1"])
           (ex_intro _ _ (conj eq_refl (conj eq_refl eq_refl)))
           (VString "SHIP_1") [] (Scenario.SHIP_1 [Scenario.RATE_A])
           [Scenario.RATE_A]
           eq_refl
           (ex_intro _ _ (conj eq_refl (conj eq_refl eq_refl)))
           eq_refl eq_refl).
  reflexivity.
Defined.

(** The end-to-end scenario of the specification on src/server.js: the
    rate inquiry lists RATE_A at 12.5, the checkout asks for a session of
    1250 cents, and the verified webhook orders the label of RATE_A as a
    PDF, not queued. *)
Example end_to_end_scenario :
  response_of (fst (ServerJs.get_api_shipping Scenario.happy Scenario.env "ORDER_1"))
  = Some (rates_answer VUndefined VUndefined VUndefined
            [VObject [("rate_id", VString "RATE_A");
                      ("carrier", VString "UPS");
                      ("service", VString "Ground");
                      ("amount", VNumber (S754_finite false 7036874417766400 (-49)));
                      ("eta", VNumber (of_Z 3))]])
  /\ (exists params,
        outbound (fst (ServerJs.post_api_checkout Scenario.happy Scenario.env
                         (VObject [("orderToken", VString "ORDER_1");
                                   ("rateId", VString "RATE_A")])))
        = [shippo_call Scenario.env "/orders/ORDER_1" no_options;
           shippo_call Scenario.env "/shipments/SHIP_1" no_options;
           SessionsCreate params]
        /\ unit_amount params = VNumber (of_Z 1250)
        /\ field params "metadata" = VObject [("rateId", VString "RATE_A")])
  /\ ServerJs.post_webhook_stripe Scenario.happy Scenario.env Scenario.signed
     = ([shippo_call Scenario.env "/transactions"
           (post_json (VObject [("rate", VString "RATE_A");
                                ("label_file_type", VString "PDF");
                                ("async", VBool false)]));
         Respond acknowledged],
        inr tt).
Proof.
  split; [reflexivity|]. split; [|reflexivity].
  eexists. split; [reflexivity|]. split; reflexivity.
Qed.

(** On the wire a member that is [undefined] is not written: the customer
    of an order without address is the empty object. *)
Example undefined_members_not_written :
  wire (Json (VObject [("name", VUndefined);
                       ("city", VUndefined);
                       ("state", VUndefined)])) = "{}".
Proof. reflexivity. Qed.

(* ===================================================================== *)
(** * The conduct of the handlers in every world *)
(* ===================================================================== *)

Import Conduct.

(** A run is followed along every way the world can answer. *)
Ltac fork :=
  match goal with
  | |- context [Shippo.shippoFetch ?w ?env ?p ?o] =>
      let r := fresh "r" in
      let H := fresh "H" in
      destruct (shippoFetch_once w env p o) as [r H]; rewrite H; clear H;
      destruct r
  | |- context [Shippo.shippoFetch_zapier ?w ?env ?p ?o] =>
      let r := fresh "r" in
      let H := fresh "H" in
      destruct (shippoFetch_zapier_once w env p o) as [r H]; rewrite H; clear H;
      destruct r
  | |- context [match ?x with inl _ => _ | inr _ => _ end] => destruct x
  | |- context [if ?b then _ else _] => destruct b
  end.

Ltac steps :=
  cbn [bind try_catch attempt lift perform ret throw fst snd app].

Ltac explore := steps; repeat (fork; steps).

Ltac settle :=
  cbn [fst snd app flat_map responses session_requests outbound filter
       is_outbound label_purchases forallb is_read
       List.length known_status status andb orb negb].

Ltac each_run := repeat (apply Forall_cons || apply Forall_nil).

Ltac unfold_handlers :=
  unfold ServerJs.post_webhook_stripe, ServerJs.get_api_shipping,
    ServerJs.post_api_checkout, ServerJs.shippoFetch,
    Part000.post_webhook_stripe, Part000.get_api_shipping,
    Part000.post_api_checkout, Part000.shippoFetch,
    Part001Sdk.post_webhook_stripe, Part001Sdk.get_api_shipping,
    Part001Sdk.post_api_checkout, Part001Sdk.order_retrieve,
    Part001Sdk.shipment_retrieve, Part001Sdk.transaction_create,
    Part001Zapier.post_zapier_create_shipping_session,
    Part001Zapier.get_api_shipping, Part001Zapier.post_api_checkout,
    Part001Zapier.post_webhook_stripe, Part001Zapier.shippoFetch,
    console_error, res_json, res_status_json, res_status_send, sessions_create.

(** X1.  Every handler whose body is one [try] with a [catch] that answers
    sends exactly one response and ends normally, whatever the request and
    whatever the provider and the processor do; the status is 200, 400, 404
    or 500. *)
Theorem caught_handlers_answer_once (w : World) (env : Env)
    (req : WebhookRequest) (ref : string) (doc : value) :
  Forall (fun run : M unit =>
            snd run = inr tt
            /\ exists r, responses (fst run) = [r] /\ known_status r = true)
    [ServerJs.get_api_shipping w env ref;
     ServerJs.post_api_checkout w env doc;
     Part000.get_api_shipping w env ref;
     Part000.post_api_checkout w env doc;
     Part001Sdk.get_api_shipping w ref;
     Part001Sdk.post_api_checkout w env doc;
     Part001Zapier.post_zapier_create_shipping_session w env doc;
     Part001Zapier.get_api_shipping w env ref;
     Part001Zapier.post_api_checkout w env doc;
     Part001Zapier.post_webhook_stripe w env req].
Proof.
  each_run; unfold_handlers; explore; settle;
    (split; [reflexivity | eexists; split; reflexivity]).
Qed.

(** X2.  A webhook run, in every server and every world, buys at most one
    label, makes no other call, creates no payment session and sends at
    most one response. *)
Theorem webhook_buys_at_most_one_label (w : World) (env : Env)
    (req : WebhookRequest) :
  Forall (fun run : M unit =>
            (List.length (label_purchases (fst run)) <= 1)%nat
            /\ outbound (fst run) = label_purchases (fst run)
            /\ session_requests (fst run) = []
            /\ (List.length (responses (fst run)) <= 1)%nat)
    [ServerJs.post_webhook_stripe w env req;
     Part000.post_webhook_stripe w env req;
     Part001Sdk.post_webhook_stripe w env req;
     Part001Zapier.post_webhook_stripe w env req].
Proof.
  each_run; unfold_handlers; explore; settle;
    repeat split; try reflexivity; apply Nat.leb_le; reflexivity.
Qed.

(** X3.  A rate inquiry, in every server and every world, only reads: it makes
    at most two calls, each a GET of the provider (or a retrieve of the
    SDK), buys no label and creates no payment session. *)
Theorem rate_inquiry_only_reads (w : World) (env : Env) (ref : string) :
  Forall (fun run : M unit =>
            forallb is_read (outbound (fst run)) = true
            /\ (List.length (outbound (fst run)) <= 2)%nat
            /\ label_purchases (fst run) = []
            /\ session_requests (fst run) = [])
    [ServerJs.get_api_shipping w env ref;
     Part000.get_api_shipping w env ref;
     Part001Sdk.get_api_shipping w ref;
     Part001Zapier.get_api_shipping w env ref].
Proof.
  each_run; unfold_handlers; explore; settle;
    repeat split; try reflexivity; apply Nat.leb_le; reflexivity.
Qed.

(** X4.  A checkout, in every server and every world, buys no label and asks
    for at most one payment session, after which it calls no one; every
    other call is a read.  It answers 200 only when it has asked for a
    session, and a checkout it answers with 400 has asked for none. *)
Theorem checkout_session_discipline (w : World) (env : Env) (doc : value) :
  Forall (fun run : M unit =>
            label_purchases (fst run) = []
            /\ (List.length (session_requests (fst run)) <= 1)%nat
            /\ reads_then_session (outbound (fst run)) = true
            /\ (forall r, In r (responses (fst run)) ->
                  status r = 200 ->
                  List.length (session_requests (fst run)) = 1%nat)
            /\ (forall r, In r (responses (fst run)) ->
                  status r = 400 ->
                  session_requests (fst run) = []))
    [ServerJs.post_api_checkout w env doc;
     Part000.post_api_checkout w env doc;
     Part001Sdk.post_api_checkout w env doc;
     Part001Zapier.post_api_checkout w env doc].
Proof.
  each_run; unfold_handlers; explore; settle;
    (split; [reflexivity|]);
    (split; [apply Nat.leb_le; reflexivity|]);
    (split; [reflexivity|]);
    split; intros r [<-|[]]; cbn [status]; intros Hst;
    try discriminate Hst; reflexivity.
Qed.

(** ** The webhook, further *)

Section WebhookConduct.
Variable w : World.
Variable env : Env.
Variable req : WebhookRequest.
Variable event : value.
Hypothesis Hverified : verification w env req = inr event.

(** X5.  A verified event of any kind other than checkout.session.completed
    is acknowledged with 200 [{ received: true }] by src/server.js, by
    src/unnamed/part_000 and by the first server of src/unnamed/part_001,
    and nothing else happens: no call, no log.  The second server of
    part_001 acknowledges no event at all: [express.json()] is mounted
    before its routes, so its webhook finds a document in [req.body], on
    which [constructEvent] throws, and it answers 400 "Webhook error"
    without a call. *)
Theorem other_kinds_acknowledged (kind : value) :
  get event "type" = inr kind ->
  strict_eq kind (VString "checkout.session.completed") = false ->
  Forall (fun run : M unit => run = ([Respond acknowledged], inr tt))
    [ServerJs.post_webhook_stripe w env req;
     Part000.post_webhook_stripe w env req;
     Part001Sdk.post_webhook_stripe w env req]
  /\ (exists bytes, req_body req = Raw bytes)
  /\ forall doc,
       Part001Zapier.post_webhook_stripe w env (parsed req doc)
       = ([Respond {| status := 400; body := Text "Webhook error" |}], inr tt).
Proof.
  intros Hkind Hother. split; [|split].
  - unfold verification in Hverified.
    each_run; unfold_handlers;
      rewrite Hverified; run; rewrite Hkind; run; rewrite Hother; run;
      reflexivity.
  - unfold verification, stripe_constructEvent in Hverified.
    destruct (req_body req) as [bytes|doc]; [eauto | discriminate].
  - exact (zapier_parsed_refused w env req).
Qed.

Variable rateId : value.
Hypothesis Hcompleted : completed_checkout event rateId.

(** X6.  On a verified checkout.session.completed event, src/server.js and
    src/unnamed/part_000 post one label purchase for the rateId of the
    session metadata, asking for a PDF and no queueing.  part_000 then
    acknowledges whatever the purchase gave, logging a failure;
    server.js acknowledges when the purchase has gone through and sends
    nothing when it has failed. *)
Theorem completed_checkout_buys_label :
  let purchase :=
    shippo_call env "/transactions"
      (post_json (VObject [("rate", rateId);
                           ("label_file_type", VString "PDF");
                           ("async", VBool false)])) in
  match snd (Shippo.shippoFetch w env "/transactions"
               (post_json (label_order rateId))) with
  | inr _ =>
      ServerJs.post_webhook_stripe w env req
      = ([purchase; Respond acknowledged], inr tt)
      /\ Part000.post_webhook_stripe w env req
         = ([purchase; Respond acknowledged], inr tt)
  | inl e =>
      ServerJs.post_webhook_stripe w env req = ([purchase], inl e)
      /\ Part000.post_webhook_stripe w env req
         = ([purchase;
             ConsoleError ["Shippo label purchase failed:"; message e];
             Respond acknowledged],
            inr tt)
  end.
Proof.
  cbv zeta. fold (label_order rateId).
  destruct (shippoFetch_once w env "/transactions" (post_json (label_order rateId)))
    as [r Hrun].
  rewrite Hrun. cbn [snd].
  destruct r as [e|v]; split; unfold_handlers;
    pose proof Hverified as Hver; pose proof Hcompleted as Hev;
    webhook_reads Hver Hev; rewrite Hrun; run; reflexivity.
Qed.

(** X7.  The first server of src/unnamed/part_001 hands the same purchase to
    the SDK, once; it acknowledges when the SDK returns and sends nothing
    when the SDK throws. *)
Theorem sdk_completed_checkout_buys_label :
  match shippo_transaction_create w (label_order rateId) with
  | inr _ =>
      Part001Sdk.post_webhook_stripe w env req
      = ([TransactionCreate (label_order rateId); Respond acknowledged], inr tt)
  | inl e =>
      Part001Sdk.post_webhook_stripe w env req
      = ([TransactionCreate (label_order rateId)], inl e)
  end.
Proof.
  destruct Hcompleted as (Htype & data & session & metadata
                          & Hdata & Hsession & Hmeta & Hnn & Hrate).
  unfold verification in Hverified.
  unfold_handlers.
  rewrite Hverified; run; rewrite Htype; run.
  cbn [strict_eq String.eqb Ascii.eqb Bool.eqb].
  rewrite Hdata; run; rewrite Hsession; run; rewrite Hmeta; run.
  rewrite !(destructure_get _ _ _ Hnn), (get_field _ "orderToken" Hnn), Hrate. run.
  destruct (shippo_transaction_create w (label_order rateId)) as [e|v];
    run; reflexivity.
Qed.

End WebhookConduct.

Lemma other_kinds_acknowledged_witness :
  Forall (fun run : M unit => run = ([Respond acknowledged], inr tt))
    [ServerJs.post_webhook_stripe (verifying Scenario.label_down payment_failed)
       Scenario.env Scenario.signed;
     Part000.post_webhook_stripe (verifying Scenario.label_down payment_failed)
       Scenario.env Scenario.signed;
     Part001Sdk.post_webhook_stripe (verifying Scenario.label_down payment_failed)
       Scenario.env Scenario.signed]
  /\ (exists bytes, req_body Scenario.signed = Raw bytes)
  /\ forall doc,
       Part001Zapier.post_webhook_stripe
         (verifying Scenario.label_down payment_failed) Scenario.env
         (parsed Scenario.signed doc)
       = ([Respond {| status := 400; body := Text "Webhook error" |}], inr tt).
Proof.
  apply (other_kinds_acknowledged (verifying Scenario.label_down payment_failed)
           Scenario.env Scenario.signed payment_failed eq_refl
           (VString "payment_intent.payment_failed")).
  - reflexivity.
  - reflexivity.
Defined.

Lemma completed_checkout_buys_label_witness :
  ServerJs.post_webhook_stripe Scenario.label_down Scenario.env Scenario.signed
  = ([shippo_call Scenario.env "/transactions"
        (post_json (VObject [("rate", VString "RATE_A");
                             ("label_file_type", VString "PDF");
                             ("async", VBool false)]))],
     inl (Error ("Shippo error 500: "
                   ++ stringify (VObject [("status", VString "ERROR")]))))
  /\ Part000.post_webhook_stripe Scenario.label_down Scenario.env Scenario.signed
     = ([shippo_call Scenario.env "/transactions"
           (post_json (VObject [("rate", VString "RATE_A");
                                ("label_file_type", VString "PDF");
                                ("async", VBool false)]));
         ConsoleError ["Shippo label purchase failed:";
                       message (Error ("Shippo error 500: "
                                         ++ stringify (VObject [("status", VString "ERROR")])))];
         Respond acknowledged],
        inr tt).
Proof.
  apply (completed_checkout_buys_label Scenario.label_down Scenario.env Scenario.signed
           Scenario.completed_event eq_refl (VString "RATE_A")).
  split; [reflexivity|].
  exists (field Scenario.completed_event "data").
  exists (field (field Scenario.completed_event "data") "object").
  exists (VObject [("rateId", VString "RATE_A")]).
  repeat split; reflexivity.
Defined.

Lemma sdk_completed_checkout_buys_label_witness :
  Part001Sdk.post_webhook_stripe Scenario.happy Scenario.env Scenario.signed
  = ([TransactionCreate (label_order (VString "RATE_A")); Respond acknowledged],
     inr tt).
Proof.
  apply (sdk_completed_checkout_buys_label Scenario.happy Scenario.env Scenario.signed
           Scenario.completed_event eq_refl (VString "RATE_A")).
  split; [reflexivity|].
  exists (field Scenario.completed_event "data").
  exists (field (field Scenario.completed_event "data") "object").
  exists (VObject [("rateId", VString "RATE_A")]).
  repeat split; reflexivity.
Defined.

(** ** The rate inquiry, further *)

Lemma get_nullish (v : value) (k : string) :
  nullish v = true -> exists e, get v k = inl e.
Proof. destruct v; try discriminate; intros _; eexists; reflexivity. Qed.

Lemma rate_entry_unreadable (r : value) :
  readable_rate r = false -> exists e, rate_entry r = inl e.
Proof.
  unfold readable_rate, rate_entry, rbind. intros H.
  destruct (nullish r) eqn:Hr.
  - destruct (get_nullish r "object_id" Hr) as [e ->]. eauto.
  - rewrite !(get_field r _ Hr).
    cbn [negb andb] in H. apply negb_false_iff in H.
    destruct (get_nullish _ "name" H) as [e ->]. eauto.
Qed.

Lemma mapM_rate_entry_unreadable (rs : list value) :
  forallb readable_rate rs = false -> exists e, mapM rate_entry rs = inl e.
Proof.
  induction rs as [|r rs IH]; simpl; [discriminate|].
  intros H. destruct (readable_rate r) eqn:Hr.
  - rewrite (rate_entry_normalized r Hr).
    destruct (IH H) as [e ->]. eauto.
  - destruct (rate_entry_unreadable r Hr) as [e ->]. eauto.
Qed.

Lemma shippoFetch_zapier_serves (w : World) (env : Env) path options v :
  serves w env path options v ->
  Shippo.shippoFetch_zapier w env path options
  = ([shippo_call env path options], inr v).
Proof.
  intros (res & Hres & Hok & Hjson).
  unfold Shippo.shippoFetch_zapier, Shippo.fetch, Shippo.res_json_body, shippo_call.
  rewrite Hres, bind_perform, Hjson. run. rewrite Hok. reflexivity.
Qed.

Section InquiryConduct.
Variable w : World.
Variable env : Env.
Variable ref : string.

(** X8.  When the provider refuses the order, the rate inquiry of src/server.js
    and of src/unnamed/part_000 answers 500 after that one call, without
    asking for a shipment.  server.js keeps the upstream text in its log;
    part_000 also returns it, status and body, as [details]. *)
Theorem inquiry_reports_upstream_refusal (st : Z) (text : string) :
  refuses w env ("/orders/" ++ ref) no_options st text ->
  let upstream :=
    "Shippo error " ++ number_to_string (of_Z st) ++ ": " ++ text in
  ServerJs.get_api_shipping w env ref
  = ([shippo_call env ("/orders/" ++ ref) no_options;
      ConsoleError [upstream];
      Respond {| status := 500; body := error_envelope "Failed to load shipping" |}],
     inr tt)
  /\ Part000.get_api_shipping w env ref
     = ([shippo_call env ("/orders/" ++ ref) no_options;
         ConsoleError ["Shipping fetch error:"; upstream];
         Respond {| status := 500;
                    body := Json (VObject
                                    [("error", VString "Failed to load shipping rates");
                                     ("details", VString upstream)]) |}],
        inr tt).
Proof.
  intros Hrefuses. cbv zeta.
  split; unfold_handlers;
    rewrite (shippoFetch_refuses _ _ _ _ _ _ Hrefuses); run; reflexivity.
Qed.

Variable order : value.
Variable first : value.
Variable others : list value.
Variable shipment : value.
Variable rs : list value.
Hypothesis Hshipments : get order "shipments" = inr (VArray (first :: others)).
Hypothesis Hrates : get shipment "rates" = inr (VArray rs).

(** X9.  One rate the callback cannot read ([null], or without servicelevel)
    fails the whole inquiry: src/server.js and src/unnamed/part_000 answer
    500 after the two reads, never a list of the other rates. *)
Theorem unreadable_rate_fails_inquiry :
  serves w env ("/orders/" ++ ref) no_options order ->
  serves w env ("/shipments/" ++ ToString first) no_options shipment ->
  forallb readable_rate rs = false ->
  exists e,
    mapM rate_entry rs = inl e
    /\ ServerJs.get_api_shipping w env ref
       = ([shippo_call env ("/orders/" ++ ref) no_options;
           shippo_call env ("/shipments/" ++ ToString first) no_options;
           ConsoleError [message e];
           Respond {| status := 500;
                      body := error_envelope "Failed to load shipping" |}],
          inr tt)
    /\ Part000.get_api_shipping w env ref
       = ([shippo_call env ("/orders/" ++ ref) no_options;
           shippo_call env ("/shipments/" ++ ToString first) no_options;
           ConsoleError ["Shipping fetch error:"; message e];
           Respond {| status := 500;
                      body := Json (VObject
                                      [("error", VString "Failed to load shipping rates");
                                       ("details", VString (message e))]) |}],
          inr tt).
Proof.
  intros Horder Hshipment Hunreadable.
  destruct (mapM_rate_entry_unreadable rs Hunreadable) as [e He].
  exists e. split; [exact He|].
  split; unfold_handlers.
  - rewrite (shippoFetch_serves _ _ _ _ _ Horder). run.
    rewrite Hshipments. run.
    cbn [truthy negb]. rewrite get_length. run.
    rewrite truthy_length. cbn [negb]. rewrite get_first. run.
    rewrite (shippoFetch_serves _ _ _ _ _ Hshipment). run.
    rewrite Hrates. run.
    unfold array_map. rewrite He. run. reflexivity.
  - rewrite (shippoFetch_serves _ _ _ _ _ Horder). run.
    rewrite Hshipments. run.
    cbn [truthy negb]. rewrite get_length. run.
    rewrite length_not_zero. rewrite get_first. run.
    rewrite (shippoFetch_serves _ _ _ _ _ Hshipment). run.
    rewrite Hrates. run.
    unfold array_map. rewrite He. run. reflexivity.
Qed.

(** X10.  The first server of src/unnamed/part_001 reads the customer without
    [?.]: with readable rates it answers the list when the order has an
    address, and 500 when it has none. *)
Theorem sdk_inquiry_needs_address :
  shippo_order_retrieve w (VString ref) = inr order ->
  shippo_shipment_retrieve w first = inr shipment ->
  forallb readable_rate rs = true ->
  Part001Sdk.get_api_shipping w ref
  = ([OrderRetrieve (VString ref);
      ShipmentRetrieve first;
      Respond (if nullish (field order "to_address")
               then {| status := 500;
                       body := error_envelope "Failed to load shipping" |}
               else rates_answer (field (field order "to_address") "name")
                                 (field (field order "to_address") "city")
                                 (field (field order "to_address") "state")
                                 (map normalized rs))],
     inr tt).
Proof.
  intros Horder Hshipment Hreadable. unfold_handlers.
  rewrite Horder. run. rewrite Hshipments. run. rewrite get_first. run.
  rewrite Hshipment. run. rewrite Hrates. run.
  unfold array_map. rewrite (mapM_rate_entry rs Hreadable). run.
  rewrite (get_field order "to_address" (get_inr_nullish _ _ _ Hshipments)). run.
  destruct (nullish (field order "to_address")) eqn:Haddr.
  - destruct (get_nullish _ "name" Haddr) as [e ->]. run. reflexivity.
  - rewrite !(get_field _ _ Haddr). run. reflexivity.
Qed.

End InquiryConduct.

Section ZapierFlow.
Variable w : World.
Variable env : Env.

(** X11.  The second server of src/unnamed/part_001 reads the shipment named by
    the reference itself and answers its rates, normalized, in the
    provider's order. *)
Theorem zapier_inquiry_lists_rates (sessionId : string) (shipment : value)
    (rs : list value) :
  serves w env ("/shipments/" ++ sessionId) no_options shipment ->
  get shipment "rates" = inr (VArray rs) ->
  forallb readable_rate rs = true ->
  Part001Zapier.get_api_shipping w env sessionId
  = ([shippo_call env ("/shipments/" ++ sessionId) no_options;
      Respond {| status := 200;
                 body := Json (VObject [("rates", VArray (map normalized rs))]) |}],
     inr tt).
Proof.
  intros Hshipment Hrates Hreadable. unfold_handlers.
  rewrite (shippoFetch_zapier_serves _ _ _ _ _ Hshipment). run.
  rewrite Hrates. run.
  unfold array_map. rewrite (mapM_rate_entry rs Hreadable). run. reflexivity.
Qed.

(** X12.  Creating a shipping session posts one shipment made of the request's
    from, to and parcel, not queued, and answers the shipment's object_id
    as the session id together with the pay page for it; a rate inquiry
    for that id then asks the provider for that very shipment. *)
Theorem zapier_session_is_the_shipment (doc shipment : value) (id : string) :
  nullish doc = false ->
  serves w env "/shipments/"
    (post_json (VObject [("address_from", field doc "from");
                         ("address_to", field doc "to");
                         ("parcels", VArray [field doc "parcel"]);
                         ("async", VBool false)]))
    shipment ->
  get shipment "object_id" = inr (VString id) ->
  Part001Zapier.post_zapier_create_shipping_session w env doc
  = ([shippo_call env "/shipments/"
        (post_json (VObject [("address_from", field doc "from");
                             ("address_to", field doc "to");
                             ("parcels", VArray [field doc "parcel"]);
                             ("async", VBool false)]));
      Respond {| status := 200;
                 body := Json (VObject
                                 [("shipping_session_id", VString id);
                                  ("checkout_url",
                                   VString (ToString (env_value (BASE_URL env))
                                              ++ "/pay-shipping.html?session=" ++ id))]) |}],
     inr tt)
  /\ outbound (fst (Part001Zapier.get_api_shipping w env id))
     = [shippo_call env ("/shipments/" ++ id) no_options].
Proof.
  intros Hdoc Hcreated Hid. split.
  - unfold_handlers.
    rewrite !(destructure_get _ _ _ Hdoc), !(get_field _ _ Hdoc). run.
    rewrite (shippoFetch_zapier_serves _ _ _ _ _ Hcreated). run.
    rewrite Hid. run. reflexivity.
  - unfold_handlers. explore; reflexivity.
Qed.

End ZapierFlow.

Lemma inquiry_reports_upstream_refusal_witness :
  ServerJs.get_api_shipping Scenario.happy Scenario.env "ORDER_9"
  = ([shippo_call Scenario.env "/orders/ORDER_9" no_options;
      ConsoleError ["Shippo error 404: " ++ resp_text Scenario.not_found];
      Respond {| status := 500; body := error_envelope "Failed to load shipping" |}],
     inr tt)
  /\ Part000.get_api_shipping Scenario.happy Scenario.env "ORDER_9"
     = ([shippo_call Scenario.env "/orders/ORDER_9" no_options;
         ConsoleError ["Shipping fetch error:";
                       "Shippo error 404: " ++ resp_text Scenario.not_found];
         Respond {| status := 500;
                    body := Json (VObject
                                    [("error", VString "Failed to load shipping rates");
                                     ("details",
                                      VString ("Shippo error 404: "
                                                 ++ resp_text Scenario.not_found))]) |}],
        inr tt).
Proof.
  apply (inquiry_reports_upstream_refusal Scenario.happy Scenario.env "ORDER_9"
           404 (resp_text Scenario.not_found)).
  exists Scenario.not_found. repeat split; reflexivity.
Defined.

Lemma unreadable_rate_fails_inquiry_witness :
  exists e,
    mapM rate_entry [Scenario.RATE_A; bare_rate] = inl e
    /\ ServerJs.get_api_shipping
         (Scenario.world [VString "SHIP_1"] [Scenario.RATE_A; bare_rate] 201)
         Scenario.env "ORDER_1"
       = ([shippo_call Scenario.env "/orders/ORDER_1" no_options;
           shippo_call Scenario.env ("/shipments/" ++ ToString (VString "SHIP_1"))
             no_options;
           ConsoleError [message e];
           Respond {| status := 500;
                      body := error_envelope "Failed to load shipping" |}],
          inr tt)
    /\ Part000.get_api_shipping
         (Scenario.world [VString "SHIP_1"] [Scenario.RATE_A; bare_rate] 201)
         Scenario.env "ORDER_1"
       = ([shippo_call Scenario.env "/orders/ORDER_1" no_options;
           shippo_call Scenario.env ("/shipments/" ++ ToString (VString "SHIP_1"))
             no_options;
           ConsoleError ["Shipping fetch error:"; message e];
           Respond {| status := 500;
                      body := Json (VObject
                                      [("error", VString "Failed to load shipping rates");
                                       ("details", VString (message e))]) |}],
          inr tt).
Proof.
  apply (unreadable_rate_fails_inquiry
           (Scenario.world [VString "SHIP_1"] [Scenario.RATE_A; bare_rate] 201)
           Scenario.env "ORDER_1"
           (Scenario.ORDER_1 [VString "SHIP_1"]) (VString "SHIP_1") []
           (Scenario.SHIP_1 [Scenario.RATE_A; bare_rate])
           [Scenario.RATE_A; bare_rate]
           eq_refl eq_refl
           (ex_intro _ _ (conj eq_refl (conj eq_refl eq_refl)))
           (ex_intro _ _ (conj eq_refl (conj eq_refl eq_refl)))).
  reflexivity.
Defined.

Lemma sdk_inquiry_needs_address_witness :
  Part001Sdk.get_api_shipping (sdk_world (Scenario.ORDER_1 [VString "SHIP_1"])) "ORDER_1"
  = ([OrderRetrieve (VString "ORDER_1");
      ShipmentRetrieve (VString "SHIP_1");
      Respond {| status := 500; body := error_envelope "Failed to load shipping" |}],
     inr tt).
Proof.
  apply (sdk_inquiry_needs_address
           (sdk_world (Scenario.ORDER_1 [VString "SHIP_1"])) "ORDER_1"
           (Scenario.ORDER_1 [VString "SHIP_1"]) (VString "SHIP_1") []
           (Scenario.SHIP_1 [Scenario.RATE_A]) [Scenario.RATE_A]
           eq_refl eq_refl eq_refl eq_refl).
  reflexivity.
Defined.

Lemma zapier_inquiry_lists_rates_witness :
  Part001Zapier.get_api_shipping Scenario.happy Scenario.env "SHIP_1"
  = ([shippo_call Scenario.env "/shipments/SHIP_1" no_options;
      Respond {| status := 200;
                 body := Json (VObject
                                 [("rates",
                                   VArray (map normalized [Scenario.RATE_A]))]) |}],
     inr tt).
Proof.
  apply (zapier_inquiry_lists_rates Scenario.happy Scenario.env "SHIP_1"
           (Scenario.SHIP_1 [Scenario.RATE_A]) [Scenario.RATE_A]
           (ex_intro _ _ (conj eq_refl (conj eq_refl eq_refl)))
           eq_refl).
  reflexivity.
Defined.

Lemma zapier_session_is_the_shipment_witness :
  Part001Zapier.post_zapier_create_shipping_session zapier_world Scenario.env
    (VObject [("from", VString "ADDR_1"); ("to", VString "ADDR_2");
              ("parcel", VString "PARCEL_1")])
  = ([shippo_call Scenario.env "/shipments/"
        (post_json (VObject [("address_from", VString "ADDR_1");
                             ("address_to", VString "ADDR_2");
                             ("parcels", VArray [VString "PARCEL_1"]);
                             ("async", VBool false)]));
      Respond {| status := 200;
                 body := Json (VObject
                                 [("shipping_session_id", VString "SHIP_1");
                                  ("checkout_url",
                                   VString "https://shop.example/pay-shipping.html?session=SHIP_1")]) |}],
     inr tt)
  /\ outbound (fst (Part001Zapier.get_api_shipping zapier_world Scenario.env "SHIP_1"))
     = [shippo_call Scenario.env "/shipments/SHIP_1" no_options].
Proof.
  apply (zapier_session_is_the_shipment zapier_world Scenario.env
           (VObject [("from", VString "ADDR_1"); ("to", VString "ADDR_2");
                     ("parcel", VString "PARCEL_1")])
           (Scenario.SHIP_1 [Scenario.RATE_A]) "SHIP_1" eq_refl).
  - eexists. split; [reflexivity | split; reflexivity].
  - reflexivity.
Defined.

(** ** The checkout, further *)

Section CheckoutConduct.
Variable w : World.
Variable env : Env.
Variable doc : value.
Variable order : value.
Variable first : value.
Variable others : list value.
Variable shipment : value.
Variable rs : list value.
Hypothesis Hdoc : nullish doc = false.
Hypothesis Hordered : truthy (field doc "orderToken") = true.
Hypothesis Hchosen : truthy (field doc "rateId") = true.
Hypothesis Horder :
  serves w env ("/orders/" ++ ToString (field doc "orderToken")) no_options order.
Hypothesis Hshipments : get order "shipments" = inr (VArray (first :: others)).
Hypothesis Hshipment :
  serves w env ("/shipments/" ++ ToString first) no_options shipment.
Hypothesis Hrates : get shipment "rates" = inr (VArray rs).
Hypothesis Hobjects : forallb is_object rs = true.

Local Abbreviation orderToken := (field doc "orderToken").
Local Abbreviation rateId := (field doc "rateId").
Local Abbreviation card_only := [("payment_method_types", VArray [VString "card"])].

(** X13.  A checkout for a rateId that names no rate of the rate set fetched
    again is turned away with 400 by src/server.js ("Invalid rate") and by
    src/unnamed/part_000 ("Invalid rate selected"), after the two reads and
    without a request to the processor. *)
Theorem unknown_rate_rejected :
  find_rate rateId rs = None ->
  ServerJs.post_api_checkout w env doc
  = ([shippo_call env ("/orders/" ++ ToString orderToken) no_options;
      shippo_call env ("/shipments/" ++ ToString first) no_options;
      Respond {| status := 400; body := error_envelope "Invalid rate" |}],
     inr tt)
  /\ Part000.post_api_checkout w env doc
     = ([shippo_call env ("/orders/" ++ ToString orderToken) no_options;
         shippo_call env ("/shipments/" ++ ToString first) no_options;
         Respond {| status := 400; body := error_envelope "Invalid rate selected" |}],
        inr tt).
Proof.
  intros Hunknown. split.
  - exact (serverjs_unknown_rate w env doc Hdoc order first others shipment rs
             Horder Hshipments Hshipment Hrates Hobjects Hunknown).
  - exact (part000_unknown_rate w env doc Hdoc order first others shipment rs
             Horder Hshipments Hshipment Hrates Hobjects Hunknown Hordered Hchosen).
Qed.

Variable rate : value.
Hypothesis Hknown : find_rate rateId rs = Some rate.
Hypothesis Hreadable : readable_rate rate = true.

(** X14.  A checkout for a rateId of the rate set asks the processor for one
    session whose single line item costs [Math.round(amount * 100)] of the
    rate fetched again, in usd, and whose metadata is the rateId; when the
    processor creates it, src/server.js and src/unnamed/part_000 answer 200
    with the session's url.  The product is the binary64 one: an amount of
    two decimals below 100.00 costs its cents, and the amount "1.005"
    costs 100, its product with 100 being 100.49999999999999. *)
Theorem known_rate_priced_by_provider (session : value) :
  (forall params, stripe_sessions_create w params = inr session) ->
  nullish session = false ->
  exists asked asked',
    ServerJs.post_api_checkout w env doc
    = ([shippo_call env ("/orders/" ++ ToString orderToken) no_options;
        shippo_call env ("/shipments/" ++ ToString first) no_options;
        SessionsCreate asked;
        Respond {| status := 200;
                   body := Json (VObject [("url", field session "url")]) |}],
       inr tt)
    /\ Part000.post_api_checkout w env doc
       = ([shippo_call env ("/orders/" ++ ToString orderToken) no_options;
           shippo_call env ("/shipments/" ++ ToString first) no_options;
           SessionsCreate asked';
           Respond {| status := 200;
                      body := Json (VObject [("url", field session "url")]) |}],
          inr tt)
    /\ unit_amount asked
       = VNumber (Math_round (mul (ToNumber (field rate "amount")) (of_Z 100)))
    /\ unit_amount asked' = unit_amount asked
    /\ field asked "metadata" = VObject [("rateId", rateId)]
    /\ field asked' "metadata" = VObject [("rateId", rateId)]
    /\ field (field (field (field asked "line_items") "0") "price_data") "currency"
       = VString "usd"
    /\ (forall n, 0 <= n < 10000 ->
        field rate "amount" = VString (money n) ->
        unit_amount asked = VNumber (of_Z n))
    (* 100 is 7036874417766400 * 2^-46 *)
    /\ (field rate "amount" = VString "1.005" ->
        unit_amount asked = VNumber (S754_finite false 7036874417766400 (-46))).
Proof.
  intros Hcreate Hsession.
  exists (priced_session env "–" [] rate rateId [("rateId", rateId)]).
  exists (priced_session env "–" card_only rate rateId [("rateId", rateId)]).
  split; [|split; [|repeat split;
                    [intros n Hn Hamount | intros Hamount];
                    change (unit_amount (priced_session env "–" [] rate rateId
                                           [("rateId", rateId)]))
                      with (cents (field rate "amount"));
                    rewrite Hamount;
                    [exact (money_cents n Hn) | exact (proj1 half_cents_lost)]]].
  - exact (serverjs_known_rate w env doc Hdoc order first others shipment rs
             Horder Hshipments Hshipment Hrates Hobjects rate session
             Hknown Hreadable (Hcreate _) Hsession).
  - exact (part000_known_rate w env doc Hdoc order first others shipment rs
             Horder Hshipments Hshipment Hrates Hobjects rate session
             Hknown Hreadable Hordered Hchosen (Hcreate _) Hsession).
Qed.

(** X15.  When the processor refuses the session, both servers answer 500 and no
    url; src/unnamed/part_000 returns the processor's message as
    [details]. *)
Theorem processor_refusal_is_server_error (e : exn) :
  (forall params, stripe_sessions_create w params = inl e) ->
  response_of (fst (ServerJs.post_api_checkout w env doc))
  = Some {| status := 500; body := error_envelope "Checkout failed" |}
  /\ response_of (fst (Part000.post_api_checkout w env doc))
     = Some {| status := 500;
               body := Json (VObject [("error", VString "Checkout failed");
                                      ("details", VString (message e))]) |}
  /\ List.length (session_requests (fst (ServerJs.post_api_checkout w env doc))) = 1%nat
  /\ List.length (session_requests (fst (Part000.post_api_checkout w env doc))) = 1%nat.
Proof.
  intros Hrefused.
  assert (Hobj : is_object rate = true)
    by exact (find_rate_object _ _ _ Hobjects Hknown).
  assert (Htruthy : truthy rate = true)
    by (destruct rate; try discriminate Hobj; reflexivity).
  pose proof Hreadable as Hr. unfold readable_rate in Hr.
  apply andb_prop in Hr as [Hr Hs]. apply negb_true_iff in Hr, Hs.
  repeat split; unfold_handlers;
    rewrite !(destructure_get _ _ _ Hdoc), !(get_field _ _ Hdoc); run;
    rewrite ?Hordered, ?Hchosen; cbn [negb orb];
    rewrite (shippoFetch_serves _ _ _ _ _ Horder); run;
    rewrite Hshipments; run; rewrite get_first; run;
    rewrite (shippoFetch_serves _ _ _ _ _ Hshipment); run;
    rewrite Hrates; run;
    rewrite (array_find_rate _ _ _ Hobjects); run;
    rewrite Hknown, Htruthy; cbn [negb]; run;
    rewrite !(get_field rate _ Hr); run;
    rewrite (get_field _ "name" Hs); run;
    rewrite Hrefused; run; reflexivity.
Qed.

End CheckoutConduct.

(** ** From the checkout to the label *)

Lemma destructure_inr (v x : value) (src k : string) :
  destructure v src k = inr x -> nullish v = false /\ x = field v k.
Proof.
  unfold destructure. destruct (nullish v) eqn:Hv; [discriminate|].
  intros H. split; [reflexivity|]. unfold field. rewrite H. reflexivity.
Qed.

(** The label purchases of a webhook run on a completed checkout. *)
Lemma webhook_label_purchases (w : World) (env : Env) (req : WebhookRequest)
    (event rateId : value) :
  verification w env req = inr event ->
  completed_checkout event rateId ->
  label_purchases (fst (ServerJs.post_webhook_stripe w env req))
  = [shippo_call env "/transactions" (post_json (label_order rateId))]
  /\ label_purchases (fst (Part000.post_webhook_stripe w env req))
     = [shippo_call env "/transactions" (post_json (label_order rateId))]
  /\ label_purchases (fst (Part001Sdk.post_webhook_stripe w env req))
     = [TransactionCreate (label_order rateId)].
Proof.
  intros Hver Hev.
  destruct Hev as (Htype & data & session & metadata
                   & Hdata & Hsession & Hmeta & Hnn & Hrate).
  unfold verification in Hver.
  repeat split; unfold_handlers;
    rewrite Hver; run; rewrite Htype; run;
    cbn [strict_eq String.eqb Ascii.eqb Bool.eqb];
    rewrite Hdata; run; rewrite Hsession; run; rewrite Hmeta; run;
    rewrite ?(destructure_get _ _ _ Hnn), ?(get_field _ "orderToken" Hnn), ?Hrate;
    run; explore; reflexivity.
Qed.

Ltac fork_keeping :=
  match goal with
  | |- context [Shippo.shippoFetch ?w ?env ?p ?o] =>
      let r := fresh "r" in
      let H := fresh "H" in
      destruct (shippoFetch_once w env p o) as [r H]; rewrite H; clear H;
      destruct r
  | |- context [match ?x with inl _ => _ | inr _ => _ end] => destruct x eqn:?
  | |- context [if ?b then _ else _] => destruct b
  end.

Ltac read_back :=
  repeat match goal with
    | H : destructure _ _ _ = inr _ |- _ =>
        apply destructure_inr in H; destruct H as [_ H]; rewrite H in *; clear H
    end.

(** X20.  What is paid for is what is bought.  When the processor reports the
    completion of a session a checkout has asked for, echoing its metadata,
    the webhook of the same server buys the label of the rateId of the
    checkout request, and no other: so src/server.js, src/unnamed/part_000
    and the first server of src/unnamed/part_001.  The second server of
    part_001 buys nothing for what it has been paid: its webhook, behind
    [express.json()], finds a document and refuses it. *)
Theorem paid_rate_is_bought (w w' : World) (env : Env) (doc : value)
    (req : WebhookRequest) (asked : value) :
  verification w' env req = inr (event_of asked) ->
  (In asked (session_requests (fst (ServerJs.post_api_checkout w env doc))) ->
   label_purchases (fst (ServerJs.post_webhook_stripe w' env req))
   = [shippo_call env "/transactions"
        (post_json (label_order (field doc "rateId")))])
  /\ (In asked (session_requests (fst (Part000.post_api_checkout w env doc))) ->
      label_purchases (fst (Part000.post_webhook_stripe w' env req))
      = [shippo_call env "/transactions"
           (post_json (label_order (field doc "rateId")))])
  /\ (In asked (session_requests (fst (Part001Sdk.post_api_checkout w env doc))) ->
      label_purchases (fst (Part001Sdk.post_webhook_stripe w' env req))
      = [TransactionCreate (label_order (field doc "rateId"))])
  /\ (forall parsed_body,
        label_purchases
          (fst (Part001Zapier.post_webhook_stripe w' env (parsed req parsed_body)))
        = []).
Proof.
  intros Hver.
  assert (Hecho : forall name amount extra metadata success cancel,
             asked = session_params name amount extra metadata success cancel ->
             In extra [[]; [("payment_method_types", VArray [VString "card"])]] ->
             lookup "rateId" metadata = field doc "rateId" ->
             completed_checkout (event_of asked) (field doc "rateId")).
  { intros name amount extra metadata success cancel -> Hextra Hrate.
    split; [reflexivity|].
    exists (field (event_of (session_params name amount extra metadata success cancel))
              "data").
    exists (VObject [("metadata", VObject metadata)]).
    exists (VObject metadata).
    destruct Hextra as [<-|[<-|[]]]; repeat split; try reflexivity;
      cbn [get]; rewrite Hrate; reflexivity. }
  split; [|split; [|split; [|intros parsed_body;
                               rewrite zapier_parsed_refused; reflexivity]]];
    intros Hin;
    unfold ServerJs.post_api_checkout, Part000.post_api_checkout,
      Part001Sdk.post_api_checkout, Part001Zapier.post_api_checkout,
      ServerJs.shippoFetch, Part000.shippoFetch,
      Part001Sdk.order_retrieve, Part001Sdk.shipment_retrieve,
      console_error, res_json, res_status_json, res_status_send,
      sessions_create in Hin;
    revert Hin; steps; repeat (fork_keeping; steps);
    cbn [fst snd app flat_map session_requests In];
    intros Hin; try contradiction;
    destruct Hin as [Hasked|[]]; symmetry in Hasked; read_back;
    apply (webhook_label_purchases w' env req (event_of asked) _ Hver);
    apply (Hecho _ _ _ _ _ _ Hasked); cbn [In]; auto.
Qed.

Lemma paid_rate_is_bought_witness :
  (In (priced_session Scenario.env "–" [] Scenario.RATE_A (VString "RATE_A")
         [("rateId", VString "RATE_A")])
      (session_requests
         (fst (ServerJs.post_api_checkout Scenario.happy Scenario.env
                 (VObject [("orderToken", VString "ORDER_1");
                           ("rateId", VString "RATE_A")])))) ->
   label_purchases
     (fst (ServerJs.post_webhook_stripe
             (verifying Scenario.label_down
                (event_of (priced_session Scenario.env "–" [] Scenario.RATE_A
                             (VString "RATE_A") [("rateId", VString "RATE_A")])))
             Scenario.env Scenario.signed))
   = [shippo_call Scenario.env "/transactions"
        (post_json (label_order (VString "RATE_A")))])
  /\ In (priced_session Scenario.env "–" [] Scenario.RATE_A (VString "RATE_A")
           [("rateId", VString "RATE_A")])
        (session_requests
           (fst (ServerJs.post_api_checkout Scenario.happy Scenario.env
                   (VObject [("orderToken", VString "ORDER_1");
                             ("rateId", VString "RATE_A")])))).
Proof.
  split; [|left; reflexivity].
  apply (paid_rate_is_bought Scenario.happy
           (verifying Scenario.label_down
              (event_of (priced_session Scenario.env "–" [] Scenario.RATE_A
                           (VString "RATE_A") [("rateId", VString "RATE_A")])))
           Scenario.env
           (VObject [("orderToken", VString "ORDER_1"); ("rateId", VString "RATE_A")])
           Scenario.signed
           (priced_session Scenario.env "–" [] Scenario.RATE_A (VString "RATE_A")
              [("rateId", VString "RATE_A")])
           eq_refl).
Defined.

(** ** The other two checkouts *)

(** X16.  The first server of src/unnamed/part_001 prices like its siblings:
    [Math.round(amount * 100)] of the rate fetched again, in binary64, so
    that an amount of two decimals below 100.00 costs its cents and the
    amount "1.005" costs 100.  It stores the orderToken beside the rateId
    in the session's metadata. *)
Theorem sdk_known_rate_priced_by_provider (w : World) (env : Env)
    (doc order first shipment rate session : value) (others rs : list value) :
  nullish doc = false ->
  shippo_order_retrieve w (field doc "orderToken") = inr order ->
  get order "shipments" = inr (VArray (first :: others)) ->
  shippo_shipment_retrieve w first = inr shipment ->
  get shipment "rates" = inr (VArray rs) ->
  forallb is_object rs = true ->
  find_rate (field doc "rateId") rs = Some rate ->
  readable_rate rate = true ->
  (forall params, stripe_sessions_create w params = inr session) ->
  nullish session = false ->
  exists asked,
    Part001Sdk.post_api_checkout w env doc
    = ([OrderRetrieve (field doc "orderToken");
        ShipmentRetrieve first;
        SessionsCreate asked;
        Respond {| status := 200;
                   body := Json (VObject [("url", field session "url")]) |}],
       inr tt)
    /\ unit_amount asked
       = VNumber (Math_round (mul (ToNumber (field rate "amount")) (of_Z 100)))
    /\ field asked "metadata"
       = VObject [("orderToken", field doc "orderToken");
                  ("rateId", field doc "rateId")]
    /\ (forall n, 0 <= n < 10000 ->
        field rate "amount" = VString (money n) ->
        unit_amount asked = VNumber (of_Z n))
    (* 100 is 7036874417766400 * 2^-46 *)
    /\ (field rate "amount" = VString "1.005" ->
        unit_amount asked = VNumber (S754_finite false 7036874417766400 (-46))).
Proof.
  intros Hdoc Horder Hshipments Hshipment Hrates Hobjects Hknown Hreadable
    Hcreate Hsession.
  assert (Hobj : is_object rate = true)
    by exact (find_rate_object _ _ _ Hobjects Hknown).
  pose proof Hreadable as Hr. unfold readable_rate in Hr.
  apply andb_prop in Hr as [Hr Hs]. apply negb_true_iff in Hr, Hs.
  eexists. split; [|split; [|split; [|split]]].
  - unfold_handlers.
    rewrite !(destructure_get _ _ _ Hdoc), !(get_field _ _ Hdoc). run.
    rewrite Horder. run. rewrite Hshipments. run. rewrite get_first. run.
    rewrite Hshipment. run. rewrite Hrates. run.
    rewrite (array_find_rate _ _ _ Hobjects). run. rewrite Hknown.
    rewrite !(get_field rate _ Hr). run.
    rewrite (get_field _ "name" Hs). run.
    rewrite Hcreate. run. rewrite (get_field _ _ Hsession). run.
    reflexivity.
  - reflexivity.
  - reflexivity.
  - intros n Hn Hamount.
    change (cents (field rate "amount") = VNumber (of_Z n)).
    rewrite Hamount. exact (money_cents n Hn).
  - intros Hamount.
    change (cents (field rate "amount")
            = VNumber (S754_finite false 7036874417766400 (-46))).
    rewrite Hamount. exact (proj1 half_cents_lost).
Qed.

(** X17.  The second server of src/unnamed/part_001 asks the processor for a
    session of [Math.round(amount * 100)] of the amount of the request, in
    binary64: an amount of two decimals below 100.00 costs its cents, and
    the amount 1.005 costs 100.  It answers what the processor answers:
    the url of the session it has created, or 500 with the processor's
    message as the error. *)
Theorem zapier_checkout_follows_processor (w : World) (env : Env) (doc : value) :
  nullish doc = false ->
  let asked :=
    session_params "Shipping Charge" (cents (field doc "amount")) []
      [("rateId", field doc "rateId")]
      (ToString (env_value (BASE_URL env)) ++ "/success.html")
      (ToString (env_value (BASE_URL env)) ++ "/cancel.html") in
  match stripe_sessions_create w asked with
  | inl e =>
      Part001Zapier.post_api_checkout w env doc
      = ([SessionsCreate asked;
          Respond {| status := 500; body := error_envelope (message e) |}],
         inr tt)
  | inr session =>
      nullish session = false ->
      Part001Zapier.post_api_checkout w env doc
      = ([SessionsCreate asked;
          Respond {| status := 200;
                     body := Json (VObject [("url", field session "url")]) |}],
         inr tt)
  end
  /\ (forall n, 0 <= n < 10000 ->
      field doc "amount" = VString (money n) ->
      unit_amount asked = VNumber (of_Z n))
  (* 1.005 is 4526117625507348 * 2^-52, and 100 is 7036874417766400 * 2^-46 *)
  /\ (field doc "amount" = VNumber (S754_finite false 4526117625507348 (-52)) ->
      unit_amount asked = VNumber (S754_finite false 7036874417766400 (-46))).
Proof.
  intros Hdoc asked. split; [|split].
  - unfold_handlers.
    rewrite !(destructure_get _ _ _ Hdoc), !(get_field _ _ Hdoc). run.
    fold asked.
    destruct (stripe_sessions_create w asked) as [e|session]; run; [reflexivity|].
    intros Hsession. rewrite (get_field _ _ Hsession). run. reflexivity.
  - intros n Hn Hamount.
    change (cents (field doc "amount") = VNumber (of_Z n)).
    rewrite Hamount. exact (money_cents n Hn).
  - intros Hamount.
    change (cents (field doc "amount")
            = VNumber (S754_finite false 7036874417766400 (-46))).
    rewrite Hamount. vm_compute. reflexivity.
Qed.

(** ** The headers of the client *)

Lemma header_app (k : string) (a b : headers) :
  Shippo.header k (a ++ b)%list
  = match Shippo.header k a with
    | Some v => Some v
    | None => Shippo.header k b
    end.
Proof.
  induction a as [|[k' v] a IH]; simpl; [reflexivity|].
  destruct (String.eqb k k'); [reflexivity | exact IH].
Qed.

Lemma header_overridden (k : string) (base extra : headers) :
  Shippo.header k
    (map (fun kv => match Shippo.header (fst kv) extra with
                    | Some v => (fst kv, v)
                    | None => kv
                    end) base)
  = match Shippo.header k base with
    | Some v0 => match Shippo.header k extra with
                 | Some v => Some v
                 | None => Some v0
                 end
    | None => None
    end.
Proof.
  induction base as [|[k' v0] base IH]; simpl; [reflexivity|].
  destruct (String.eqb k k') eqn:E.
  - apply String.eqb_eq in E. subst k'.
    destruct (Shippo.header k extra); simpl; rewrite String.eqb_refl; reflexivity.
  - destruct (Shippo.header k' extra); simpl; rewrite E; exact IH.
Qed.

Lemma header_remaining (k : string) (base extra : headers) :
  Shippo.header k
    (filter (fun kv => match Shippo.header (fst kv) base with
                       | Some _ => false
                       | None => true
                       end) extra)
  = match Shippo.header k base with
    | Some _ => None
    | None => Shippo.header k extra
    end.
Proof.
  induction extra as [|[k' v] extra IH]; simpl.
  - destruct (Shippo.header k base); reflexivity.
  - destruct (Shippo.header k' base) eqn:Hb; simpl.
    + rewrite IH. destruct (String.eqb k k') eqn:E; [|reflexivity].
      apply String.eqb_eq in E. subst k'. rewrite Hb. reflexivity.
    + destruct (String.eqb k k') eqn:E.
      * apply String.eqb_eq in E. subst k'. rewrite Hb. reflexivity.
      * exact IH.
Qed.

(** X22.  The headers of a call are the token and the content type with the
    caller's headers laid over them: a header of the caller wins, also
    over the token, and every other header of the caller is added. *)
Theorem caller_headers_win (env : Env) (options : RequestInit) (own : headers) :
  init_headers options = Some own ->
  exists sent,
    init_headers (Shippo.shippo_init env options) = Some sent
    /\ forall k,
         Shippo.header k sent
         = match Shippo.header k own with
           | Some v => Some v
           | None =>
               Shippo.header k
                 [("Authorization", "ShippoToken " ++ ToString (Shippo.SHIPPO_TOKEN env));
                  ("Content-Type", "application/json")]
           end.
Proof.
  intros Hown. eexists. split; [unfold Shippo.shippo_init; rewrite Hown; reflexivity|].
  intros k. unfold Shippo.spread.
  rewrite header_app, header_overridden, header_remaining.
  destruct (Shippo.header k _) as [v0|]; destruct (Shippo.header k own); reflexivity.
Qed.

Lemma caller_headers_win_witness :
  exists sent,
    init_headers
      (Shippo.shippo_init Scenario.env
         {| init_method := None; init_body := None;
            init_headers := Some [("Authorization", "ShippoToken other");
                                  ("Accept", "application/json")] |})
    = Some sent
    /\ forall k,
         Shippo.header k sent
         = match Shippo.header k [("Authorization", "ShippoToken other");
                                  ("Accept", "application/json")] with
           | Some v => Some v
           | None =>
               Shippo.header k
                 [("Authorization",
                   "ShippoToken " ++ ToString (Shippo.SHIPPO_TOKEN Scenario.env));
                  ("Content-Type", "application/json")]
           end.
Proof.
  apply (caller_headers_win Scenario.env
           {| init_method := None; init_body := None;
              init_headers := Some [("Authorization", "ShippoToken other");
                                    ("Accept", "application/json")] |}
           [("Authorization", "ShippoToken other"); ("Accept", "application/json")]).
  reflexivity.
Defined.

(** ** The scenario, for the checkout *)

Lemma unknown_rate_rejected_witness :
  ServerJs.post_api_checkout Scenario.happy Scenario.env
    (VObject [("orderToken", VString "ORDER_1"); ("rateId", VString "RATE_X")])
  = ([shippo_call Scenario.env ("/orders/" ++ ToString (VString "ORDER_1")) no_options;
      shippo_call Scenario.env ("/shipments/" ++ ToString (VString "SHIP_1")) no_options;
      Respond {| status := 400; body := error_envelope "Invalid rate" |}],
     inr tt)
  /\ Part000.post_api_checkout Scenario.happy Scenario.env
       (VObject [("orderToken", VString "ORDER_1"); ("rateId", VString "RATE_X")])
     = ([shippo_call Scenario.env ("/orders/" ++ ToString (VString "ORDER_1")) no_options;
         shippo_call Scenario.env ("/shipments/" ++ ToString (VString "SHIP_1")) no_options;
         Respond {| status := 400; body := error_envelope "Invalid rate selected" |}],
        inr tt).
Proof.
  apply (unknown_rate_rejected Scenario.happy Scenario.env
           (VObject [("orderToken", VString "ORDER_1"); ("rateId", VString "RATE_X")])
           (Scenario.ORDER_1 [VString "SHIP_1"]) (VString "SHIP_1") []
           (Scenario.SHIP_1 [Scenario.RATE_A]) [Scenario.RATE_A]
           eq_refl eq_refl eq_refl
           (ex_intro _ _ (conj eq_refl (conj eq_refl eq_refl)))
           eq_refl
           (ex_intro _ _ (conj eq_refl (conj eq_refl eq_refl)))
           eq_refl eq_refl).
  reflexivity.
Defined.

Lemma known_rate_priced_by_provider_witness :
  exists asked asked',
    ServerJs.post_api_checkout half_cent Scenario.env
      (VObject [("orderToken", VString "ORDER_1"); ("rateId", VString "RATE_H")])
    = ([shippo_call Scenario.env "/orders/ORDER_1" no_options;
        shippo_call Scenario.env "/shipments/SHIP_1" no_options;
        SessionsCreate asked;
        Respond {| status := 200;
                   body := Json (VObject [("url", field Scenario.session "url")]) |}],
       inr tt)
    /\ Part000.post_api_checkout half_cent Scenario.env
         (VObject [("orderToken", VString "ORDER_1"); ("rateId", VString "RATE_H")])
       = ([shippo_call Scenario.env "/orders/ORDER_1" no_options;
           shippo_call Scenario.env "/shipments/SHIP_1" no_options;
           SessionsCreate asked';
           Respond {| status := 200;
                      body := Json (VObject [("url", field Scenario.session "url")]) |}],
          inr tt)
    /\ unit_amount asked = VNumber (S754_finite false 7036874417766400 (-46))
    /\ unit_amount asked' = unit_amount asked
    /\ field asked "metadata" = VObject [("rateId", VString "RATE_H")]
    /\ field asked' "metadata" = VObject [("rateId", VString "RATE_H")]
    /\ field (field (field (field asked "line_items") "0") "price_data") "currency"
       = VString "usd"
    /\ (forall n, 0 <= n < 10000 ->
        VString "1.005" = VString (money n) ->
        unit_amount asked = VNumber (of_Z n))
    /\ (VString "1.005" = VString "1.005" ->
        unit_amount asked = VNumber (S754_finite false 7036874417766400 (-46))).
Proof.
  apply (known_rate_priced_by_provider half_cent Scenario.env
           (VObject [("orderToken", VString "ORDER_1"); ("rateId", VString "RATE_H")])
           (Scenario.ORDER_1 [VString "SHIP_1"]) (VString "SHIP_1") []
           (Scenario.SHIP_1 [half_cent_rate]) [half_cent_rate]
           eq_refl eq_refl eq_refl
           (ex_intro _ _ (conj eq_refl (conj eq_refl eq_refl)))
           eq_refl
           (ex_intro _ _ (conj eq_refl (conj eq_refl eq_refl)))
           eq_refl eq_refl
           half_cent_rate eq_refl eq_refl
           Scenario.session).
  - reflexivity.
  - reflexivity.
Defined.

Lemma processor_refusal_is_server_error_witness :
  response_of (fst (ServerJs.post_api_checkout
                      (processor_down Scenario.happy (Error "card network down"))
                      Scenario.env
                      (VObject [("orderToken", VString "ORDER_1");
                                ("rateId", VString "RATE_A")])))
  = Some {| status := 500; body := error_envelope "Checkout failed" |}
  /\ response_of (fst (Part000.post_api_checkout
                         (processor_down Scenario.happy (Error "card network down"))
                         Scenario.env
                         (VObject [("orderToken", VString "ORDER_1");
                                   ("rateId", VString "RATE_A")])))
     = Some {| status := 500;
               body := Json (VObject [("error", VString "Checkout failed");
                                      ("details",
                                       VString (message (Error "card network down")))]) |}
  /\ List.length (session_requests
                    (fst (ServerJs.post_api_checkout
                            (processor_down Scenario.happy (Error "card network down"))
                            Scenario.env
                            (VObject [("orderToken", VString "ORDER_1");
                                      ("rateId", VString "RATE_A")])))) = 1%nat
  /\ List.length (session_requests
                    (fst (Part000.post_api_checkout
                            (processor_down Scenario.happy (Error "card network down"))
                            Scenario.env
                            (VObject [("orderToken", VString "ORDER_1");
                                      ("rateId", VString "RATE_A")])))) = 1%nat.
Proof.
  apply (processor_refusal_is_server_error
           (processor_down Scenario.happy (Error "card network down")) Scenario.env
           (VObject [("orderToken", VString "ORDER_1"); ("rateId", VString "RATE_A")])
           (Scenario.ORDER_1 [VString "SHIP_1"]) (VString "SHIP_1") []
           (Scenario.SHIP_1 [Scenario.RATE_A]) [Scenario.RATE_A]
           eq_refl eq_refl eq_refl
           (ex_intro _ _ (conj eq_refl (conj eq_refl eq_refl)))
           eq_refl
           (ex_intro _ _ (conj eq_refl (conj eq_refl eq_refl)))
           eq_refl eq_refl
           Scenario.RATE_A eq_refl eq_refl
           (Error "card network down")).
  reflexivity.
Defined.

Lemma sdk_known_rate_priced_by_provider_witness :
  exists asked,
    Part001Sdk.post_api_checkout half_cent Scenario.env
      (VObject [("orderToken", VString "ORDER_1"); ("rateId", VString "RATE_H")])
    = ([OrderRetrieve (VString "ORDER_1");
        ShipmentRetrieve (VString "SHIP_1");
        SessionsCreate asked;
        Respond {| status := 200;
                   body := Json (VObject [("url", field Scenario.session "url")]) |}],
       inr tt)
    /\ unit_amount asked = VNumber (S754_finite false 7036874417766400 (-46))
    /\ field asked "metadata"
       = VObject [("orderToken", VString "ORDER_1"); ("rateId", VString "RATE_H")]
    /\ (forall n, 0 <= n < 10000 ->
        VString "1.005" = VString (money n) ->
        unit_amount asked = VNumber (of_Z n))
    /\ (VString "1.005" = VString "1.005" ->
        unit_amount asked = VNumber (S754_finite false 7036874417766400 (-46))).
Proof.
  apply (sdk_known_rate_priced_by_provider half_cent Scenario.env
           (VObject [("orderToken", VString "ORDER_1"); ("rateId", VString "RATE_H")])
           (Scenario.ORDER_1 [VString "SHIP_1"]) (VString "SHIP_1")
           (Scenario.SHIP_1 [half_cent_rate]) half_cent_rate Scenario.session
           [] [half_cent_rate]);
    reflexivity.
Defined.

Lemma zapier_checkout_follows_processor_witness :
  Part001Zapier.post_api_checkout
    (processor_down Scenario.happy (Error "card network down")) Scenario.env
    (VObject [("rateId", VString "RATE_A");
              ("amount", VNumber (S754_finite false 4526117625507348 (-52)))])
  = ([SessionsCreate
        (session_params "Shipping Charge"
           (VNumber (S754_finite false 7036874417766400 (-46))) []
           [("rateId", VString "RATE_A")]
           "https://shop.example/success.html"
           "https://shop.example/cancel.html");
      Respond {| status := 500; body := error_envelope "card network down" |}],
     inr tt)
  /\ (forall n, 0 <= n < 10000 ->
      VNumber (S754_finite false 4526117625507348 (-52)) = VString (money n) ->
      VNumber (S754_finite false 7036874417766400 (-46)) = VNumber (of_Z n))
  /\ (VNumber (S754_finite false 4526117625507348 (-52))
      = VNumber (S754_finite false 4526117625507348 (-52)) ->
      VNumber (S754_finite false 7036874417766400 (-46))
      = VNumber (S754_finite false 7036874417766400 (-46))).
Proof.
  apply (zapier_checkout_follows_processor
           (processor_down Scenario.happy (Error "card network down")) Scenario.env
           (VObject [("rateId", VString "RATE_A");
                     ("amount", VNumber (S754_finite false 4526117625507348 (-52)))])).
  reflexivity.
Defined.

Lemma part000_missing_field_witness :
  Part000.post_api_checkout Scenario.happy Scenario.env
    (VObject [("orderToken", VString "ORDER_1"); ("rateId", VString "")])
  = ([Respond {| status := 400;
                 body := error_envelope "Missing orderToken or rateId" |}],
     inr tt).
Proof.
  apply (part000_missing_field Scenario.happy Scenario.env
           (VObject [("orderToken", VString "ORDER_1"); ("rateId", VString "")])
           eq_refl).
  right. reflexivity.
Defined.

Lemma checkout_reads_token_and_rate_witness :
  ServerJs.post_api_checkout Scenario.happy Scenario.env
    (VObject [("orderToken", VString "ORDER_1"); ("rateId", VString "RATE_A");
              ("amount", VNumber (decimal 1 (-2)))])
  = ServerJs.post_api_checkout Scenario.happy Scenario.env
      (VObject [("orderToken", VString "ORDER_1"); ("rateId", VString "RATE_A")])
  /\ Part000.post_api_checkout Scenario.happy Scenario.env
       (VObject [("orderToken", VString "ORDER_1"); ("rateId", VString "RATE_A");
                 ("amount", VNumber (decimal 1 (-2)))])
     = Part000.post_api_checkout Scenario.happy Scenario.env
         (VObject [("orderToken", VString "ORDER_1"); ("rateId", VString "RATE_A")]).
Proof.
  apply (checkout_reads_token_and_rate Scenario.happy Scenario.env
           (VObject [("orderToken", VString "ORDER_1"); ("rateId", VString "RATE_A");
                     ("amount", VNumber (decimal 1 (-2)))])
           (VObject [("orderToken", VString "ORDER_1"); ("rateId", VString "RATE_A")]));
    reflexivity.
Defined.

Lemma shippoFetch_failure_witness :
  snd (Shippo.shippoFetch Scenario.happy Scenario.env "/orders/ORDER_9" no_options)
  = inl (Error ("Shippo error "
                  ++ number_to_string (of_Z (resp_status Scenario.not_found))
                  ++ ": " ++ resp_text Scenario.not_found)).
Proof.
  apply (shippoFetch_failure Scenario.happy Scenario.env "/orders/ORDER_9" no_options
           Scenario.not_found);
    reflexivity.
Defined.
